(** * plane_display: the METAR decoder and the flight tracker

    A shallow embedding of [metar.py] and of the state-carrying part of
    [flight_display.py] ([get_display_data] and the reset step of
    [FlightDisplay.refresh_ui]), followed by the properties of the
    written specification that were checked against it.

    Conventions of the embedding.
    - Python [str] values are [string]s of bytes; report texts are ASCII,
      the degree sign of the display strings is its two UTF-8 bytes.
    - Python dictionaries with string keys are [gmap string value].
    - Python floats (wall-clock seconds, extrapolated altitudes) are exact
      rationals [Q]; integers are [Z].
    - The network, the wall clock and the UTC clock string are inputs of a
      tick, gathered in the record [tick_env].
    - An exception that leaves a function is the result [None]; the global
      variables keep the assignments made before it was raised. *)

From Stdlib Require Import ZArith QArith Lia Lqa String Ascii List.
From stdpp Require Import gmap strings list fin_maps pretty.

Local Open Scope string_scope.
Local Open Scope Z_scope.

(** ** Values stored in the dictionaries *)

Inductive value : Type :=
  | VStr (s : string)
  | VInt (n : Z)
  | VFloat (q : Q)
  | VNull.

Abbreviation dict := (gmap string value).

(** A dictionary display [{k1: v1, ...}] or a sequence of assignments
    [d[k] = v]: later bindings replace earlier ones. *)
Definition py_dict (l : list (string * value)) : dict :=
  fold_left (fun d kv => <[kv.1 := kv.2]> d) l ∅.

(** [d.update(e)]: the bindings of [e] replace those of [d]. *)
Definition dict_update (d e : dict) : dict := e ∪ d.

(** ** Regular expressions of fixed shape

    Every pattern of [metar.py] is an alternation of character sequences
    in which each position is a literal or [\d]. *)

Module Re.

Inductive atom : Type :=
  | Lit (c : ascii)
  | Digit.

Definition is_digit (c : ascii) : bool :=
  (48 <=? nat_of_ascii c)%nat && (nat_of_ascii c <=? 57)%nat.

Definition atom_ok (a : atom) (c : ascii) : bool :=
  match a with
  | Lit l => Ascii.eqb l c
  | Digit => is_digit c
  end.

(** The text matched by the sequence [p] at the start of [s]. *)
Fixpoint match_prefix (p : list atom) (s : string) : option string :=
  match p with
  | [] => Some ""
  | a :: p' =>
      match s with
      | "" => None
      | String c s' =>
          if atom_ok a c then String c <$> match_prefix p' s' else None
      end
  end.

(** Alternatives are tried in order at one position. *)
Fixpoint match_alts (alts : list (list atom)) (s : string) : option string :=
  match alts with
  | [] => None
  | p :: rest =>
      match match_prefix p s with
      | Some m => Some m
      | None => match_alts rest s
      end
  end.

(** [re.search]: the match at the leftmost position that has one. *)
Fixpoint search (alts : list (list atom)) (s : string) : option string :=
  match match_alts alts s with
  | Some m => Some m
  | None =>
      match s with
      | "" => None
      | String _ s' => search alts s'
      end
  end.

(** [re.findall]: the matches from left to right, each search resuming
    where the previous match ended; [skip] counts the characters of the
    last match that are still to be passed over. *)
Fixpoint findall_from (alts : list (list atom)) (skip : nat) (s : string)
  : list string :=
  match s with
  | "" => []
  | String _ s' =>
      match skip with
      | S k => findall_from alts k s'
      | O =>
          match match_alts alts s with
          | Some m => m :: findall_from alts (String.length m - 1) s'
          | None => findall_from alts 0 s'
          end
      end
  end.

Definition findall (alts : list (list atom)) (s : string) : list string :=
  findall_from alts 0 s.

End Re.

(** ** Python built-ins used by the two files *)

(** [code in metar] on strings. *)
Fixpoint str_in (code s : string) : bool :=
  String.prefix code s ||
  match s with
  | "" => false
  | String _ s' => str_in code s'
  end.

Definition digit_val (c : ascii) : Z := Z.of_nat (nat_of_ascii c) - 48.

Fixpoint int_digits (acc : Z) (s : string) : Z :=
  match s with
  | "" => acc
  | String c s' => int_digits (10 * acc + digit_val c) s'
  end.

(** [int(s)] for a string of decimal digits, the only strings the
    patterns hand to it. *)
Definition py_int (s : string) : Z := int_digits 0 s.

(** [f"{n:02}"] for a natural number. *)
Definition pad2 (n : Z) : string :=
  if n <? 10 then "0" +:+ pretty n else pretty n.

(** Thousands separators, on the reversed digits. *)
Fixpoint group3 (k : nat) (rev_digits : list ascii) : list ascii :=
  match rev_digits with
  | [] => []
  | c :: r =>
      match k with
      | 3%nat => "," %char :: c :: group3 1 r
      | _ => c :: group3 (S k) r
      end
  end.

(** [f"{n:,}"] for a natural number. *)
Definition fmt_commas (n : Z) : string :=
  string_of_list_ascii
    (rev (group3 0 (rev (list_ascii_of_string (pretty n))))).

(** [f"{n / 100:.2f}"] for a natural number [n]: the quotient by 100 has
    at most two decimals, which the format prints exactly. *)
Definition fmt_hundredths (n : Z) : string :=
  pretty (n / 100) +:+ "." +:+ pad2 (n mod 100).

Definition is_space (c : ascii) : bool :=
  let n := nat_of_ascii c in
  ((9 <=? n)%nat && (n <=? 13)%nat) || ((28 <=? n)%nat && (n <=? 32)%nat).

Fixpoint lstrip (s : string) : string :=
  match s with
  | "" => ""
  | String c s' => if is_space c then lstrip s' else s
  end.

Definition str_rev (s : string) : string :=
  string_of_list_ascii (rev (list_ascii_of_string s)).

(** [s.strip()] *)
Definition strip (s : string) : string :=
  str_rev (lstrip (str_rev (lstrip s))).

(** The outcome of [requests.get] followed by [raise_for_status] and the
    decoding of the body: an exception of the transport, a status that
    is not a success, or the decoded body. *)
Inductive http_result (A : Type) : Type :=
  | TransportError
  | HttpError
  | Body (a : A).
Arguments TransportError {A}.
Arguments HttpError {A}.
Arguments Body {A} a.

(** ** metar.py *)

Module Metar.

Import Re.

(** [fetch_metar]: every exception is caught and turned into [None]. *)
Definition fetch_metar (response : http_result string) : option string :=
  match response with
  | Body text => Some (strip text)
  | TransportError | HttpError => None
  end.

Definition ifr_codes : list string :=
  ["BKN"; "OVC"; "VV"; "FG"; "BR"; "TSRA"].

(** [r' (\d{2})/(\d{2}) '] *)
Definition temp_re : list (list atom) :=
  [[Lit " "; Digit; Digit; Lit "/"; Digit; Digit; Lit " "]].

(** [r'(FEW|SCT|BKN|OVC)(\d{3})'] *)
Definition cloud_re : list (list atom) :=
  [[Lit "F"; Lit "E"; Lit "W"; Digit; Digit; Digit];
   [Lit "S"; Lit "C"; Lit "T"; Digit; Digit; Digit];
   [Lit "B"; Lit "K"; Lit "N"; Digit; Digit; Digit];
   [Lit "O"; Lit "V"; Lit "C"; Digit; Digit; Digit]].

(** [r' (\d{3})(\d{2})KT'] *)
Definition wind_re : list (list atom) :=
  [[Lit " "; Digit; Digit; Digit; Digit; Digit; Lit "K"; Lit "T"]].

(** [r' (\d{1,2})SM '], the greedy two-digit reading first *)
Definition vis_re : list (list atom) :=
  [[Lit " "; Digit; Digit; Lit "S"; Lit "M"; Lit " "];
   [Lit " "; Digit; Lit "S"; Lit "M"; Lit " "]].

(** [r' A(\d{4})'] *)
Definition baro_re : list (list atom) :=
  [[Lit " "; Lit "A"; Digit; Digit; Digit; Digit]].

Definition cloud_names : gmap string string :=
  list_to_map
    [("FEW", "Few Clouds"); ("SCT", "Scattered Clouds");
     ("BKN", "Broken Ceiling"); ("OVC", "Overcast")].

Definition temp_field (metar : string) : string :=
  match search temp_re metar with
  | Some m => substring 1 2 m +:+ "°C"
  | None => "N/A"
  end.

(** The three values [cloud_status], [cloud_msg], [cloud_color] computed
    from the list of cloud-layer matches. *)
Definition cloud_fields (clouds : list string) : string * string * string :=
  match last clouds with
  | Some main =>
      let ceiling_ft := py_int (substring 3 3 main) * 100 in
      let cloud_status := fmt_commas ceiling_ft +:+ " FT" in
      let cloud_msg := default "Ceiling" (cloud_names !! substring 0 3 main) in
      let cloud_color :=
        if ceiling_ft <? 1000 then "#B51700"
        else if ceiling_ft <? 3000 then "#DC582A"
        else "#017100" in
      (cloud_status, cloud_msg, cloud_color)
  | None => ("N/A", "Clear", "#5E5E5E")
  end.

(** [wind_status], [wind_msg], [wind_color] *)
Definition wind_fields (metar : string) : string * string * string :=
  match search wind_re metar with
  | Some m =>
      let speed := py_int (substring 4 2 m) in
      (pretty speed +:+ " KTS",
       substring 1 3 m +:+ "°",
       if speed <? 5 then "#B51700"
       else if speed <? 15 then "#DC582A"
       else "#017100")
  | None => ("CALM", "000°", "#5E5E5E")
  end.

(** [vis_status], [vis_color] *)
Definition vis_fields (metar : string) : string * string :=
  match search vis_re metar with
  | Some m =>
      let g := substring 1 (String.length m - 4) m in
      (g +:+ " SM",
       if py_int g <? 3 then "#B51700"
       else if py_int g <? 5 then "#DC582A"
       else "#017100")
  | None => ("N/A", "#5E5E5E")
  end.

Definition baro_field (metar : string) : string :=
  match search baro_re metar with
  | Some m => fmt_hundredths (py_int (substring 2 4 m)) +:+ " inHg"
  | None => "N/A"
  end.

Definition parse_metar (metar : option string) : dict :=
  match metar with
  | None | Some "" => ∅
  | Some metar =>
      let ifr := existsb (fun code => str_in code metar) ifr_codes in
      let ifr_status := if ifr then "IFR" else "VFR" in
      let ifr_msg := if ifr then "Caution" else "No Warnings" in
      let ifr_color := if ifr then "#B51700" else "#017100" in
      let temp := temp_field metar in
      let clouds := findall cloud_re metar in
      let '(cloud_status, cloud_msg, cloud_color) := cloud_fields clouds in
      let '(wind_status, wind_msg, wind_color) := wind_fields metar in
      let '(vis_status, vis_color) := vis_fields metar in
      let vis_msg := "Visibility" in
      let baro_inhg := baro_field metar in
      py_dict
        [("ifr_status", VStr ifr_status);
         ("ifr_msg", VStr ifr_msg);
         ("ifr_color", VStr ifr_color);
         ("weather_status", VStr temp);
         ("weather_msg", VStr cloud_msg);
         ("cloud_color", VStr cloud_color);
         ("wind_status", VStr wind_status);
         ("wind_msg", VStr wind_msg);
         ("wind_color", VStr wind_color);
         ("vis_status", VStr vis_status);
         ("vis_msg", VStr vis_msg);
         ("vis_color", VStr vis_color);
         ("cloud_status", VStr cloud_status);
         ("cloud_msg", VStr "Ceiling");
         ("cloud_color", VStr cloud_color);
         ("baro_status", VStr baro_inhg)]
  end.

End Metar.

(** ** flight_display.py *)

(** [a > b] and [a < b] on the rationals that stand for floats. *)
Definition Qgtb (a b : Q) : bool := negb (Qle_bool a b).
Definition Qltb (a b : Q) : bool := negb (Qle_bool b a).

(** [int(x)] for a float: truncation towards zero. *)
Definition int_of_float (q : Q) : Z := Z.quot (Qnum q) (Zpos (Qden q)).

(** The number held by a value, when it is one. *)
Definition as_number (v : value) : option Q :=
  match v with
  | VInt n => Some (inject_Z n)
  | VFloat q => Some q
  | VStr _ | VNull => None
  end.

(** [v[11:16]], defined on strings only. *)
Definition slice_11_16 (v : value) : option string :=
  match v with
  | VStr s => Some (substring 11 5 s)
  | VInt _ | VFloat _ | VNull => None
  end.

Definition in_range (lo hi : nat) (c : ascii) : bool :=
  (lo <=? nat_of_ascii c)%nat && (nat_of_ascii c <=? hi)%nat.

(** [datetime.strptime(s, "%H:%M")] as minutes after midnight: the hour
    is [2[0-3]|[0-1]\d|\d], the minute [[0-5]\d|\d], and nothing may
    remain after the minute. *)
Definition strptime_HM (s : string) : option Z :=
  let minute (r : string) : option Z :=
    match r with
    | String m1 "" =>
        if Re.is_digit m1 then Some (digit_val m1) else None
    | String m1 (String m2 "") =>
        if in_range 48 53 m1 && Re.is_digit m2
        then Some (10 * digit_val m1 + digit_val m2) else None
    | _ => None
    end in
  match s with
  | String h1 (String ":" r) =>
      if Re.is_digit h1 then (fun m => 60 * digit_val h1 + m) <$> minute r
      else None
  | String h1 (String h2 (String ":" r)) =>
      if (in_range 50 50 h1 && in_range 48 51 h2)
         || (in_range 48 49 h1 && Re.is_digit h2)
      then (fun m => 60 * (10 * digit_val h1 + digit_val h2) + m) <$> minute r
      else None
  | _ => None
  end.

(** [time_diff]: the absolute difference of two HH:MM strings. *)
Definition time_diff (t1 t2 : string) : option string :=
  dt1 ← strptime_HM t1;
  dt2 ← strptime_HM t2;
  let seconds := Z.abs (dt2 - dt1) * 60 in
  Some (pad2 (seconds / 3600) +:+ ":" +:+ pad2 ((seconds mod 3600) / 60)).

(** The module-level constant [debug]. *)
Definition debug : bool := false.

(** The global variables of the module. *)
Record state : Type := State {
  last_metar_fetch : Q;
  last_flight_fetch : Q;
  cached_parsed_metar : dict;
  cached_flight_info : dict;
  flight_captured : bool;
  flight_captured_time : Q;
  flight_captured_info : dict;
}.

Definition initial_state : state :=
  State 0 0 ∅ ∅ false 0 ∅.

(** What one call of [get_display_data] reads from outside the program:
    the UTC clock string, the three readings of [time.time()] (at the
    start, in the captured branch, at the capture), and the outcomes of
    the three requests should they be made.  The body of a flight
    response is the array found under its key ["data"], empty when the
    key is absent. *)
Record tick_env : Type := TickEnv {
  clock : string;
  now : Q;
  metar_response : http_result string;
  now_captured : Q;
  search_response : http_result (list dict);
  enrich_response : http_result (list dict);
  now_capture : Q;
}.

Definition default_display (clock : string) : dict :=
  py_dict
    [("flight_number", VStr "MONITORING");
     ("callsign", VStr "---");
     ("departure_code", VStr "---");
     ("departure_city", VStr " ");
     ("arrival_code", VStr "SAN");
     ("arrival_city", VStr "San Diego, CA");
     ("aircraft", VStr "");
     ("departure_time", VStr "--:--");
     ("arrival_time", VStr "--:--");
     ("delay", VStr "");
     ("status", VStr "");
     ("status_color", VStr "green");
     ("altitude", VStr "---- FT");
     ("calculated_altitude", VInt 0);
     ("calculated_distance", VInt 0);
     ("speed", VStr "--- KTS");
     ("distance", VStr "--- NM");
     ("duration", VStr "--:--XX");
     ("clock", VStr clock);
     ("ifr_status", VStr "---");
     ("ifr_msg", VStr "");
     ("weather_status", VStr "--.-°C");
     ("weather_msg", VStr "");
     ("wind_status", VStr "-- KTS");
     ("wind_msg", VStr "");
     ("vis_status", VStr "-- SM");
     ("vis_msg", VStr "Visibility");
     ("cloud_status", VStr "---- FT");
     ("cloud__msg", VStr "Ceiling");
     ("baro_status", VStr "--.-- inHg")].

(** The gate of the weather feed, [now - last_metar_fetch > 300]. *)
Definition weather_due (st : state) (t : Q) : bool :=
  Qgtb (t - last_metar_fetch st) 300.

(** The gate of the flight feed,
    [not debug and now - last_flight_fetch > 15]. *)
Definition flight_due (st : state) (t : Q) : bool :=
  negb debug && Qgtb (t - last_flight_fetch st) 15.

(** Lines 149-153: the weather cache. *)
Definition refresh_weather (env : tick_env) (st : state) : state :=
  if weather_due st (now env) then
    let metar := Metar.fetch_metar (metar_response env) in
    State (now env) (last_flight_fetch st)
          (Metar.parse_metar metar) (cached_flight_info st)
          (flight_captured st) (flight_captured_time st)
          (flight_captured_info st)
  else st.

(** Lines 202-204: the keys of the enrichment record that the base
    record lacks are added to it. *)
Definition enrich_merge (base extra : dict) : dict :=
  dict_update base (filter (fun kv => kv.1 ∉ dom base) extra).

Definition set_last_flight_fetch (t : Q) (st : state) : state :=
  State (last_metar_fetch st) t
        (cached_parsed_metar st) (cached_flight_info st)
        (flight_captured st) (flight_captured_time st)
        (flight_captured_info st).

Definition set_cached_flight_info (d : dict) (st : state) : state :=
  State (last_metar_fetch st) (last_flight_fetch st)
        (cached_parsed_metar st) d
        (flight_captured st) (flight_captured_time st)
        (flight_captured_info st).

Definition set_captured (t : Q) (d : dict) (st : state) : state :=
  State (last_metar_fetch st) (last_flight_fetch st)
        (cached_parsed_metar st) (cached_flight_info st)
        true t d.

(** Lines 180-209, the body of the [try]: each exception ends it in one
    of the two handlers, which only print, so the assignments made
    before the exception stay. *)
Definition fetch_flight (env : tick_env) (st : state) : state :=
  match search_response env with
  | TransportError | HttpError => st
  | Body data =>
      let st := set_last_flight_fetch (now env) st in
      match data with
      | [] => st
      | base :: _ =>
          let st := set_cached_flight_info base st in
          match base !! "fr24_id" with
          | None => st
          | Some _ =>
              match enrich_response env with
              | TransportError | HttpError | Body [] => st
              | Body (extra :: _) =>
                  set_cached_flight_info (enrich_merge base extra) st
              end
          end
      end
  end.

(** The values that the module reads when it is loaded and that the
    sources do not contain: from [config.yml] the descent rate in feet
    per minute, the touchdown-zone elevation in feet, the default arrival
    city and the overrides of the debug mode; from the airport table the
    map from codes to cities; and Python's printing of a float. *)
Record config : Type := Config {
  FPM_LANDING : Z;
  TDZE : Z;
  DEFAULT_ARRIVAL_CITY : string;
  airport_names : gmap string string;
  debug_values : dict;
  str_of_float : Q -> string;
}.

(** [str(v)] *)
Definition py_str (cfg : config) (v : value) : string :=
  match v with
  | VStr s => s
  | VInt n => pretty n
  | VFloat q => str_of_float cfg q
  | VNull => "None"
  end.

(** [airport_names[v]] *)
Definition airport_city (cfg : config) (v : value) : option value :=
  match v with
  | VStr code => VStr <$> airport_names cfg !! code
  | VInt _ | VFloat _ | VNull => None
  end.

(** Lines 158-176: the display of a captured flight. *)
Definition captured_display (cfg : config) (st : state) (t : Q) : option dict :=
  let time_elapsed := (t - flight_captured_time st)%Q in
  let display_data := flight_captured_info st in
  a0 ← flight_captured_info st !! "calculated_altitude" ≫= as_number;
  let calculated_altitude :=
    (a0 - inject_Z (FPM_LANDING cfg) * time_elapsed / 60)%Q in
  let display_data :=
    <["calculated_altitude" := VFloat calculated_altitude]> display_data in
  let alt_disp := int_of_float calculated_altitude in
  let alt_disp := Z.max (TDZE cfg) alt_disp in
  let display_data :=
    <["altitude" := VStr (pretty alt_disp +:+ " FT")]> display_data in
  let display_data :=
    <["calculated_distance" := VFloat (calculated_altitude * 5 / 2000)]>
      display_data in
  Some
    (if Qgtb calculated_altitude 2000 then
       <["status_color" := VStr "#004D80"]>
         (<["status" := VStr "APPROACH"]> display_data)
     else if Qgtb calculated_altitude (inject_Z (TDZE cfg)) then
       <["status_color" := VStr "#E57301"]>
         (<["status" := VStr "FINAL"]> display_data)
     else
       <["status_color" := VStr "#017100"]>
         (<["status" := VStr "LANDED"]> display_data)).

(** Lines 212-230: the display fields taken from the flight record.
    The distance is the exact quotient by 1.852, truncated; the quotient
    of two doubles can fall a rounding error below a whole number that
    the exact quotient reaches (185.2 km: 99 there, 100 here). *)
Definition flight_fields (cfg : config) (info display_data : dict) : option dict :=
  v ← info !! "callsign";
  let display_data := <["flight_number" := v]> display_data in
  v ← info !! "painted_as";
  let display_data := <["callsign" := v]> display_data in
  v ← info !! "orig_iata";
  let display_data := <["departure_code" := v]> display_data in
  v ← display_data !! "departure_code" ≫= airport_city cfg;
  let display_data := <["departure_city" := v]> display_data in
  v ← info !! "dest_iata";
  let display_data := <["arrival_code" := v]> display_data in
  v ← display_data !! "arrival_code" ≫= airport_city cfg;
  let display_data := <["arrival_city" := v]> display_data in
  v ← info !! "type";
  let display_data := <["aircraft" := v]> display_data in
  departure_time ← info !! "datetime_takeoff" ≫= slice_11_16;
  let display_data := <["departure_time" := VStr departure_time]> display_data in
  arrival_time ← info !! "eta" ≫= slice_11_16;
  let display_data := <["arrival_time" := VStr arrival_time]> display_data in
  let display_data := <["delay" := VStr "N/A"]> display_data in
  let display_data := <["status_color" := VStr "N/A"]> display_data in
  alt ← info !! "alt";
  let display_data := <["altitude" := VStr (py_str cfg alt +:+ " FT")]> display_data in
  let display_data := <["calculated_altitude" := alt]> display_data in
  let display_data := <["calculated_distance" := VInt 0]> display_data in
  v ← info !! "gspeed";
  let display_data := <["speed" := VStr (py_str cfg v +:+ " KTS")]> display_data in
  d ← info !! "actual_distance" ≫= as_number;
  let display_data :=
    <["distance" := VStr (pretty (int_of_float (d / (1852 # 1000))) +:+ " NM")]>
      display_data in
  duration ← time_diff departure_time arrival_time;
  Some (<["duration" := VStr duration]> display_data).

(** Lines 235-239: the overrides of the debug mode. *)
Definition debug_fields (cfg : config) (display_data : dict) : option dict :=
  let display_data := dict_update display_data (debug_values cfg) in
  v ← display_data !! "departure_code" ≫= airport_city cfg;
  let display_data := <["departure_city" := v]> display_data in
  v ← display_data !! "arrival_code" ≫= airport_city cfg;
  Some (<["arrival_city" := v]> display_data).

(** [get_display_data]: the new values of the global variables and the
    dictionary returned, [None] when an exception leaves the function. *)
Definition get_display_data (cfg : config) (env : tick_env) (st : state)
  : state * option dict :=
  let display_data := default_display (clock env) in
  let st := refresh_weather env st in
  let display_data := dict_update display_data (cached_parsed_metar st) in
  let display_data :=
    <["arrival_city" := VStr (DEFAULT_ARRIVAL_CITY cfg)]> display_data in
  if flight_captured st then
    (st, captured_display cfg st (now_captured env))
  else
    let st := if flight_due st (now env) then fetch_flight env st else st in
    let captured :=
      if decide (cached_flight_info st = ∅) then Some (st, display_data)
      else
        display_data ← flight_fields cfg (cached_flight_info st) display_data;
        Some (set_captured (now_capture env) display_data st, display_data) in
    match captured with
    | None => (st, None)
    | Some (st, display_data) =>
        if debug then
          match debug_fields cfg display_data with
          | None => (st, None)
          | Some display_data =>
              (set_captured (now_capture env) display_data st,
               Some display_data)
          end
        else (st, Some display_data)
    end.

(** Lines 347-351 of [refresh_ui]. *)
Definition reset_tracker (st : state) : state :=
  State (last_metar_fetch st) 0 (cached_parsed_metar st) ∅ false 0 ∅.

(** [FlightDisplay.refresh_ui] up to the reset of line 346; the
    placement of the widgets that follows changes no global variable.
    The result is the state left behind and the dictionary handed to the
    widgets. *)
Definition refresh_ui (cfg : config) (env : tick_env) (st : state)
  : state * option dict :=
  match get_display_data cfg env st with
  | (st, None) => (st, None)
  | (st, Some data) =>
      match data !! "calculated_altitude" ≫= as_number with
      | None => (st, None)
      | Some alt =>
          if Qltb alt (-250) then (reset_tracker st, Some data)
          else (st, Some data)
      end
  end.

(** ** The widgets moved and styled by [FlightDisplay.refresh_ui] *)

(** Lines 346-359 of [refresh_ui]: the place to which the plane of the
    approach diagram is moved; [None] at the altitudes of the reset,
    which leave it where it is. *)
Definition plane_position (alt : Q) : option (Z * Z) :=
  if Qltb alt (-250) then None
  else if Qltb alt 2000 then
    Some (int_of_float (1470 + alt * 356 / 2000) - 23,
          Z.min 381 (int_of_float (390 - alt * 110 / 2000)) - 17)
  else
    Some (int_of_float (1470 + 2000 * 356 / 2000) - 23,
          Z.min 381 (int_of_float (390 - 2000 * 110 / 2000)) - 17).

(** Lines 370-379: the key whose value colours the widget of [key]. *)
Definition style_key (key : string) : option string :=
  if String.eqb key "status" then Some "status_color"
  else if String.eqb key "ifr_status" then Some "ifr_color"
  else if String.eqb key "cloud_status" then Some "cloud_color"
  else if String.eqb key "wind_status" then Some "wind_color"
  else if String.eqb key "vis_status" then Some "vis_color"
  else None.

(** One turn of the loop of lines 361-379, as far as its look-ups go:
    [self.widgets["logo"]] for the key callsign, and for any other key
    that names a widget other than the plane icon the colour
    [data[...]] of its style sheet.  [false] stands for a KeyError. *)
Definition style_lookup (widgets : gset string) (data : dict) (key : string)
  : bool :=
  if String.eqb key "callsign" then bool_decide ("logo" ∈ widgets)
  else if bool_decide (key ∈ widgets) && negb (String.eqb key "plane_icon")
  then match style_key key with
       | Some c => bool_decide (is_Some (data !! c))
       | None => true
       end
  else true.

(** The look-ups of the whole loop: every one of them succeeds. *)
Definition style_lookups (widgets : gset string) (data : dict) : bool :=
  forallb (fun kv => style_lookup widgets data kv.1) (map_to_list data).

(** * Vocabulary of the properties *)

Import Re.

Fixpoint assoc_last (k : string) (l : list (string * value))
    (acc : option value) : option value :=
  match l with
  | [] => acc
  | (k', v) :: l' => assoc_last k l' (if String.eqb k' k then Some v else acc)
  end.

Fixpoint no_space_but_last (p : list atom) : bool :=
  match p with
  | [] => true
  | a :: p' =>
      match p' with
      | [] => true
      | _ :: _ => negb (atom_ok a " ") && no_space_but_last p'
      end
  end.

(** Every alternative has two atoms at least, and only its first and its
    last atom may accept a space. *)
Definition separable (alts : list (list atom)) : bool :=
  forallb (fun p => match p with
                    | _ :: ((_ :: _) as p') => no_space_but_last p'
                    | _ => false
                    end) alts.

(** The matches at all positions of a text, overlapping or not. *)
Fixpoint scan (alts : list (list atom)) (s : string) : list string :=
  match s with
  | "" => []
  | String _ s' =>
      match match_alts alts s with
      | Some m => m :: scan alts s'
      | None => scan alts s'
      end
  end.

(** No alternative matches at the first [k] positions of [s]. *)
Fixpoint clear (alts : list (list atom)) (k : nat) (s : string) : Prop :=
  match k with
  | O => True
  | S k' =>
      match_alts alts s = None ∧
      match s with
      | "" => True
      | String _ s' => clear alts k' s'
      end
  end.

Definition cloud_kinds : list string := ["FEW"; "SCT"; "BKN"; "OVC"].

(** A cloud-layer token: one of the four kinds followed by three
    digits. *)
Definition cloud_token (tok : string) : Prop :=
  ∃ kind d1 d2 d3,
    kind ∈ cloud_kinds ∧
    is_digit d1 = true ∧ is_digit d2 = true ∧ is_digit d3 = true ∧
    tok = kind +:+ String d1 (String d2 (String d3 "")).

Definition no_space (alts : list (list atom)) : bool :=
  forallb (fun p => match p with
                    | [] => false
                    | _ :: _ => forallb (fun a => negb (atom_ok a " ")) p
                    end) alts.

Definition decoded_fields (metar : string) : list (string * value) :=
  let ifr := existsb (fun code => str_in code metar) Metar.ifr_codes in
  let clouds := Metar.cloud_fields (findall Metar.cloud_re metar) in
  let wind := Metar.wind_fields metar in
  let vis := Metar.vis_fields metar in
  [("ifr_status", VStr (if ifr then "IFR" else "VFR"));
   ("ifr_msg", VStr (if ifr then "Caution" else "No Warnings"));
   ("ifr_color", VStr (if ifr then "#B51700" else "#017100"));
   ("weather_status", VStr (Metar.temp_field metar));
   ("weather_msg", VStr clouds.1.2);
   ("cloud_color", VStr clouds.2);
   ("wind_status", VStr wind.1.1);
   ("wind_msg", VStr wind.1.2);
   ("wind_color", VStr wind.2);
   ("vis_status", VStr vis.1);
   ("vis_msg", VStr "Visibility");
   ("vis_color", VStr vis.2);
   ("cloud_status", VStr clouds.1.1);
   ("cloud_msg", VStr "Ceiling");
   ("cloud_color", VStr clouds.2);
   ("baro_status", VStr (Metar.baro_field metar))].

(** What the temperature pattern matches: two digits, a slash and two
    digits between two spaces. *)
Definition plain_temp_group (g : string) : Prop :=
  ∃ d1 d2 d3 d4,
    is_digit d1 = true ∧ is_digit d2 = true ∧
    is_digit d3 = true ∧ is_digit d4 = true ∧
    g = String " " (String d1 (String d2
          (String "/" (String d3 (String d4 " "))))).


(** ** Sample inputs *)

Definition sample_airports : gmap string string :=
  list_to_map [("LAX", "Los Angeles, CA"); ("SAN", "San Diego, CA")].

Definition sample_config : config :=
  Config 600 17 "San Diego, CA" sample_airports ∅ (fun _ => "").

(** A field whose touchdown zone lies above 2000 ft. *)
Definition high_field_config : config :=
  Config 600 5431 "Denver, CO" sample_airports ∅ (fun _ => "").

Definition sample_search : dict :=
  py_dict
    [("fr24_id", VStr "3a01b2c4"); ("callsign", VStr "SWA1234");
     ("painted_as", VStr "SWA"); ("orig_iata", VStr "LAX");
     ("dest_iata", VStr "SAN"); ("type", VStr "B738");
     ("alt", VInt 3000); ("gspeed", VInt 140);
     ("eta", VStr "2025-06-04T20:15:00Z")].

Definition sample_enrich : dict :=
  py_dict
    [("fr24_id", VStr "3a01b2c4"); ("alt", VInt 9);
     ("datetime_takeoff", VStr "2025-06-04T19:29:00Z");
     ("actual_distance", VFloat (2503 # 10))].

Definition metar_a : string :=
  "KSAN 041951Z 29008KT 10SM FEW020 SCT250 22/14 A2992 RMK AO2".

Definition metar_b : string :=
  "KSAN 042051Z 27010KT 10SM FEW030 24/13 A2990".

(** A first tick at which both feeds answer and a flight is found. *)
Definition tick_capture : tick_env :=
  TickEnv "19:55:00" 1000 (Body metar_a) 1000
          (Body [sample_search]) (Body [sample_enrich]) 1000.

(** A first tick at which the weather answers and no flight is found. *)
Definition tick_no_flight : tick_env :=
  TickEnv "19:55:00" 1000 (Body metar_a) 1000 (Body []) (Body []) 1000.

(** Later ticks: the time in seconds, the clock string, the answer of
    the weather feed; the flight feed finds nothing. *)
Definition tick_at (t : Q) (clock : string) (metar : http_result string)
  : tick_env :=
  TickEnv clock t metar t (Body []) (Body []) t.

(** A tick at which the search request fails. *)
Definition tick_search_fails : tick_env :=
  TickEnv "19:55:00" 1000 (Body metar_a) 1000
          TransportError (Body [sample_enrich]) 1000.

(** A tick at which the enrichment request fails. *)
Definition tick_enrich_fails : tick_env :=
  TickEnv "19:55:00" 1000 (Body metar_a) 1000
          (Body [sample_search]) HttpError 1000.

Definition state_captured : state :=
  (get_display_data sample_config tick_capture initial_state).1.

Definition state_idle : state :=
  (get_display_data sample_config tick_no_flight initial_state).1.

(** A flight captured at 5000 ft. *)
Definition state_high_field : state :=
  State 0 0 ∅ ∅ true 1000 (<["calculated_altitude" := VInt 5000]> ∅).

(** The field [k] of the dictionary that a tick returns. *)
Definition display_field (k : string) (r : state * option dict)
  : option value :=
  r.2 ≫= (.!! k).

(** ** Vocabulary and sample inputs of the further properties *)

(** The groups that the wind, visibility and altimeter patterns match. *)
Definition wind_group (g : string) : Prop :=
  ∃ d1 d2 d3 d4 d5,
    is_digit d1 = true ∧ is_digit d2 = true ∧ is_digit d3 = true ∧
    is_digit d4 = true ∧ is_digit d5 = true ∧
    g = String " " (String d1 (String d2 (String d3
          (String d4 (String d5 "KT"))))).

Definition vis_group (g : string) : Prop :=
  (∃ d1 d2, is_digit d1 = true ∧ is_digit d2 = true ∧
            g = String " " (String d1 (String d2 "SM "))) ∨
  (∃ d, is_digit d = true ∧ g = String " " (String d "SM ")).

Definition baro_group (g : string) : Prop :=
  ∃ d1 d2 d3 d4,
    is_digit d1 = true ∧ is_digit d2 = true ∧
    is_digit d3 = true ∧ is_digit d4 = true ∧
    g = String " " (String "A" (String d1 (String d2
          (String d3 (String d4 ""))))).

(** The keys of the dictionary that the decoder returns. *)
Definition metar_keys : list string :=
  ["ifr_status"; "ifr_msg"; "ifr_color"; "weather_status"; "weather_msg";
   "cloud_color"; "wind_status"; "wind_msg"; "wind_color"; "vis_status";
   "vis_msg"; "vis_color"; "cloud_status"; "cloud_msg"; "baro_status"].

Definition is_str (v : value) : bool :=
  match v with
  | VStr _ => true
  | VInt _ | VFloat _ | VNull => false
  end.

(** A text made of white space only. *)
Fixpoint all_space (s : string) : bool :=
  match s with
  | "" => true
  | String c s' => is_space c && all_space s'
  end.

(** A time of day written as HH:MM. *)
Definition hhmm (h m : Z) : string := pad2 h +:+ ":" +:+ pad2 m.

(** The minute field of [strptime_HM]. *)
Definition minute_of (r : string) : option Z :=
  match r with
  | String m1 "" =>
      if Re.is_digit m1 then Some (digit_val m1) else None
  | String m1 (String m2 "") =>
      if in_range 48 53 m1 && Re.is_digit m2
      then Some (10 * digit_val m1 + digit_val m2) else None
  | _ => None
  end.

(** Every hour and minute of the day is read back from its HH:MM form. *)
Definition hhmm_read_back : bool :=
  forallb (fun h =>
    forallb (fun m =>
      match strptime_HM (hhmm h m) with
      | Some n => n =? 60 * h + m
      | None => false
      end) (seqZ 0 60)) (seqZ 0 24).

(** The tick [env] with another answer of the weather feed. *)
Definition with_metar (r : http_result string) (env : tick_env) : tick_env :=
  TickEnv (clock env) (now env) r (now_captured env)
          (search_response env) (enrich_response env) (now_capture env).

(** The tick [env] with other answers of the flight feed. *)
Definition with_flights (s e : http_result (list dict)) (env : tick_env)
  : tick_env :=
  TickEnv (clock env) (now env) (metar_response env) (now_captured env)
          s e (now_capture env).

(** The keys of the flight record that lines 213-230 read. *)
Definition required_keys : list string :=
  ["callsign"; "painted_as"; "orig_iata"; "dest_iata"; "type";
   "datetime_takeoff"; "eta"; "alt"; "gspeed"; "actual_distance"].

(** The display built before the flight record is looked at (lines
    115-156). *)
Definition monitoring_display (cfg : config) (clock : string) (weather : dict)
  : dict :=
  <["arrival_city" := VStr (DEFAULT_ARRIVAL_CITY cfg)]>
    (dict_update (default_display clock) weather).

(** A weather cache as the tracker fills it: empty, or the fifteen
    fields of the decoder, bound to strings. *)
Definition weather_ok (d : dict) : Prop :=
  d = ∅ ∨
  ((∀ k, is_Some (d !! k) ↔ k ∈ metar_keys) ∧
   (∀ k v, d !! k = Some v → is_str v = true)).

(** The bookkeeping of the tracker: while no flight is captured the
    snapshot is empty and its time is zero; while one is captured the
    cached record is not empty and the snapshot has the fields of the
    display. *)
Definition consistent (st : state) : Prop :=
  weather_ok (cached_parsed_metar st) ∧
  if flight_captured st then
    cached_flight_info st ≠ ∅ ∧
    ∀ k, is_Some (default_display "" !! k) →
         is_Some (flight_captured_info st !! k)
  else
    flight_captured_time st = 0%Q ∧ flight_captured_info st = ∅.

(** A record of the search whose altitude is null. *)
Definition sample_search_null_alt : dict :=
  <["alt" := VNull]> sample_search.

Definition tick_null_alt : tick_env :=
  TickEnv "19:55:00" 1000 (Body metar_a) 1000
          (Body [sample_search_null_alt]) (Body [sample_enrich]) 1000.

(** A body of white space: a blank and a line feed. *)
Definition blank_body : string := String " " (String "010" "").

(** The widgets that show a weather field in the colour of its state. *)
Definition weather_widgets : list string :=
  ["ifr_status"; "cloud_status"; "wind_status"; "vis_status"].

(** A set of widgets as the configuration may give it. *)
Definition sample_widgets : gset string :=
  list_to_set ["logo"; "flight_number"; "status"; "ifr_status"; "clock";
               "plane_icon"; "landing_path"; "landing_plane"].

(** A record of the search whose origin is not in the table. *)
Definition sample_search_unknown : dict :=
  <["orig_iata" := VStr "XXX"]> sample_search.

Definition tick_unknown_airport : tick_env :=
  TickEnv "19:55:00" 1000 (Body metar_a) 1000
          (Body [sample_search_unknown]) (Body [sample_enrich]) 1000.

(** * Properties of the decoder *)

(** ** Strings *)

Lemma app_cons_str (c : ascii) (a b : string) :
  String c a +:+ b = String c (a +:+ b).
Proof. reflexivity. Qed.

Lemma app_assoc_str (a b c : string) : (a +:+ b) +:+ c = a +:+ (b +:+ c).
Proof.
  induction a as [|x a IH]; [done|]. rewrite !app_cons_str. by f_equal.
Qed.

Lemma app_nil_r_str (a : string) : a +:+ "" = a.
Proof. induction a as [|x a IH]; [done|]. rewrite app_cons_str. by f_equal. Qed.

Lemma prefix_iff (code s : string) :
  String.prefix code s = true ↔ ∃ post, s = code +:+ post.
Proof.
  revert s. induction code as [|c code IH]; intros s.
  - split; [intros _; by exists s|by destruct s].
  - destruct s as [|c' s]; [split; [done|by intros [? ?]]|].
    simpl. destruct (ascii_dec c c') as [<-|Hne].
    + rewrite IH. split; intros [post H]; exists post;
        rewrite ?app_cons_str in *; congruence.
    + split; [done|]. intros [post H]. rewrite app_cons_str in H. congruence.
Qed.

Lemma str_in_iff (code s : string) :
  str_in code s = true ↔ ∃ pre post, s = pre +:+ code +:+ post.
Proof.
  induction s as [|c s IH].
  - change (str_in code "") with (String.prefix code "" || false).
    rewrite orb_false_r, prefix_iff. split.
    + intros [post H]. by exists "", post.
    + intros (pre & post & H). destruct pre; [by exists post|done].
  - change (str_in code (String c s))
      with (String.prefix code (String c s) || str_in code s).
    rewrite orb_true_iff, IH, prefix_iff. split.
    + intros [[post H]|(pre & post & H)].
      * by exists "", post.
      * exists (String c pre), post. by rewrite app_cons_str, H.
    + intros (pre & post & H). destruct pre as [|c' pre].
      * left. by exists post.
      * right. exists pre, post. rewrite app_cons_str in H. congruence.
Qed.

(** ** Dictionary displays *)

Lemma py_dict_lookup (l : list (string * value)) (k : string) :
  py_dict l !! k = assoc_last k l None.
Proof.
  unfold py_dict. rewrite <- (lookup_empty (M:=gmap string) (A:=value) k).
  generalize (∅ : dict). induction l as [|[k' v] l IH]; intros d; simpl; [done|].
  rewrite IH. f_equal.
  destruct (String.eqb_spec k' k) as [->|Hne].
  - by rewrite lookup_insert_eq.
  - by rewrite lookup_insert_ne.
Qed.

(** ** Searching a text that is cut at a space *)

Lemma app_nil_l_str (a : string) : "" +:+ a = a.
Proof. reflexivity. Qed.

Lemma match_prefix_sep (p : list atom) (x y : string) :
  no_space_but_last p = true →
  match_prefix p (x +:+ " " +:+ y) = match_prefix p (x +:+ " ").
Proof.
  revert x. induction p as [|a p IH]; intros x H; [done|].
  destruct x as [|c x].
  - rewrite !app_nil_l_str. change (" " +:+ y) with (String " " y).
    destruct p as [|b p]; simpl; [by destruct (atom_ok a " ")|].
    simpl in H. apply andb_true_iff in H as [H _].
    apply negb_true_iff in H. by rewrite H.
  - rewrite !(app_cons_str c x). simpl. rewrite IH; [done|].
    destruct p as [|b p]; [done|].
    simpl in H. by apply andb_true_iff in H as [_ H].
Qed.

Lemma match_alts_cons (p : list atom) (alts : list (list atom)) (s : string) :
  match_alts (p :: alts) s
  = match match_prefix p s with
    | Some m => Some m
    | None => match_alts alts s
    end.
Proof. reflexivity. Qed.

Lemma match_prefix_cons (a : atom) (p : list atom) (c : ascii) (s : string) :
  match_prefix (a :: p) (String c s)
  = if atom_ok a c then String c <$> match_prefix p s else None.
Proof. reflexivity. Qed.

Lemma search_cons (alts : list (list atom)) (c : ascii) (s : string) :
  search alts (String c s)
  = match match_alts alts (String c s) with
    | Some m => Some m
    | None => search alts s
    end.
Proof. reflexivity. Qed.

Lemma match_alts_sep (alts : list (list atom)) (c : ascii) (x y : string) :
  separable alts = true →
  match_alts alts (String c x +:+ " " +:+ y)
  = match_alts alts (String c x +:+ " ").
Proof.
  induction alts as [|p alts IH]; intros H; [done|].
  simpl in H. apply andb_true_iff in H as [Hp H].
  destruct p as [|a [|b p]]; try done.
  rewrite !match_alts_cons, (IH H), !(app_cons_str c x), !match_prefix_cons.
  by rewrite (match_prefix_sep (b :: p) x y Hp).
Qed.

Lemma match_alts_short (alts : list (list atom)) (c : ascii) :
  separable alts = true →
  match_alts alts (String c "") = None ∧ match_alts alts "" = None.
Proof.
  induction alts as [|p alts IH]; intros H; [done|].
  simpl in H. apply andb_true_iff in H as [Hp H].
  destruct p as [|a [|b p]]; try done.
  destruct (IH H) as [IH1 IH2]. simpl. rewrite IH1, IH2.
  by destruct (atom_ok a c).
Qed.

Lemma search_sep (alts : list (list atom)) (x y : string) :
  separable alts = true →
  search alts (x +:+ " " +:+ y)
  = match search alts (x +:+ " ") with
    | Some m => Some m
    | None => search alts (" " +:+ y)
    end.
Proof.
  intros H. induction x as [|c x IH].
  - rewrite !app_nil_l_str.
    assert (search alts " " = None) as ->; [|done].
    destruct (match_alts_short alts " " H) as [H1 H2].
    simpl. by rewrite H1, H2.
  - rewrite !(app_cons_str c x), !search_cons, <- !(app_cons_str c x).
    rewrite (match_alts_sep alts c x y H), IH.
    by destruct (match_alts alts (String c x +:+ " ")).
Qed.

Lemma separable_res :
  separable Metar.temp_re = true ∧ separable Metar.wind_re = true ∧
  separable Metar.vis_re = true ∧ separable Metar.baro_re = true.
Proof. done. Qed.

(** The group BKN020, put at a space, is passed over by the four
    searches. *)
Lemma search_insert_bkn (alts : list (list atom)) (pre post : string) :
  separable alts = true →
  search alts (" BKN020 " +:+ post) = search alts (" " +:+ post) →
  search alts (pre +:+ " BKN020 " +:+ post)
  = search alts (pre +:+ " " +:+ post).
Proof.
  intros H Hb.
  change (pre +:+ " BKN020 " +:+ post)
    with (pre +:+ " " +:+ ("BKN020 " +:+ post)).
  rewrite !search_sep by done.
  destruct (search alts (pre +:+ " ")); [done|]. exact Hb.
Qed.

Lemma search_bkn_res (post : string) :
  search Metar.temp_re (" BKN020 " +:+ post)
    = search Metar.temp_re (" " +:+ post) ∧
  search Metar.wind_re (" BKN020 " +:+ post)
    = search Metar.wind_re (" " +:+ post) ∧
  search Metar.vis_re (" BKN020 " +:+ post)
    = search Metar.vis_re (" " +:+ post) ∧
  search Metar.baro_re (" BKN020 " +:+ post)
    = search Metar.baro_re (" " +:+ post).
Proof. done. Qed.

(** ** Cloud-layer tokens *)

Lemma match_prefix_app (p : list atom) (s m : string) :
  match_prefix p s = Some m ↔
  match_prefix p m = Some m ∧ ∃ rest, s = m +:+ rest.
Proof.
  revert s m. induction p as [|a p IH]; intros s m.
  - simpl. split.
    + intros [= <-]. split; [done|]. by exists s.
    + by intros [[= <-] _].
  - destruct s as [|c s].
    + simpl. split; [done|]. intros [Hm [rest Hr]].
      destruct m; [done|]. by rewrite app_cons_str in Hr.
    + rewrite match_prefix_cons. split.
      * destruct (atom_ok a c) eqn:Ha; [|done].
        destruct (match_prefix p s) as [m'|] eqn:Hp; [|done].
        intros [= <-]. apply IH in Hp as [Hp [rest ->]].
        rewrite match_prefix_cons, Ha, Hp. split; [done|].
        exists rest. by rewrite app_cons_str.
      * intros [Hm [rest Hr]]. destruct m as [|c' m]; [done|].
        rewrite app_cons_str in Hr. injection Hr as -> ->.
        rewrite match_prefix_cons in Hm.
        destruct (atom_ok a c'); [|done].
        destruct (match_prefix p m) as [m'|] eqn:Hp; [|done].
        injection Hm as ->.
        assert (match_prefix p (m +:+ rest) = Some m) as ->; [|done].
        apply IH. split; [done|]. by exists rest.
Qed.

Lemma match_cloud_kind (a b c : ascii) (m : string) :
  match_prefix [Lit a; Lit b; Lit c; Digit; Digit; Digit] m = Some m ↔
  ∃ d1 d2 d3,
    is_digit d1 = true ∧ is_digit d2 = true ∧ is_digit d3 = true ∧
    m = String a (String b (String c (String d1 (String d2 (String d3 ""))))).
Proof.
  split.
  - destruct m as [|x1 [|x2 [|x3 [|x4 [|x5 [|x6 [|x7 m]]]]]]]; simpl;
      try done; repeat (case_match; simpl; try done).
    intros _. exists x4, x5, x6.
    repeat match goal with
           | H : Ascii.eqb _ _ = true |- _ => apply Ascii.eqb_eq in H
           end.
    by subst.
  - intros (d1 & d2 & d3 & H1 & H2 & H3 & ->). simpl.
    by rewrite !Ascii.eqb_refl, H1, H2, H3.
Qed.

Lemma match_alts_cloud_self (m : string) :
  match_alts Metar.cloud_re m = Some m ↔ cloud_token m.
Proof.
  unfold Metar.cloud_re, cloud_token, cloud_kinds.
  rewrite !match_alts_cons. split.
  - intros H.
    destruct (match_prefix [Lit "F"; _; _; _; _; _] m) eqn:E1;
      [|destruct (match_prefix [Lit "S"; _; _; _; _; _] m) eqn:E2;
        [|destruct (match_prefix [Lit "B"; _; _; _; _; _] m) eqn:E3;
          [|destruct (match_prefix [Lit "O"; _; _; _; _; _] m) eqn:E4;
            [|done]]]];
      injection H as ->;
      match goal with
      | E : match_prefix _ m = Some m |- _ =>
          apply match_cloud_kind in E as (d1 & d2 & d3 & ? & ? & ? & ->)
      end.
    + exists "FEW", d1, d2, d3. repeat split; [set_solver|done..].
    + exists "SCT", d1, d2, d3. repeat split; [set_solver|done..].
    + exists "BKN", d1, d2, d3. repeat split; [set_solver|done..].
    + exists "OVC", d1, d2, d3. repeat split; [set_solver|done..].
  - intros (kind & d1 & d2 & d3 & Hk & H1 & H2 & H3 & ->).
    rewrite !elem_of_cons in Hk.
    destruct Hk as [->|[->|[->|[->|Hk]]]]; [..|by apply elem_of_nil in Hk];
      simpl; by rewrite H1, H2, H3.
Qed.

Lemma match_alts_prefix (alts : list (list atom)) (s m : string) :
  match_alts alts s = Some m →
  match_alts alts m = Some m ∧ ∃ rest, s = m +:+ rest.
Proof.
  induction alts as [|p alts IH]; [done|].
  rewrite !match_alts_cons.
  destruct (match_prefix p s) as [m0|] eqn:Hp.
  - intros [= ->]. apply match_prefix_app in Hp as [Hm Hr]. by rewrite Hm.
  - intros H. destruct (IH H) as [Hm [rest ->]].
    split; [|by exists rest].
    destruct (match_prefix p m) as [m1|] eqn:Hp1; [|done].
    apply match_prefix_app in Hp1 as [Hm1 [r1 ->]].
    assert (match_prefix p ((m1 +:+ r1) +:+ rest) = Some m1) as Hc.
    { apply match_prefix_app. split; [done|].
      exists (r1 +:+ rest). apply app_assoc_str. }
    congruence.
Qed.

Lemma match_alts_cloud_iff (s m : string) :
  match_alts Metar.cloud_re s = Some m ↔
  cloud_token m ∧ ∃ rest, s = m +:+ rest.
Proof.
  split.
  - intros H. apply match_alts_prefix in H as [Hm Hr].
    by apply match_alts_cloud_self in Hm.
  - intros [(kind & d1 & d2 & d3 & Hk & H1 & H2 & H3 & ->) [rest ->]].
    unfold cloud_kinds in Hk. rewrite !elem_of_cons in Hk.
    destruct Hk as [->|[->|[->|[->|Hk]]]]; [..|by apply elem_of_nil in Hk];
      simpl; by rewrite H1, H2, H3.
Qed.

Lemma digit_not_kind (c : ascii) (s : string) :
  is_digit c = true → match_alts Metar.cloud_re (String c s) = None.
Proof.
  intros H. unfold Metar.cloud_re.
  rewrite !match_alts_cons, !match_prefix_cons. cbn [atom_ok match_alts].
  destruct (Ascii.eqb_spec "F" c) as [<-|_]; [done|].
  destruct (Ascii.eqb_spec "S" c) as [<-|_]; [done|].
  destruct (Ascii.eqb_spec "B" c) as [<-|_]; [done|].
  by destruct (Ascii.eqb_spec "O" c) as [<-|_].
Qed.

(** Two cloud-layer tokens never overlap. *)
Lemma cloud_tokens_apart (c : ascii) (s m : string) :
  match_alts Metar.cloud_re (String c s) = Some m →
  String.length m = 6%nat ∧ clear Metar.cloud_re 5 s.
Proof.
  intros H. apply match_alts_cloud_iff in H
    as [(kind & d1 & d2 & d3 & Hk & H1 & H2 & H3 & ->) [rest Hr]].
  unfold cloud_kinds in Hk. rewrite !elem_of_cons in Hk.
  destruct Hk as [->|[->|[->|[->|Hk]]]]; [..|by apply elem_of_nil in Hk];
    injection Hr as -> ->; (split; [done|]);
    (split; [done|]); (split; [done|]);
    repeat (split; [by apply digit_not_kind|]); done.
Qed.

Lemma findall_from_O (alts : list (list atom)) (c : ascii) (s : string) :
  findall_from alts 0 (String c s)
  = match match_alts alts (String c s) with
    | Some m => m :: findall_from alts (String.length m - 1) s
    | None => findall_from alts 0 s
    end.
Proof. reflexivity. Qed.

Lemma scan_cons (alts : list (list atom)) (c : ascii) (s : string) :
  scan alts (String c s)
  = match match_alts alts (String c s) with
    | Some m => m :: scan alts s
    | None => scan alts s
    end.
Proof. reflexivity. Qed.

Lemma findall_scan_from (k : nat) (s : string) :
  clear Metar.cloud_re k s →
  findall_from Metar.cloud_re k s = scan Metar.cloud_re s.
Proof.
  revert k. induction s as [|c s IH]; intros k Hk; [done|].
  destruct k as [|k].
  - rewrite findall_from_O, scan_cons.
    destruct (match_alts Metar.cloud_re (String c s)) as [m|] eqn:Hm.
    + apply cloud_tokens_apart in Hm as [Hlen Hc]. rewrite Hlen.
      f_equal. by apply IH.
    + by apply IH.
  - destruct Hk as [Hm Hk]. rewrite scan_cons, Hm.
    change (findall_from Metar.cloud_re (S k) (String c s))
      with (findall_from Metar.cloud_re k s).
    by apply IH.
Qed.

Lemma findall_scan (s : string) :
  findall Metar.cloud_re s = scan Metar.cloud_re s.
Proof. by apply findall_scan_from. Qed.

Lemma scan_nil (s : string) :
  (∀ tok pre post, cloud_token tok → s ≠ pre +:+ tok +:+ post) →
  scan Metar.cloud_re s = [].
Proof.
  induction s as [|c s IH]; intros H; [done|].
  rewrite scan_cons.
  destruct (match_alts Metar.cloud_re (String c s)) as [m|] eqn:Hm.
  - apply match_alts_cloud_iff in Hm as [Ht [rest Hr]].
    by destruct (H m "" rest Ht).
  - apply IH. intros tok pre post Ht ->.
    by apply (H tok (String c pre) post Ht).
Qed.

Lemma scan_nonempty (s tok pre post : string) :
  cloud_token tok → s = pre +:+ tok +:+ post → scan Metar.cloud_re s ≠ [].
Proof.
  intros Ht ->. induction pre as [|c pre IH].
  - rewrite app_nil_l_str.
    assert (Hm : match_alts Metar.cloud_re (tok +:+ post) = Some tok)
      by (apply match_alts_cloud_iff; eauto).
    destruct (tok +:+ post) as [|c s] eqn:E; [done|].
    by rewrite scan_cons, Hm.
  - rewrite app_cons_str, scan_cons. by destruct (match_alts _ _).
Qed.

(** The last match is the token after whose start no token starts. *)
Lemma scan_last (s tok pre post : string) :
  cloud_token tok →
  s = pre +:+ tok +:+ post →
  (∀ tok' pre' post', cloud_token tok' → s = pre' +:+ tok' +:+ post' →
                      (String.length pre' ≤ String.length pre)%nat) →
  last (scan Metar.cloud_re s) = Some tok.
Proof.
  intros Ht. revert s. induction pre as [|c pre IH]; intros s -> Hlast.
  - rewrite app_nil_l_str in *.
    assert (Hm : match_alts Metar.cloud_re (tok +:+ post) = Some tok)
      by (apply match_alts_cloud_iff; eauto).
    destruct (tok +:+ post) as [|c s] eqn:E; [done|].
    rewrite scan_cons, Hm, scan_nil; [done|].
    intros tok' pre' post' Ht' ->.
    specialize (Hlast tok' (String c pre') post' Ht' eq_refl).
    simpl in Hlast. lia.
  - rewrite app_cons_str, scan_cons.
    assert (Hl : last (scan Metar.cloud_re (pre +:+ tok +:+ post)) = Some tok).
    { apply IH; [done|]. intros tok' pre' post' Ht' E.
      specialize (Hlast tok' (String c pre') post' Ht').
      rewrite !app_cons_str, E in Hlast. specialize (Hlast eq_refl).
      simpl in Hlast. lia. }
    destruct (match_alts _ _); [|done].
    destruct (scan Metar.cloud_re (pre +:+ tok +:+ post)); [done|].
    by rewrite last_cons, Hl.
Qed.

Lemma match_prefix_nospace (p : list atom) (x y : string) :
  forallb (fun a => negb (atom_ok a " ")) p = true →
  match_prefix p (x +:+ " " +:+ y) = match_prefix p x.
Proof.
  revert x. induction p as [|a p IH]; intros x H; [done|].
  simpl in H. apply andb_true_iff in H as [Ha H].
  apply negb_true_iff in Ha.
  destruct x as [|c x].
  - rewrite app_nil_l_str. change (" " +:+ y) with (String " " y).
    by rewrite match_prefix_cons, Ha.
  - rewrite (app_cons_str c x), !match_prefix_cons. by rewrite IH.
Qed.

Lemma match_alts_nospace (alts : list (list atom)) (x y : string) :
  no_space alts = true →
  match_alts alts (x +:+ " " +:+ y) = match_alts alts x.
Proof.
  induction alts as [|p alts IH]; intros H; [done|].
  simpl in H. apply andb_true_iff in H as [Hp H].
  destruct p as [|a p]; [done|].
  by rewrite !match_alts_cons, (IH H), match_prefix_nospace.
Qed.

Lemma match_alts_nospace_nil (alts : list (list atom)) :
  no_space alts = true → match_alts alts "" = None.
Proof.
  induction alts as [|p alts IH]; intros H; [done|].
  simpl in H. apply andb_true_iff in H as [Hp H].
  destruct p as [|a p]; [done|]. by rewrite match_alts_cons, (IH H).
Qed.

Lemma scan_sep (alts : list (list atom)) (x y : string) :
  no_space alts = true →
  scan alts (x +:+ " " +:+ y) = (scan alts x ++ scan alts y)%list.
Proof.
  intros H. induction x as [|c x IH].
  - rewrite app_nil_l_str. change (" " +:+ y) with (String " " y).
    rewrite scan_cons. change (String " " y) with ("" +:+ " " +:+ y).
    by rewrite (match_alts_nospace alts "" y H), match_alts_nospace_nil.
  - rewrite (app_cons_str c x), !scan_cons, <- (app_cons_str c x).
    rewrite (match_alts_nospace alts (String c x) y H), IH.
    by destruct (match_alts alts (String c x)).
Qed.

(** ** The dictionary returned by the decoder *)

Lemma parse_metar_lookup (metar k : string) :
  metar ≠ "" →
  Metar.parse_metar (Some metar) !! k = assoc_last k (decoded_fields metar) None.
Proof.
  intros H. rewrite <- py_dict_lookup. f_equal.
  destruct metar as [|c metar]; [done|].
  unfold Metar.parse_metar, decoded_fields.
  destruct (Metar.cloud_fields _) as [[? ?] ?].
  destruct (Metar.wind_fields _) as [[? ?] ?].
  by destruct (Metar.vis_fields _) as [? ?].
Qed.

Lemma parse_metar_cloud (metar : string) :
  metar ≠ "" →
  let clouds := Metar.cloud_fields (scan Metar.cloud_re metar) in
  Metar.parse_metar (Some metar) !! "cloud_status" = Some (VStr clouds.1.1) ∧
  Metar.parse_metar (Some metar) !! "weather_msg" = Some (VStr clouds.1.2) ∧
  Metar.parse_metar (Some metar) !! "cloud_color" = Some (VStr clouds.2).
Proof.
  intros H. rewrite !parse_metar_lookup by done.
  rewrite <- findall_scan. done.
Qed.

Lemma py_int_3 (d1 d2 d3 : ascii) :
  py_int (String d1 (String d2 (String d3 "")))
  = 100 * digit_val d1 + 10 * digit_val d2 + digit_val d3.
Proof. unfold py_int. cbn [int_digits]. lia. Qed.

Lemma cloud_fields_last (clouds : list string) (kind : string)
    (d1 d2 d3 : ascii) :
  kind ∈ cloud_kinds →
  last clouds = Some (kind +:+ String d1 (String d2 (String d3 ""))) →
  let ceiling := (100 * digit_val d1 + 10 * digit_val d2 + digit_val d3) * 100 in
  (Metar.cloud_fields clouds).1.1 = fmt_commas ceiling +:+ " FT" ∧
  (Metar.cloud_fields clouds).2 =
    (if ceiling <? 1000 then "#B51700"
     else if ceiling <? 3000 then "#DC582A" else "#017100").
Proof.
  intros Hk Hl. unfold Metar.cloud_fields. rewrite Hl.
  assert (Hs : substring 3 3 (kind +:+ String d1 (String d2 (String d3 "")))
               = String d1 (String d2 (String d3 ""))).
  { unfold cloud_kinds in Hk. rewrite !elem_of_cons in Hk.
    by destruct Hk as [->|[->|[->|[->|Hk]]]];
      [..|by apply elem_of_nil in Hk]. }
  rewrite Hs, py_int_3. done.
Qed.

(** C7, as amended.  For every METAR text that is not empty: when no
    cloud-layer token occurs in it, the ceiling status is N/A, the
    message is Clear and the colour is the neutral one; when tokens
    occur, the one that starts last decides: the ceiling is its three
    digits times 100 feet, printed with thousands separators, and the
    colour is the warning one below 1000 ft, the caution one below
    3000 ft and the nominal one otherwise. *)
Theorem ceiling_from_last_token (metar : string) :
  metar ≠ "" →
  let d := Metar.parse_metar (Some metar) in
  ((∀ tok pre post, cloud_token tok → metar ≠ pre +:+ tok +:+ post) →
   d !! "cloud_status" = Some (VStr "N/A") ∧
   d !! "weather_msg" = Some (VStr "Clear") ∧
   d !! "cloud_color" = Some (VStr "#5E5E5E")) ∧
  (∀ kind d1 d2 d3 pre post,
     kind ∈ cloud_kinds →
     is_digit d1 = true → is_digit d2 = true → is_digit d3 = true →
     metar = pre +:+ (kind +:+ String d1 (String d2 (String d3 ""))) +:+ post →
     (∀ tok' pre' post',
        cloud_token tok' → metar = pre' +:+ tok' +:+ post' →
        (String.length pre' ≤ String.length pre)%nat) →
     let ceiling :=
       (100 * digit_val d1 + 10 * digit_val d2 + digit_val d3) * 100 in
     d !! "cloud_status" = Some (VStr (fmt_commas ceiling +:+ " FT")) ∧
     d !! "cloud_color" =
       Some (VStr (if ceiling <? 1000 then "#B51700"
                   else if ceiling <? 3000 then "#DC582A"
                   else "#017100"))).
Proof.
  intros Hne d. subst d.
  destruct (parse_metar_cloud metar Hne) as (Hs & Hm & Hc).
  split.
  - intros Hnone. rewrite Hs, Hm, Hc. by rewrite (scan_nil metar Hnone).
  - intros kind d1 d2 d3 pre post Hk H1 H2 H3 Heq Hlast ceiling.
    assert (Ht : cloud_token (kind +:+ String d1 (String d2 (String d3 ""))))
      by (by exists kind, d1, d2, d3).
    pose proof (scan_last metar _ pre post Ht Heq Hlast) as Hl.
    destruct (cloud_fields_last _ kind d1 d2 d3 Hk Hl) as [E1 E2].
    by rewrite Hs, Hc, E1, E2.
Qed.

(** ** Flight rules *)

Lemma parse_metar_ifr (metar : string) :
  metar ≠ "" →
  let ifr := existsb (fun code => str_in code metar) Metar.ifr_codes in
  Metar.parse_metar (Some metar) !! "ifr_status"
    = Some (VStr (if ifr then "IFR" else "VFR")) ∧
  Metar.parse_metar (Some metar) !! "ifr_msg"
    = Some (VStr (if ifr then "Caution" else "No Warnings")) ∧
  Metar.parse_metar (Some metar) !! "ifr_color"
    = Some (VStr (if ifr then "#B51700" else "#017100")).
Proof. intros H. by rewrite !parse_metar_lookup. Qed.

Lemma ifr_iff (metar : string) :
  existsb (fun code => str_in code metar) Metar.ifr_codes = true ↔
  ∃ code a b, code ∈ Metar.ifr_codes ∧ metar = a +:+ code +:+ b.
Proof.
  rewrite existsb_exists. split.
  - intros (code & Hin & Hs). apply str_in_iff in Hs as (a & b & Hs).
    exists code, a, b. split; [by apply list_elem_of_In|done].
  - intros (code & a & b & Hin & Hs). exists code.
    split; [by apply list_elem_of_In|]. apply str_in_iff. eauto.
Qed.

(** The decoded fields that do not depend on the flight rules or on the
    cloud layers. *)
Lemma parse_metar_other (m1 m2 k : string) :
  m1 ≠ "" → m2 ≠ "" →
  Metar.temp_field m1 = Metar.temp_field m2 →
  Metar.wind_fields m1 = Metar.wind_fields m2 →
  Metar.vis_fields m1 = Metar.vis_fields m2 →
  Metar.baro_field m1 = Metar.baro_field m2 →
  k ∉ ["ifr_status"; "ifr_msg"; "ifr_color";
       "cloud_status"; "weather_msg"; "cloud_color"] →
  Metar.parse_metar (Some m1) !! k = Metar.parse_metar (Some m2) !! k.
Proof.
  intros H1 H2 Ht Hw Hv Hb Hk. rewrite !parse_metar_lookup by done.
  rewrite !not_elem_of_cons in Hk. destruct_and!.
  unfold decoded_fields. rewrite Ht, Hw, Hv, Hb. cbn [assoc_last].
  repeat match goal with
         | H : k ≠ ?s |- context [String.eqb ?s k] =>
             rewrite (proj2 (String.eqb_neq s k)) by done
         end.
  done.
Qed.

Lemma cloud_fields_ext (l1 l2 : list string) :
  last l1 = last l2 → Metar.cloud_fields l1 = Metar.cloud_fields l2.
Proof. intros H. unfold Metar.cloud_fields. by rewrite H. Qed.

Lemma scan_insert_bkn (pre post : string) :
  scan Metar.cloud_re (pre +:+ " " +:+ post)
    = (scan Metar.cloud_re pre ++ scan Metar.cloud_re post)%list ∧
  scan Metar.cloud_re (pre +:+ " BKN020 " +:+ post)
    = (scan Metar.cloud_re pre ++ "BKN020" :: scan Metar.cloud_re post)%list.
Proof.
  split; [by apply scan_sep|].
  change (pre +:+ " BKN020 " +:+ post)
    with (pre +:+ " " +:+ ("BKN020" +:+ " " +:+ post)).
  by rewrite !scan_sep.
Qed.

(** C9, as amended.  The flight rules are IFR exactly when one of the
    six codes is a substring of the report.  When the group BKN020 is
    put at a space of a report decoded as VFR, the flight rules become
    IFR with their message and colour; every field other than those
    three and the three ceiling fields is unchanged; the ceiling fields
    are unchanged when a cloud-layer token follows the place of the
    insertion, and are those of BKN020 when none does. *)
Theorem flight_rules_and_insertion (metar pre post : string) :
  (Metar.parse_metar (Some metar) !! "ifr_status" = Some (VStr "IFR") ↔
   ∃ code a b, code ∈ Metar.ifr_codes ∧ metar = a +:+ code +:+ b) ∧
  let d1 := Metar.parse_metar (Some (pre +:+ " " +:+ post)) in
  let d2 := Metar.parse_metar (Some (pre +:+ " BKN020 " +:+ post)) in
  (d1 !! "ifr_status" = Some (VStr "VFR") →
   d2 !! "ifr_status" = Some (VStr "IFR") ∧
   d2 !! "ifr_msg" = Some (VStr "Caution") ∧
   d2 !! "ifr_color" = Some (VStr "#B51700") ∧
   (∀ k, k ∉ ["ifr_status"; "ifr_msg"; "ifr_color";
              "cloud_status"; "weather_msg"; "cloud_color"] →
         d2 !! k = d1 !! k) ∧
   ((∃ tok a b, cloud_token tok ∧ post = a +:+ tok +:+ b) →
    d2 !! "cloud_status" = d1 !! "cloud_status" ∧
    d2 !! "weather_msg" = d1 !! "weather_msg" ∧
    d2 !! "cloud_color" = d1 !! "cloud_color") ∧
   ((∀ tok a b, cloud_token tok → post ≠ a +:+ tok +:+ b) →
    d2 !! "cloud_status" = Some (VStr "2,000 FT") ∧
    d2 !! "weather_msg" = Some (VStr "Broken Ceiling") ∧
    d2 !! "cloud_color" = Some (VStr "#DC582A"))).
Proof.
  split.
  - destruct (decide (metar = "")) as [->|Hne].
    + split; [done|]. intros (code & a & b & Hin & Heq).
      destruct a as [|? a]; [|done]. destruct code as [|? code]; [|done].
      revert Hin. by apply (bool_decide_unpack _).
    + destruct (parse_metar_ifr metar Hne) as (-> & _). cbv zeta.
      rewrite <- ifr_iff.
      destruct (existsb _ _); split; (done || by intros [= ?]).
  - intros d1 d2 _. subst d1 d2.
    assert (Hn1 : pre +:+ " " +:+ post ≠ "") by (by destruct pre).
    assert (Hn2 : pre +:+ " BKN020 " +:+ post ≠ "") by (by destruct pre).
    assert (Hifr : existsb (fun code => str_in code (pre +:+ " BKN020 " +:+ post))
                     Metar.ifr_codes = true).
    { apply ifr_iff. exists "BKN", (pre +:+ " "), ("020 " +:+ post).
      split; [by apply (bool_decide_unpack _)|].
      by rewrite app_assoc_str. }
    destruct (parse_metar_ifr _ Hn2) as (Hs & Hm & Hc). cbv zeta in Hs, Hm, Hc.
    rewrite Hifr in Hs, Hm, Hc.
    destruct (separable_res) as (St & Sw & Sv & Sb).
    destruct (search_bkn_res post) as (Bt & Bw & Bv & Bb).
    destruct (scan_insert_bkn pre post) as [Sc1 Sc2].
    destruct (parse_metar_cloud _ Hn1) as (C1s & C1m & C1c).
    destruct (parse_metar_cloud _ Hn2) as (C2s & C2m & C2c).
    cbv zeta in C1s, C1m, C1c, C2s, C2m, C2c.
    assert (Hsame : (∃ tok a b, cloud_token tok ∧ post = a +:+ tok +:+ b) →
              Metar.cloud_fields
                (scan Metar.cloud_re (pre +:+ " BKN020 " +:+ post))
              = Metar.cloud_fields
                  (scan Metar.cloud_re (pre +:+ " " +:+ post))).
    { intros (tok & a & b & Ht & Hp). apply cloud_fields_ext.
      rewrite Sc1, Sc2.
      pose proof (scan_nonempty post tok a b Ht Hp) as Hne.
      rewrite !last_app, last_cons.
      by destruct (last (scan Metar.cloud_re post)) eqn:E;
        [|apply last_None in E]. }
    assert (Hbkn : (∀ tok a b, cloud_token tok → post ≠ a +:+ tok +:+ b) →
              Metar.cloud_fields
                (scan Metar.cloud_re (pre +:+ " BKN020 " +:+ post))
              = ("2,000 FT", "Broken Ceiling", "#DC582A")).
    { intros H. rewrite Sc2, (scan_nil post H).
      unfold Metar.cloud_fields. by rewrite last_snoc. }
    split; [exact Hs|]. split; [exact Hm|]. split; [exact Hc|].
    split; [|split; (intros H; split; [|split])].
    + intros k Hk. apply parse_metar_other; try done.
      * unfold Metar.temp_field. by rewrite (search_insert_bkn _ _ _ St Bt).
      * unfold Metar.wind_fields. by rewrite (search_insert_bkn _ _ _ Sw Bw).
      * unfold Metar.vis_fields. by rewrite (search_insert_bkn _ _ _ Sv Bv).
      * unfold Metar.baro_field. by rewrite (search_insert_bkn _ _ _ Sb Bb).
    + by rewrite C1s, C2s, (Hsame H).
    + by rewrite C1m, C2m, (Hsame H).
    + by rewrite C1c, C2c, (Hsame H).
    + by rewrite C2s, (Hbkn H).
    + by rewrite C2m, (Hbkn H).
    + by rewrite C2c, (Hbkn H).
Qed.

(** ** The temperature group *)


Lemma match_prefix_self_cons (a : atom) (p : list atom) (m : string) :
  match_prefix (a :: p) m = Some m →
  ∃ c m', m = String c m' ∧ atom_ok a c = true ∧ match_prefix p m' = Some m'.
Proof.
  destruct m as [|c m]; [by simpl|]. rewrite match_prefix_cons.
  destruct (atom_ok a c) eqn:Ha; [|done].
  destruct (match_prefix p m) as [m'|] eqn:Hp; [|done].
  simpl. intros [= ->]. by exists c, m.
Qed.

Lemma match_prefix_self_nil (m : string) :
  match_prefix [] m = Some m → m = "".
Proof. simpl. by intros [= H]. Qed.

Lemma match_temp_self (m : string) :
  match_alts Metar.temp_re m = Some m → plain_temp_group m.
Proof.
  unfold Metar.temp_re. rewrite match_alts_cons.
  destruct (match_prefix _ m) as [m'|] eqn:H; [|done]. intros [= ->].
  repeat (apply match_prefix_self_cons in H as (? & ? & -> & ? & H)).
  apply match_prefix_self_nil in H as ->.
  cbn [atom_ok] in *.
  repeat match goal with
         | H : Ascii.eqb _ _ = true |- _ => apply Ascii.eqb_eq in H as <-
         end.
  unfold plain_temp_group.
  match goal with
  | |- ∃ d1 d2 d3 d4, _ ∧ _ ∧ _ ∧ _ ∧
         String _ (String ?a (String ?b (String _ (String ?c (String ?d _)))))
         = _ => by exists a, b, c, d
  end.
Qed.





Lemma parse_metar_temp (metar : string) :
  metar ≠ "" →
  Metar.parse_metar (Some metar) !! "weather_status"
  = Some (VStr (Metar.temp_field metar)).
Proof. intros H. by rewrite parse_metar_lookup. Qed.


(** ** Checking the side conditions on a given text *)

Lemma app_longer_prefix (x x' y y' : string) :
  x +:+ y = x' +:+ y' →
  (String.length x < String.length x')%nat →
  ∃ c a, y = String c a +:+ y'.
Proof.
  revert x'. induction x as [|c0 x IH]; intros x' Heq Hlen.
  - destruct x' as [|c a]; [simpl in Hlen; lia|]. by exists c, a.
  - destruct x' as [|c0' x']; [simpl in Hlen; lia|].
    rewrite !app_cons_str in Heq. injection Heq as _ Heq.
    apply (IH x' Heq). simpl in Hlen. lia.
Qed.

(** No token occurs in a text whose scan is empty. *)
Lemma no_token_by_scan (s : string) :
  scan Metar.cloud_re s = [] →
  ∀ tok pre post, cloud_token tok → s ≠ pre +:+ tok +:+ post.
Proof.
  intros Hs tok pre post Ht Heq. by apply (scan_nonempty s tok pre post Ht Heq).
Qed.

(** A token is the last one when the scan of what follows its first
    character is empty. *)
Lemma last_token_by_scan (pre tok post : string) (c : ascii) (s : string) :
  tok +:+ post = String c s →
  scan Metar.cloud_re s = [] →
  ∀ tok' pre' post',
    cloud_token tok' → pre +:+ tok +:+ post = pre' +:+ tok' +:+ post' →
    (String.length pre' ≤ String.length pre)%nat.
Proof.
  intros Hs Hscan tok' pre' post' Ht' Heq.
  destruct (le_lt_dec (String.length pre') (String.length pre)) as [|Hlt];
    [done|].
  destruct (app_longer_prefix _ _ _ _ Heq Hlt) as (c' & a & Ha).
  rewrite Hs, app_cons_str in Ha. injection Ha as _ ->.
  by destruct (no_token_by_scan _ Hscan tok' a post' Ht').
Qed.


(** * Properties of the tracker and of the two feeds *)

(** ** The comparisons on rationals *)

Lemma Qgtb_true (a b : Q) : Qgtb a b = true ↔ (b < a)%Q.
Proof.
  unfold Qgtb. rewrite negb_true_iff, <- not_true_iff_false, Qle_bool_iff.
  split; [apply Qnot_le_lt | apply Qlt_not_le].
Qed.

Lemma Qgtb_false (a b : Q) : Qgtb a b = false ↔ (a <= b)%Q.
Proof. unfold Qgtb. by rewrite negb_false_iff, Qle_bool_iff. Qed.

Lemma Qltb_true (a b : Q) : Qltb a b = true ↔ (a < b)%Q.
Proof. apply Qgtb_true. Qed.

Lemma Qltb_false (a b : Q) : Qltb a b = false ↔ (b <= a)%Q.
Proof. apply Qgtb_false. Qed.

Lemma int_of_float_mono (a b : Q) :
  (a <= b)%Q → int_of_float a ≤ int_of_float b.
Proof.
  destruct a as [p d], b as [p' d']. unfold Qle, int_of_float. simpl.
  intros H.
  rewrite <- (Z.quot_mul_cancel_r p (Z.pos d) (Z.pos d')) by lia.
  rewrite <- (Z.quot_mul_cancel_r p' (Z.pos d') (Z.pos d)) by lia.
  rewrite (Z.mul_comm (Z.pos d') (Z.pos d)).
  apply Z.quot_le_mono; lia.
Qed.

Lemma int_of_float_Qeq (a b : Q) :
  (a == b)%Q → int_of_float a = int_of_float b.
Proof.
  intros H.
  apply Z.le_antisymm; apply int_of_float_mono; rewrite H; apply Qle_refl.
Qed.

(** ** The enrichment merge *)

Lemma enrich_merge_lookup (base extra : dict) (k : string) :
  enrich_merge base extra !! k =
  match base !! k with
  | Some v => Some v
  | None => extra !! k
  end.
Proof.
  unfold enrich_merge, dict_update.
  rewrite lookup_union.
  destruct (base !! k) as [v|] eqn:Hb.
  - rewrite map_lookup_filter_None_2; [done|].
    right. intros x _ Hn. apply Hn. simpl. apply elem_of_dom. eauto.
  - destruct (extra !! k) as [w|] eqn:He.
    + rewrite (map_lookup_filter_Some_2 _ _ _ w); [done|done|].
      simpl. by apply not_elem_of_dom.
    + rewrite map_lookup_filter_None_2; [done|by left].
Qed.

(** C6.  The merge adds every key of the enrichment record that the
    base record lacks, keeps the value of every key of the base record,
    and merging the same enrichment record a second time changes
    nothing. *)
Theorem enrich_merge_nondestructive_idempotent (base extra : dict) :
  (∀ k v, extra !! k = Some v → base !! k = None →
          enrich_merge base extra !! k = Some v) ∧
  (∀ k v, base !! k = Some v → enrich_merge base extra !! k = Some v) ∧
  enrich_merge (enrich_merge base extra) extra = enrich_merge base extra.
Proof.
  split; [|split].
  - intros k v He Hb. by rewrite enrich_merge_lookup, Hb.
  - intros k v Hb. by rewrite enrich_merge_lookup, Hb.
  - apply map_eq. intros k. rewrite !enrich_merge_lookup.
    destruct (base !! k); [done|]. by destruct (extra !! k).
Qed.

(** ** The tick in the two tracker states *)

Section Tracker.

Variable cfg : config.

Lemma refresh_weather_flight (env : tick_env) (st : state) :
  last_flight_fetch (refresh_weather env st) = last_flight_fetch st ∧
  cached_flight_info (refresh_weather env st) = cached_flight_info st ∧
  flight_captured (refresh_weather env st) = flight_captured st ∧
  flight_captured_time (refresh_weather env st) = flight_captured_time st ∧
  flight_captured_info (refresh_weather env st) = flight_captured_info st.
Proof. unfold refresh_weather. by destruct (weather_due _ _). Qed.

Lemma get_display_data_captured (env : tick_env) (st : state) :
  flight_captured st = true →
  get_display_data cfg env st =
  (refresh_weather env st, captured_display cfg st (now_captured env)).
Proof.
  intros Hc. unfold get_display_data.
  destruct (refresh_weather_flight env st) as (_ & _ & -> & Ht & Hi).
  rewrite Hc. unfold captured_display. by rewrite Ht, Hi.
Qed.

Lemma captured_display_fields (st : state) (t a0 : Q) :
  flight_captured_info st !! "calculated_altitude" ≫= as_number = Some a0 →
  let alt :=
    (a0 - inject_Z (FPM_LANDING cfg) * (t - flight_captured_time st) / 60)%Q in
  ∃ data,
    captured_display cfg st t = Some data ∧
    data !! "calculated_altitude" = Some (VFloat alt) ∧
    data !! "altitude" =
      Some (VStr (pretty (Z.max (TDZE cfg) (int_of_float alt)) +:+ " FT")) ∧
    data !! "status" =
      Some (VStr (if Qgtb alt 2000 then "APPROACH"
                  else if Qgtb alt (inject_Z (TDZE cfg)) then "FINAL"
                  else "LANDED")) ∧
    ∀ k, k ∉ ["calculated_altitude"; "altitude"; "calculated_distance";
              "status"; "status_color"] →
         data !! k = flight_captured_info st !! k.
Proof.
  intros Ha alt. unfold captured_display. rewrite Ha. simpl.
  eexists. split; [reflexivity|]. fold alt.
  destruct (Qgtb alt 2000); [|destruct (Qgtb alt (inject_Z (TDZE cfg)))];
    (repeat split; [by simplify_map_eq ..|]);
    intros k Hk; rewrite !not_elem_of_cons in Hk;
    destruct Hk as (? & ? & ? & ? & ? & _); by simplify_map_eq.
Qed.

(** C3.  While a flight is captured every tick returns a display whose
    extrapolated altitude is the captured altitude minus the descent rate
    times the minutes elapsed since the capture; the altitude shown is
    that value truncated and floored at the touchdown elevation, hence
    never below it; with a non-negative descent rate a later tick gives
    an altitude, extrapolated and shown, that is not higher; and 3000 ft
    at 600 ft/min give 0 ft after 300 seconds, shown as the larger of 0
    and the touchdown elevation. *)
Theorem descending_altitude (env env' : tick_env) (st : state) (a0 : Q) :
  flight_captured st = true →
  flight_captured_info st !! "calculated_altitude" ≫= as_number = Some a0 →
  0 ≤ FPM_LANDING cfg →
  (now_captured env <= now_captured env')%Q →
  let minutes t := ((t - flight_captured_time st) / 60)%Q in
  let shown alt := Z.max (TDZE cfg) (int_of_float alt) in
  ∃ data data' alt alt',
    (get_display_data cfg env st).2 = Some data ∧
    (get_display_data cfg env' (get_display_data cfg env st).1).2
      = Some data' ∧
    data !! "calculated_altitude" = Some (VFloat alt) ∧
    data' !! "calculated_altitude" = Some (VFloat alt') ∧
    (alt == a0 - inject_Z (FPM_LANDING cfg) * minutes (now_captured env))%Q ∧
    (alt' == a0 - inject_Z (FPM_LANDING cfg) * minutes (now_captured env'))%Q ∧
    data !! "altitude" = Some (VStr (pretty (shown alt) +:+ " FT")) ∧
    data' !! "altitude" = Some (VStr (pretty (shown alt') +:+ " FT")) ∧
    TDZE cfg ≤ shown alt ∧
    (alt' <= alt)%Q ∧
    shown alt' ≤ shown alt ∧
    ((a0 == 3000)%Q → FPM_LANDING cfg = 600 →
     (minutes (now_captured env) == 5)%Q →
     (alt == 0)%Q ∧ shown alt = Z.max (TDZE cfg) 0).
Proof.
  intros Hc Ha Hrate Hle minutes shown.
  rewrite (get_display_data_captured env st Hc). simpl.
  destruct (refresh_weather_flight env st) as (_ & _ & Hc' & Ht & Hi).
  rewrite (get_display_data_captured env' _); [|by rewrite Hc']. simpl.
  destruct (captured_display_fields st (now_captured env) a0 Ha)
    as (data & Hd & Hcalc & Halt & _).
  destruct (captured_display_fields (refresh_weather env st)
              (now_captured env') a0) as (data' & Hd' & Hcalc' & Halt' & _);
    [by rewrite Hi|].
  rewrite Ht in Hcalc', Halt'.
  set (alt := (a0 - inject_Z (FPM_LANDING cfg) *
                 (now_captured env - flight_captured_time st) / 60)%Q) in *.
  set (alt' := (a0 - inject_Z (FPM_LANDING cfg) *
                 (now_captured env' - flight_captured_time st) / 60)%Q) in *.
  assert (Hrate' : (0 <= inject_Z (FPM_LANDING cfg))%Q).
  { change 0%Q with (inject_Z 0). by rewrite <- Zle_Qle. }
  assert (Hmono : (alt' <= alt)%Q).
  { unfold alt, alt'.
    set (r := inject_Z (FPM_LANDING cfg)) in *.
    set (c := flight_captured_time st).
    assert (Hd0 : (0 <= r * (now_captured env' - now_captured env))%Q)
      by (apply Qmult_le_0_compat; lra).
    assert (Heq : (a0 - r * (now_captured env - c) / 60
                   - (a0 - r * (now_captured env' - c) / 60)
                   == r * (now_captured env' - now_captured env) * (1 # 60))%Q)
      by field.
    assert (0 <= r * (now_captured env' - now_captured env) * (1 # 60))%Q
      by (apply Qmult_le_0_compat; [done|lra]).
    lra. }
  assert (Ealt : (alt == a0 - inject_Z (FPM_LANDING cfg)
                              * minutes (now_captured env))%Q)
    by (unfold alt, minutes; field).
  assert (Ealt' : (alt' == a0 - inject_Z (FPM_LANDING cfg)
                                * minutes (now_captured env'))%Q)
    by (unfold alt', minutes; field).
  assert (Hex : (a0 == 3000)%Q → FPM_LANDING cfg = 600 →
                (minutes (now_captured env) == 5)%Q → (alt == 0)%Q).
  { intros E0 Er Em. rewrite Ealt, E0, Er, Em. reflexivity. }
  exists data, data', alt, alt'.
  do 8 (split; [done|]).
  split; [unfold shown; lia|]. split; [done|].
  split; [unfold shown; by apply Z.max_le_compat_l, int_of_float_mono|].
  intros E0 Er Em. split; [by apply Hex|].
  unfold shown. f_equal. change 0 with (int_of_float 0).
  by apply int_of_float_Qeq, Hex.
Qed.

(** C4, as amended.  While a flight is captured the status label is
    decided by the extrapolated altitude alone, in this order: above
    2000 ft it is APPROACH; otherwise, above the touchdown elevation it
    is FINAL; otherwise it is LANDED.  So 2001 ft is APPROACH and
    2000 ft is FINAL when the touchdown elevation is below 2000 ft. *)
Theorem descending_status (env : tick_env) (st : state) (a0 : Q) :
  flight_captured st = true →
  flight_captured_info st !! "calculated_altitude" ≫= as_number = Some a0 →
  ∃ data alt,
    (get_display_data cfg env st).2 = Some data ∧
    data !! "calculated_altitude" = Some (VFloat alt) ∧
    (alt == a0 - inject_Z (FPM_LANDING cfg)
                 * ((now_captured env - flight_captured_time st) / 60))%Q ∧
    ((2000 < alt)%Q → data !! "status" = Some (VStr "APPROACH")) ∧
    ((alt <= 2000)%Q → (inject_Z (TDZE cfg) < alt)%Q →
     data !! "status" = Some (VStr "FINAL")) ∧
    ((alt <= 2000)%Q → (alt <= inject_Z (TDZE cfg))%Q →
     data !! "status" = Some (VStr "LANDED")) ∧
    ((alt == 2001)%Q → data !! "status" = Some (VStr "APPROACH")) ∧
    ((alt == 2000)%Q → TDZE cfg < 2000 →
     data !! "status" = Some (VStr "FINAL")).
Proof.
  intros Hc Ha.
  rewrite (get_display_data_captured env st Hc). simpl.
  destruct (captured_display_fields st (now_captured env) a0 Ha)
    as (data & Hd & Hcalc & _ & Hst & _).
  set (alt := (a0 - inject_Z (FPM_LANDING cfg) *
                 (now_captured env - flight_captured_time st) / 60)%Q) in *.
  exists data, alt. split; [done|]. split; [done|].
  split; [unfold alt; field|].
  assert (Happ : (2000 < alt)%Q → data !! "status" = Some (VStr "APPROACH")).
  { intros H. apply Qgtb_true in H. by rewrite Hst, H. }
  assert (Hfin : (alt <= 2000)%Q → (inject_Z (TDZE cfg) < alt)%Q →
                 data !! "status" = Some (VStr "FINAL")).
  { intros H1 H2. apply Qgtb_false in H1. apply Qgtb_true in H2.
    by rewrite Hst, H1, H2. }
  repeat split; try done.
  - intros H1 H2. apply Qgtb_false in H1. apply Qgtb_false in H2.
    by rewrite Hst, H1, H2.
  - intros H. apply Happ. rewrite H. reflexivity.
  - intros H1 H2. apply Hfin.
    + rewrite H1. apply Qle_refl.
    + rewrite H1. change 2000%Q with (inject_Z 2000). by rewrite <- Zlt_Qlt.
Qed.

Lemma get_display_data_idle (env : tick_env) (st : state) :
  flight_captured st = false →
  let st1 := refresh_weather env st in
  let st2 := if flight_due st1 (now env) then fetch_flight env st1 else st1 in
  let display_data :=
    <["arrival_city" := VStr (DEFAULT_ARRIVAL_CITY cfg)]>
      (dict_update (default_display (clock env)) (cached_parsed_metar st1)) in
  get_display_data cfg env st =
  if decide (cached_flight_info st2 = ∅) then (st2, Some display_data)
  else match flight_fields cfg (cached_flight_info st2) display_data with
       | Some d => (set_captured (now_capture env) d st2, Some d)
       | None => (st2, None)
       end.
Proof.
  intros Hc. simpl. unfold get_display_data.
  destruct (refresh_weather_flight env st) as (_ & _ & -> & _).
  rewrite Hc.
  destruct (decide _) as [He|He]; [done|].
  by destruct (flight_fields _ _ _).
Qed.

Lemma fetch_flight_weather (env : tick_env) (st : state) :
  cached_parsed_metar (fetch_flight env st) = cached_parsed_metar st ∧
  last_metar_fetch (fetch_flight env st) = last_metar_fetch st ∧
  flight_captured (fetch_flight env st) = flight_captured st ∧
  flight_captured_time (fetch_flight env st) = flight_captured_time st ∧
  flight_captured_info (fetch_flight env st) = flight_captured_info st.
Proof.
  unfold fetch_flight.
  destruct (search_response env) as [| |[|base rest]]; try done.
  destruct (base !! "fr24_id"); [|done].
  by destruct (enrich_response env) as [| |[|extra rest']].
Qed.

(** What a tick leaves in the two caches and their clocks. *)
Lemma get_display_data_caches (env : tick_env) (st : state) :
  let st1 := refresh_weather env st in
  let st2 :=
    if flight_captured st then st1
    else if flight_due st1 (now env) then fetch_flight env st1 else st1 in
  let st' := (get_display_data cfg env st).1 in
  last_metar_fetch st' = last_metar_fetch st1 ∧
  cached_parsed_metar st' = cached_parsed_metar st1 ∧
  last_flight_fetch st' = last_flight_fetch st2 ∧
  cached_flight_info st' = cached_flight_info st2.
Proof.
  simpl. destruct (flight_captured st) eqn:Hc.
  - by rewrite get_display_data_captured.
  - rewrite (get_display_data_idle env st Hc).
    set (st1 := refresh_weather env st).
    assert (Hw : ∀ s, s = (if flight_due st1 (now env)
                           then fetch_flight env st1 else st1) →
                 last_metar_fetch s = last_metar_fetch st1 ∧
                 cached_parsed_metar s = cached_parsed_metar st1).
    { intros s ->. destruct (flight_due _ _); [|done].
      by destruct (fetch_flight_weather env st1) as (-> & -> & _). }
    destruct (Hw _ eq_refl) as [? ?].
    destruct (decide _); [done|].
    by destruct (flight_fields _ _ _).
Qed.

(** C5.  While a flight is captured the reset fires at a tick exactly
    when the altitude extrapolated at that tick is below -250 ft: then
    the captured snapshot and the cached flight record are cleared and
    the clock of the flight feed is set back to zero, so that the gate of
    the flight feed is due at the next tick, whatever the time of the
    last attempt was, for every wall-clock reading later than 15 s after
    the epoch; otherwise the tracker keeps its snapshot, the cache and
    the clock. *)
Theorem tracker_reset (env env' : tick_env) (st : state) (a0 : Q) :
  flight_captured st = true →
  flight_captured_info st !! "calculated_altitude" ≫= as_number = Some a0 →
  (15 < now env')%Q →
  let alt :=
    (a0 - inject_Z (FPM_LANDING cfg)
          * (now_captured env - flight_captured_time st) / 60)%Q in
  let st' := (refresh_ui cfg env st).1 in
  ((alt < -250)%Q →
     flight_captured st' = false ∧
     flight_captured_time st' = 0%Q ∧
     flight_captured_info st' = ∅ ∧
     cached_flight_info st' = ∅ ∧
     last_flight_fetch st' = 0%Q ∧
     flight_due (refresh_weather env' st') (now env') = true) ∧
  ((-250 <= alt)%Q →
     flight_captured st' = true ∧
     flight_captured_time st' = flight_captured_time st ∧
     flight_captured_info st' = flight_captured_info st ∧
     cached_flight_info st' = cached_flight_info st ∧
     last_flight_fetch st' = last_flight_fetch st).
Proof.
  intros Hc Ha Hnow alt st'. subst st'. unfold refresh_ui.
  rewrite (get_display_data_captured env st Hc).
  destruct (captured_display_fields st (now_captured env) a0 Ha)
    as (data & -> & Hcalc & _).
  fold alt in Hcalc. rewrite Hcalc. simpl.
  destruct (refresh_weather_flight env st) as (Hl & Hf & Hc' & Ht & Hi).
  split.
  - intros Hlow. apply Qltb_true in Hlow. rewrite Hlow. simpl.
    repeat split; try done.
    destruct (refresh_weather_flight env'
                (reset_tracker (refresh_weather env st))) as (Hl' & _).
    unfold flight_due. rewrite Hl'. simpl.
    apply Qgtb_true. unfold Qminus. lra.
  - intros Hhigh. apply Qltb_false in Hhigh. rewrite Hhigh. simpl.
    by rewrite Hc', Hc.
Qed.

(** The keys that [flight_fields] assigns. *)
Lemma flight_fields_other (info d d' : dict) (k : string) :
  flight_fields cfg info d = Some d' →
  k ∉ ["flight_number"; "callsign"; "departure_code"; "departure_city";
       "arrival_code"; "arrival_city"; "aircraft"; "departure_time";
       "arrival_time"; "delay"; "status_color"; "altitude";
       "calculated_altitude"; "calculated_distance"; "speed"; "distance";
       "duration"] →
  d' !! k = d !! k.
Proof.
  intros Hf Hk. rewrite !not_elem_of_cons in Hk.
  unfold flight_fields in Hf.
  repeat match type of Hf with
         | (_ ≫= _) = Some _ =>
             apply bind_Some in Hf; destruct Hf as (? & _ & Hf)
         end.
  injection Hf as <-. destruct_and!.
  by repeat (rewrite lookup_insert_ne; [|done]).
Qed.

(** What a failed fetch does to the weather cache.  On a tick at which
    the weather gate is due and the fetch fails, the cache is replaced
    by the empty dictionary and the clock of the weather feed advances
    to the time of the tick; the display built while no flight is
    captured then shows the built-in placeholders in its weather fields.
    On a tick at which the gate is not due the cache and its clock are
    kept as they are. *)
Theorem weather_failure_empties_cache (env : tick_env) (st : state) :
  let st' := (get_display_data cfg env st).1 in
  (weather_due st (now env) = true →
   metar_response env = TransportError ∨ metar_response env = HttpError →
   cached_parsed_metar st' = ∅ ∧
   last_metar_fetch st' = now env ∧
   (flight_captured st = false →
    ∀ data, (get_display_data cfg env st).2 = Some data →
      data !! "ifr_status" = Some (VStr "---") ∧
      data !! "weather_status" = Some (VStr "--.-°C") ∧
      data !! "wind_status" = Some (VStr "-- KTS") ∧
      data !! "vis_status" = Some (VStr "-- SM") ∧
      data !! "cloud_status" = Some (VStr "---- FT") ∧
      data !! "baro_status" = Some (VStr "--.-- inHg"))) ∧
  (weather_due st (now env) = false →
   cached_parsed_metar st' = cached_parsed_metar st ∧
   last_metar_fetch st' = last_metar_fetch st).
Proof.
  intros st'. subst st'.
  destruct (get_display_data_caches env st) as (Hl & Hm & _).
  simpl in Hl, Hm. rewrite Hl, Hm. clear Hl Hm.
  split.
  - intros Hdue Hfail.
    assert (Hst : refresh_weather env st =
                  State (now env) (last_flight_fetch st) ∅
                        (cached_flight_info st) (flight_captured st)
                        (flight_captured_time st) (flight_captured_info st)).
    { unfold refresh_weather. rewrite Hdue. by destruct Hfail as [-> | ->]. }
    rewrite Hst. simpl. split; [done|]. split; [done|].
    intros Hc data. rewrite (get_display_data_idle env st Hc).
    assert (Hfw : ∀ s, cached_parsed_metar
                         (if flight_due s (now env)
                          then fetch_flight env s else s)
                       = cached_parsed_metar s).
    { intros s. destruct (flight_due _ _); [|done].
      by destruct (fetch_flight_weather env s) as (-> & _). }
    rewrite Hst. simpl.
    destruct (decide _) as [He|He].
    + simpl. intros [= <-]. by vm_compute.
    + destruct (flight_fields _ _ _) as [d|] eqn:Hf; [|done].
      simpl. intros [= <-].
      repeat split;
        (rewrite (flight_fields_other _ _ _ _ Hf);
         [by vm_compute | by apply (bool_decide_unpack _); vm_compute]).
  - intros Hdue. unfold refresh_weather. by rewrite Hdue.
Qed.

(** What a due cycle leaves behind when the search request fails, and
    when the search succeeds and the enrichment request fails. *)
Lemma fetch_flight_failures (env : tick_env) (st : state) :
  (search_response env = TransportError ∨ search_response env = HttpError →
   fetch_flight env st = st) ∧
  (∀ base rest,
     search_response env = Body (base :: rest) →
     is_Some (base !! "fr24_id") →
     enrich_response env = TransportError ∨ enrich_response env = HttpError →
     cached_flight_info (fetch_flight env st) = base ∧
     last_flight_fetch (fetch_flight env st) = now env).
Proof.
  unfold fetch_flight. split.
  - by intros [-> | ->].
  - intros base rest -> [v ->] Hfail. by destruct Hfail as [-> | ->].
Qed.

(** After a failed search the clock of the flight feed is the one the
    tick found, so a gate that was due stays due. *)
Lemma search_failure_keeps_clock (env : tick_env) (st : state) (t : Q) :
  flight_captured st = false →
  flight_due st (now env) = true →
  search_response env = TransportError ∨ search_response env = HttpError →
  (now env <= t)%Q →
  last_flight_fetch (get_display_data cfg env st).1 = last_flight_fetch st ∧
  flight_due (get_display_data cfg env st).1 t = true.
Proof.
  intros Hc Hdue Hfail Ht.
  destruct (get_display_data_caches env st) as (_ & _ & Hl & _).
  simpl in Hl. rewrite Hc in Hl.
  destruct (refresh_weather_flight env st) as (Hl1 & _).
  assert (Hdue1 : flight_due (refresh_weather env st) (now env) = true)
    by (unfold flight_due in *; by rewrite Hl1).
  rewrite Hdue1, (proj1 (fetch_flight_failures env _) Hfail), Hl1 in Hl.
  split; [done|]. unfold flight_due in *. rewrite Hl.
  apply andb_true_iff in Hdue as [-> Hdue]. simpl.
  apply Qgtb_true in Hdue. apply Qgtb_true. lra.
Qed.

(** What the two failures of a poll leave behind.  On a tick with no
    flight captured and the gate of the flight feed due: when the search
    request fails, the cached record is left as it was; when the search
    succeeds and the enrichment request fails, the clock of the feed has
    advanced to the time of the tick, so the gate stays closed for the
    next 15 seconds, and the cache holds the first record of the search,
    not enriched. *)
Theorem flight_failure_effects (env : tick_env) (st : state) :
  flight_captured st = false →
  flight_due st (now env) = true →
  (search_response env = TransportError ∨ search_response env = HttpError →
   cached_flight_info (get_display_data cfg env st).1
   = cached_flight_info st) ∧
  (∀ base rest,
     search_response env = Body (base :: rest) →
     is_Some (base !! "fr24_id") →
     enrich_response env = TransportError ∨ enrich_response env = HttpError →
     cached_flight_info (get_display_data cfg env st).1 = base ∧
     last_flight_fetch (get_display_data cfg env st).1 = now env ∧
     ∀ t, (t <= now env + 15)%Q →
          flight_due (get_display_data cfg env st).1 t = false).
Proof.
  intros Hc Hdue.
  destruct (get_display_data_caches env st) as (_ & _ & Hl & Hf).
  simpl in Hl, Hf. rewrite Hc in Hl, Hf.
  destruct (refresh_weather_flight env st) as (Hl1 & Hf1 & _).
  assert (Hdue1 : flight_due (refresh_weather env st) (now env) = true)
    by (unfold flight_due in *; by rewrite Hl1).
  rewrite Hdue1 in Hl, Hf.
  destruct (fetch_flight_failures env (refresh_weather env st))
    as [Hsearch Henrich].
  split.
  - intros Hfail. by rewrite Hf, (Hsearch Hfail).
  - intros base rest Hs Hid Hfail.
    destruct (Henrich base rest Hs Hid Hfail) as [Hb Hn].
    rewrite Hb in Hf. rewrite Hn in Hl.
    split; [done|]. split; [done|].
    intros t Ht. unfold flight_due. rewrite Hl.
    apply andb_false_iff. right. apply Qgtb_false. lra.
Qed.

(** The record cached after both requests of a due cycle succeed. *)
Lemma fetch_flight_enriched (env : tick_env) (st : state)
    (base extra : dict) (rest rest' : list dict) :
  search_response env = Body (base :: rest) →
  is_Some (base !! "fr24_id") →
  enrich_response env = Body (extra :: rest') →
  cached_flight_info (fetch_flight env st) = enrich_merge base extra ∧
  last_flight_fetch (fetch_flight env st) = now env.
Proof.
  intros Hs [v Hid] He. unfold fetch_flight. by rewrite Hs, Hid, He.
Qed.

(** While a flight is captured, every field of the display other than
    the five recomputed ones is the one recorded at the capture. *)
Lemma captured_display_frozen (env : tick_env) (st : state) (data : dict)
    (k : string) :
  flight_captured st = true →
  (get_display_data cfg env st).2 = Some data →
  k ∉ ["calculated_altitude"; "altitude"; "calculated_distance";
       "status"; "status_color"] →
  data !! k = flight_captured_info st !! k.
Proof.
  intros Hc. rewrite (get_display_data_captured env st Hc). simpl.
  intros Hd Hk.
  destruct (flight_captured_info st !! "calculated_altitude" ≫= as_number)
    as [a0|] eqn:Ha.
  - destruct (captured_display_fields st (now_captured env) a0 Ha)
      as (data' & Hd' & _ & _ & _ & Hother).
    rewrite Hd in Hd'. injection Hd' as ->. by apply Hother.
  - unfold captured_display in Hd. by rewrite Ha in Hd.
Qed.

End Tracker.

Example state_captured_ok :
  flight_captured state_captured = true ∧
  flight_captured_time state_captured = 1000%Q ∧
  flight_captured_info state_captured !! "calculated_altitude"
    = Some (VInt 3000) ∧
  flight_captured_info state_captured !! "clock" = Some (VStr "19:55:00") ∧
  flight_captured_info state_captured !! "departure_time"
    = Some (VStr "19:29") ∧
  flight_captured_info state_captured !! "distance" = Some (VStr "135 NM") ∧
  cached_parsed_metar state_captured !! "weather_status"
    = Some (VStr "22°C").
Proof. by vm_compute. Qed.

Example state_idle_ok :
  flight_captured state_idle = false ∧
  last_flight_fetch state_idle = 1000%Q ∧
  cached_parsed_metar state_idle !! "weather_status" = Some (VStr "22°C").
Proof. by vm_compute. Qed.

(** ** The theorems at the sample inputs *)

(** C3 at the sample flight: captured at 3000 ft, 300 s later. *)
Lemma descending_altitude_witness :
  ∃ data alt,
    (get_display_data sample_config (tick_at 1300 "20:00:00" (Body metar_a))
       state_captured).2 = Some data ∧
    data !! "calculated_altitude" = Some (VFloat alt) ∧
    (alt == 0)%Q ∧
    data !! "altitude" = Some (VStr "17 FT").
Proof.
  destruct (descending_altitude sample_config
              (tick_at 1300 "20:00:00" (Body metar_a))
              (tick_at 1400 "20:01:40" (Body metar_b))
              state_captured 3000)
    as (data & data' & alt & alt' & Hd & _ & Hc & _ & _ & _ & Ha & _ & _
        & _ & _ & Hex).
  - reflexivity.
  - reflexivity.
  - simpl. lia.
  - simpl. unfold Qle. simpl. lia.
  - destruct Hex as [H0 Hs]; [reflexivity..|].
    exists data, alt.
    split; [exact Hd|]. split; [exact Hc|]. split; [exact H0|].
    rewrite Ha, Hs. reflexivity.
Defined.

(** C4 as amended, at the sample flight 100 s after the capture. *)
Lemma descending_status_witness :
  ∃ data,
    (get_display_data sample_config (tick_at 1100 "19:56:40" (Body metar_a))
       state_captured).2 = Some data ∧
    data !! "status" = Some (VStr "FINAL").
Proof.
  destruct (descending_status sample_config
              (tick_at 1100 "19:56:40" (Body metar_a)) state_captured 3000)
    as (data & alt & Hd & Hc & Ealt & _ & _ & _ & _ & Hfin).
  - reflexivity.
  - reflexivity.
  - exists data. split; [exact Hd|].
    apply Hfin; [rewrite Ealt; reflexivity|simpl; lia].
Defined.

(** C4 as stated fails at a field above 2000 ft: at 5000 ft, below the
    touchdown elevation of 5431 ft, the status is APPROACH. *)
Lemma descending_status_counterexample :
  display_field "calculated_altitude"
    (get_display_data high_field_config
       (tick_at 1000 "19:55:00" (Body metar_a)) state_high_field)
    = Some (VFloat (300000 # 60)) ∧
  (300000 # 60 <= inject_Z (TDZE high_field_config))%Q ∧
  display_field "status"
    (get_display_data high_field_config
       (tick_at 1000 "19:55:00" (Body metar_a)) state_high_field)
    = Some (VStr "APPROACH") ∧
  display_field "status"
    (get_display_data high_field_config
       (tick_at 1000 "19:55:00" (Body metar_a)) state_high_field)
    ≠ Some (VStr "LANDED").
Proof.
  split; [vm_compute; reflexivity|]. split; [by vm_compute|].
  split; [vm_compute; reflexivity|]. by vm_compute.
Qed.

(** C5 at the sample flight 400 s after the capture: -1000 ft. *)
Lemma tracker_reset_witness :
  flight_captured
    (refresh_ui sample_config (tick_at 1400 "20:01:40" (Body metar_b))
       state_captured).1 = false ∧
  flight_captured_info
    (refresh_ui sample_config (tick_at 1400 "20:01:40" (Body metar_b))
       state_captured).1 = ∅ ∧
  cached_flight_info
    (refresh_ui sample_config (tick_at 1400 "20:01:40" (Body metar_b))
       state_captured).1 = ∅ ∧
  flight_due
    (refresh_weather (tick_at (14001 # 10) "20:01:40" (Body metar_b))
       (refresh_ui sample_config (tick_at 1400 "20:01:40" (Body metar_b))
          state_captured).1)
    (14001 # 10) = true.
Proof.
  destruct (tracker_reset sample_config
              (tick_at 1400 "20:01:40" (Body metar_b))
              (tick_at (14001 # 10) "20:01:40" (Body metar_b))
              state_captured 3000) as [Hreset _].
  - reflexivity.
  - reflexivity.
  - reflexivity.
  - destruct Hreset as (H1 & _ & H2 & H3 & _ & H4); [reflexivity|].
    split; [exact H1|]. split; [exact H2|]. split; [exact H3|exact H4].
Defined.

(** C1.  The code at the failing input: with a decoded report in the
    cache and no flight captured, a tick 400 s later whose fetch fails
    empties the cache where the claim keeps the previous value; the
    display shows the placeholder in place of the temperature, and it
    has lost the colour of the flight rules that the cache held. *)
Theorem weather_failure_divergence :
  weather_due state_idle 1400 = true ∧
  cached_parsed_metar state_idle !! "weather_status" = Some (VStr "22°C") ∧
  cached_parsed_metar state_idle !! "ifr_color" = Some (VStr "#017100") ∧
  cached_parsed_metar
    (get_display_data sample_config (tick_at 1400 "20:01:40" TransportError)
       state_idle).1 !! "weather_status" = None ∧
  cached_parsed_metar
    (get_display_data sample_config (tick_at 1400 "20:01:40" TransportError)
       state_idle).1 ≠ cached_parsed_metar state_idle ∧
  display_field "weather_status"
    (get_display_data sample_config (tick_at 1400 "20:01:40" TransportError)
       state_idle) = Some (VStr "--.-°C") ∧
  display_field "ifr_color"
    (get_display_data sample_config (tick_at 1400 "20:01:40" TransportError)
       state_idle) = None.
Proof.
  split; [vm_compute; reflexivity|]. split; [vm_compute; reflexivity|].
  split; [vm_compute; reflexivity|]. split; [vm_compute; reflexivity|].
  split; [|split; vm_compute; reflexivity].
  intros H. apply (f_equal (.!! "weather_status")) in H.
  vm_compute in H. discriminate H.
Qed.

(** The general lemma at the same tick. *)
Lemma weather_failure_witness :
  cached_parsed_metar
    (get_display_data sample_config (tick_at 1400 "20:01:40" TransportError)
       state_idle).1 = ∅ ∧
  last_metar_fetch
    (get_display_data sample_config (tick_at 1400 "20:01:40" TransportError)
       state_idle).1 = 1400%Q.
Proof.
  destruct (weather_failure_empties_cache sample_config
              (tick_at 1400 "20:01:40" TransportError) state_idle)
    as [Hfail _].
  destruct Hfail as (H1 & H2 & _); [reflexivity|by left|].
  split; [exact H1|exact H2].
Defined.

(** C2.  The code at the failing inputs: after a failed search the
    clock of the flight feed has not moved, and the gate is due again a
    tenth of a second later, where the claim keeps attempts 15 seconds
    apart; after a failed enrichment the cache holds the record of the
    search, where the claim leaves the previous, empty record, and the
    tick raises instead of returning a display. *)
Theorem flight_failure_divergence :
  flight_due initial_state (now tick_search_fails) = true ∧
  last_flight_fetch
    (get_display_data sample_config tick_search_fails initial_state).1
    = 0%Q ∧
  flight_due
    (get_display_data sample_config tick_search_fails initial_state).1
    (now tick_search_fails + (1 # 10)) = true ∧
  cached_flight_info initial_state !! "alt" = None ∧
  cached_flight_info
    (get_display_data sample_config tick_enrich_fails initial_state).1
    !! "alt" = Some (VInt 3000) ∧
  (get_display_data sample_config tick_enrich_fails initial_state).2 = None.
Proof.
  split; [vm_compute; reflexivity|]. split; [vm_compute; reflexivity|].
  split; [vm_compute; reflexivity|]. split; [vm_compute; reflexivity|].
  split; vm_compute; reflexivity.
Qed.

(** The general lemma at the tick of the failed enrichment. *)
Lemma flight_failure_witness :
  cached_flight_info
    (get_display_data sample_config tick_enrich_fails initial_state).1
    = sample_search ∧
  last_flight_fetch
    (get_display_data sample_config tick_enrich_fails initial_state).1
    = 1000%Q ∧
  flight_due
    (get_display_data sample_config tick_enrich_fails initial_state).1
    1015 = false.
Proof.
  destruct (flight_failure_effects sample_config tick_enrich_fails
              initial_state) as [_ Henrich].
  - reflexivity.
  - reflexivity.
  - destruct (Henrich sample_search [] eq_refl) as (H1 & H2 & H3).
    + by eexists.
    + by right.
    + split; [exact H1|]. split; [exact H2|]. apply H3. by vm_compute.
Defined.

(** C6 at the sample records: the take-off time is added, the altitude
    of the search is kept. *)
Lemma enrich_merge_witness :
  enrich_merge sample_search sample_enrich !! "datetime_takeoff"
    = Some (VStr "2025-06-04T19:29:00Z") ∧
  enrich_merge sample_search sample_enrich !! "alt" = Some (VInt 3000) ∧
  enrich_merge (enrich_merge sample_search sample_enrich) sample_enrich
    = enrich_merge sample_search sample_enrich.
Proof.
  destruct (enrich_merge_nondestructive_idempotent sample_search sample_enrich)
    as (Hadd & Hkeep & Hidem).
  split; [|split].
  - apply Hadd; reflexivity.
  - apply Hkeep; reflexivity.
  - exact Hidem.
Defined.

(** C8: the display of a captured flight, 400 s after the capture, when
    the weather cache has just been refreshed with a later report and
    the UTC clock reads 20:01:40: the cache holds the new temperature,
    the display shows the temperature and the clock of the capture. *)
Theorem captured_display_is_stale :
  flight_captured state_captured = true ∧
  weather_due state_captured 1400 = true ∧
  cached_parsed_metar
    (get_display_data sample_config (tick_at 1400 "20:01:40" (Body metar_b))
       state_captured).1 !! "weather_status" = Some (VStr "24°C") ∧
  display_field "weather_status"
    (get_display_data sample_config (tick_at 1400 "20:01:40" (Body metar_b))
       state_captured) = Some (VStr "22°C") ∧
  display_field "clock"
    (get_display_data sample_config (tick_at 1400 "20:01:40" (Body metar_b))
       state_captured) = Some (VStr "19:55:00").
Proof.
  split; [vm_compute; reflexivity|]. split; [vm_compute; reflexivity|].
  split; [vm_compute; reflexivity|]. split; vm_compute; reflexivity.
Qed.

(** C7 as stated fails at the empty text, in which no token occurs: the
    decoder returns the empty dictionary, without a ceiling status. *)
Lemma ceiling_empty_text_counterexample :
  (∀ tok pre post, cloud_token tok → "" ≠ pre +:+ tok +:+ post) ∧
  Metar.parse_metar (Some "") !! "cloud_status" = None ∧
  Metar.parse_metar (Some "") !! "cloud_status" ≠ Some (VStr "N/A").
Proof.
  split; [by apply no_token_by_scan|]. split; [reflexivity|discriminate].
Qed.

(** C7 as amended, at a report with two layers: the later one decides. *)
Lemma ceiling_from_last_token_witness :
  Metar.parse_metar (Some metar_a) !! "cloud_status"
    = Some (VStr "25,000 FT") ∧
  Metar.parse_metar (Some metar_a) !! "cloud_color" = Some (VStr "#017100").
Proof.
  destruct (ceiling_from_last_token metar_a) as [_ Hlast]; [discriminate|].
  destruct (Hlast "SCT" "2"%char "5"%char "0"%char
              "KSAN 041951Z 29008KT 10SM FEW020 " " 22/14 A2992 RMK AO2")
    as [Hs Hc].
  - by apply (bool_decide_unpack _).
  - reflexivity.
  - reflexivity.
  - reflexivity.
  - reflexivity.
  - apply (last_token_by_scan "KSAN 041951Z 29008KT 10SM FEW020 " "SCT250"
             " 22/14 A2992 RMK AO2" "S" "CT250 22/14 A2992 RMK AO2");
      [reflexivity|vm_compute; reflexivity].
  - split; [exact Hs|exact Hc].
Defined.

(** C9 as stated fails: BKN020 put into a VFR report changes the ceiling
    fields as well as the flight rules. *)
Lemma insertion_counterexample :
  Metar.parse_metar (Some ("KSAN 041951Z 29008KT 10SM" +:+ " " +:+ "22/14 A2992"))
    !! "ifr_status" = Some (VStr "VFR") ∧
  Metar.parse_metar
    (Some ("KSAN 041951Z 29008KT 10SM" +:+ " BKN020 " +:+ "22/14 A2992"))
    !! "ifr_status" = Some (VStr "IFR") ∧
  Metar.parse_metar (Some ("KSAN 041951Z 29008KT 10SM" +:+ " " +:+ "22/14 A2992"))
    !! "cloud_status" = Some (VStr "N/A") ∧
  Metar.parse_metar
    (Some ("KSAN 041951Z 29008KT 10SM" +:+ " BKN020 " +:+ "22/14 A2992"))
    !! "cloud_status" = Some (VStr "2,000 FT") ∧
  Metar.parse_metar (Some ("KSAN 041951Z 29008KT 10SM" +:+ " " +:+ "22/14 A2992"))
    !! "cloud_color" ≠
  Metar.parse_metar
    (Some ("KSAN 041951Z 29008KT 10SM" +:+ " BKN020 " +:+ "22/14 A2992"))
    !! "cloud_color".
Proof.
  split; [vm_compute; reflexivity|]. split; [vm_compute; reflexivity|].
  split; [vm_compute; reflexivity|]. split; [vm_compute; reflexivity|].
  vm_compute. discriminate.
Qed.

(** C9 as amended, at the same two reports. *)
Lemma flight_rules_and_insertion_witness :
  Metar.parse_metar
    (Some ("KSAN 041951Z 29008KT 10SM" +:+ " BKN020 " +:+ "22/14 A2992"))
    !! "ifr_status" = Some (VStr "IFR") ∧
  Metar.parse_metar
    (Some ("KSAN 041951Z 29008KT 10SM" +:+ " BKN020 " +:+ "22/14 A2992"))
    !! "cloud_status" = Some (VStr "2,000 FT") ∧
  Metar.parse_metar
    (Some ("KSAN 041951Z 29008KT 10SM" +:+ " BKN020 " +:+ "22/14 A2992"))
    !! "weather_status" =
  Metar.parse_metar (Some ("KSAN 041951Z 29008KT 10SM" +:+ " " +:+ "22/14 A2992"))
    !! "weather_status".
Proof.
  destruct (flight_rules_and_insertion metar_a
              "KSAN 041951Z 29008KT 10SM" "22/14 A2992") as [_ Hins].
  destruct Hins as (Hifr & _ & _ & Hother & _ & Hbkn);
    [vm_compute; reflexivity|].
  destruct Hbkn as (Hs & _ & _);
    [apply no_token_by_scan; vm_compute; reflexivity|].
  split; [exact Hifr|]. split; [exact Hs|].
  apply Hother. by apply (bool_decide_unpack _).
Defined.



(** * Further properties of the decoder *)

(** ** The leftmost match *)

Lemma search_None_iff (alts : list (list atom)) (s : string) :
  search alts s = None ↔ ∀ a r, s = a +:+ r → match_alts alts r = None.
Proof.
  induction s as [|c s IH].
  - simpl. split.
    + intros H a r Heq. destruct a; [|done]. rewrite app_nil_l_str in Heq.
      subst r. by destruct (match_alts alts "").
    + intros H. by rewrite (H "" "" eq_refl).
  - rewrite search_cons. split.
    + destruct (match_alts alts (String c s)) eqn:Hm; [done|].
      intros Hs a r Heq. destruct a as [|c' a].
      * rewrite app_nil_l_str in Heq. by subst r.
      * rewrite app_cons_str in Heq. injection Heq as _ Heq.
        by apply (proj1 IH Hs a r).
    + intros H. rewrite (H "" (String c s) eq_refl).
      apply IH. intros a r ->. by apply (H (String c a) r).
Qed.

Lemma search_first (alts : list (list atom)) (s a r m : string) :
  s = a +:+ r →
  match_alts alts r = Some m →
  (∀ a' r', s = a' +:+ r' → (String.length a' < String.length a)%nat →
            match_alts alts r' = None) →
  search alts s = Some m.
Proof.
  revert s. induction a as [|c a IH]; intros s -> Hm Hfirst.
  - rewrite app_nil_l_str. destruct r; simpl; by rewrite Hm.
  - rewrite app_cons_str, search_cons.
    rewrite (Hfirst "" (String c (a +:+ r)) eq_refl) by (simpl; lia).
    apply (IH _ eq_refl Hm). intros a' r' Heq Hlen.
    apply (Hfirst (String c a') r'); [by rewrite app_cons_str, Heq|].
    simpl. lia.
Qed.

Lemma clear_spec (alts : list (list atom)) (k : nat) (s a r : string) :
  clear alts k s → s = a +:+ r → (String.length a < k)%nat →
  match_alts alts r = None.
Proof.
  revert s a. induction k as [|k IH]; intros s a Hc -> Hlen; [lia|].
  destruct Hc as [Hm Hc]. destruct a as [|c a].
  - by rewrite app_nil_l_str in Hm.
  - rewrite app_cons_str in Hc. apply (IH _ a Hc eq_refl). simpl in Hlen. lia.
Qed.

Section Groups.

(** A pattern and the groups it matches. *)
Variable alts : list (list atom).
Variable group : string → Prop.
Hypothesis match_group :
  ∀ r m, match_alts alts r = Some m ↔ group m ∧ ∃ b, r = m +:+ b.

Lemma search_no_group (s : string) :
  (∀ g a b, group g → s ≠ a +:+ g +:+ b) → search alts s = None.
Proof.
  intros H. apply search_None_iff. intros a r ->.
  destruct (match_alts alts r) as [m|] eqn:Hm; [|done].
  apply match_group in Hm as [Hg [b ->]]. by destruct (H m a b Hg).
Qed.

Lemma search_first_group (s g a b : string) :
  group g → s = a +:+ g +:+ b →
  (∀ g' a' b', group g' → s = a' +:+ g' +:+ b' →
               (String.length a ≤ String.length a')%nat) →
  search alts s = Some g.
Proof.
  intros Hg -> Hfirst. apply (search_first _ _ a (g +:+ b)); [done|..].
  - apply match_group. eauto.
  - intros a' r' Heq Hlen.
    destruct (match_alts alts r') as [m|] eqn:Hm; [|done].
    apply match_group in Hm as [Hg' [b' ->]].
    specialize (Hfirst m a' b' Hg' Heq). lia.
Qed.

(** The side condition of [search_first_group] on a given text. *)
Lemma first_group_by_clear (s a : string) :
  clear alts (String.length a) s →
  ∀ g' a' b', group g' → s = a' +:+ g' +:+ b' →
              (String.length a ≤ String.length a')%nat.
Proof.
  intros Hc g' a' b' Hg' Heq.
  destruct (le_lt_dec (String.length a) (String.length a')) as [|Hlt]; [done|].
  pose proof (clear_spec alts _ s a' _ Hc Heq Hlt) as Hn.
  assert (match_alts alts (g' +:+ b') = Some g') as Hs
    by (apply match_group; eauto).
  congruence.
Qed.

Lemma no_group_by_search (s : string) :
  search alts s = None → ∀ g a b, group g → s ≠ a +:+ g +:+ b.
Proof.
  intros Hs g a b Hg ->.
  pose proof (proj1 (search_None_iff alts _) Hs a (g +:+ b) eq_refl) as Hn.
  assert (match_alts alts (g +:+ b) = Some g) as Hm
    by (apply match_group; eauto).
  congruence.
Qed.

End Groups.

Lemma match_single (p : list atom) (r m : string) :
  match_alts [p] r = Some m ↔
  match_prefix p m = Some m ∧ ∃ b, r = m +:+ b.
Proof.
  rewrite match_alts_cons. rewrite <- match_prefix_app.
  simpl. by destruct (match_prefix p r).
Qed.

Ltac invert_self H :=
  repeat (apply match_prefix_self_cons in H as (? & ? & -> & ? & H));
  apply match_prefix_self_nil in H as ->;
  cbn [atom_ok] in *;
  repeat match goal with
         | E : Ascii.eqb _ _ = true |- _ => apply Ascii.eqb_eq in E as <-
         end.

Lemma wind_self (m : string) :
  match_prefix [Lit " "; Digit; Digit; Digit; Digit; Digit; Lit "K"; Lit "T"] m
    = Some m ↔ wind_group m.
Proof.
  split.
  - intros H. invert_self H.
    match goal with
    | |- wind_group (String _ (String ?a (String ?b (String ?c
           (String ?d (String ?e _)))))) => by exists a, b, c, d, e
    end.
  - intros (d1 & d2 & d3 & d4 & d5 & H1 & H2 & H3 & H4 & H5 & ->).
    rewrite !match_prefix_cons. cbn [atom_ok].
    by rewrite H1, H2, H3, H4, H5.
Qed.

Lemma match_wind (r m : string) :
  match_alts Metar.wind_re r = Some m ↔ wind_group m ∧ ∃ b, r = m +:+ b.
Proof. unfold Metar.wind_re. by rewrite match_single, wind_self. Qed.

Lemma baro_self (m : string) :
  match_prefix [Lit " "; Lit "A"; Digit; Digit; Digit; Digit] m = Some m
  ↔ baro_group m.
Proof.
  split.
  - intros H. invert_self H.
    match goal with
    | |- baro_group (String _ (String _ (String ?a (String ?b
           (String ?c (String ?d _)))))) => by exists a, b, c, d
    end.
  - intros (d1 & d2 & d3 & d4 & H1 & H2 & H3 & H4 & ->).
    rewrite !match_prefix_cons. cbn [atom_ok].
    by rewrite H1, H2, H3, H4.
Qed.

Lemma match_baro (r m : string) :
  match_alts Metar.baro_re r = Some m ↔ baro_group m ∧ ∃ b, r = m +:+ b.
Proof. unfold Metar.baro_re. by rewrite match_single, baro_self. Qed.

Lemma temp_self (m : string) :
  match_prefix [Lit " "; Digit; Digit; Lit "/"; Digit; Digit; Lit " "] m
    = Some m ↔ plain_temp_group m.
Proof.
  split.
  - intros H. apply match_temp_self. unfold Metar.temp_re.
    by rewrite match_alts_cons, H.
  - intros (d1 & d2 & d3 & d4 & H1 & H2 & H3 & H4 & ->).
    rewrite !match_prefix_cons. cbn [atom_ok].
    by rewrite H1, H2, H3, H4.
Qed.

Lemma match_temp (r m : string) :
  match_alts Metar.temp_re r = Some m ↔ plain_temp_group m ∧ ∃ b, r = m +:+ b.
Proof. unfold Metar.temp_re. by rewrite match_single, temp_self. Qed.

Lemma match_vis (r m : string) :
  match_alts Metar.vis_re r = Some m ↔ vis_group m ∧ ∃ b, r = m +:+ b.
Proof.
  unfold Metar.vis_re. rewrite !match_alts_cons. split.
  - destruct (match_prefix [Lit " "; Digit; Digit; _; _; _] r) as [m6|] eqn:H6.
    + intros [= ->]. apply match_prefix_app in H6 as [H6 Hb].
      split; [|done]. left. invert_self H6.
      match goal with
      | |- ∃ d1 d2, _ ∧ _ ∧ String _ (String ?a (String ?b _)) = _ =>
          by exists a, b
      end.
    + destruct (match_prefix [Lit " "; Digit; Lit "S"; _; _] r) as [m5|] eqn:H5;
        [|done].
      intros [= ->]. apply match_prefix_app in H5 as [H5 Hb].
      split; [|done]. right. invert_self H5.
      match goal with
      | |- ∃ d, _ ∧ String _ (String ?a _) = _ => by exists a
      end.
  - intros [[(d1 & d2 & H1 & H2 & ->)|(d & H & ->)] [b ->]]; cbv [append];
      rewrite !match_prefix_cons; cbn [atom_ok].
    + by rewrite H1, H2.
    + by rewrite H.
Qed.

Lemma parse_metar_fields (metar : string) :
  metar ≠ "" →
  Metar.parse_metar (Some metar) !! "wind_status"
    = Some (VStr (Metar.wind_fields metar).1.1) ∧
  Metar.parse_metar (Some metar) !! "wind_msg"
    = Some (VStr (Metar.wind_fields metar).1.2) ∧
  Metar.parse_metar (Some metar) !! "wind_color"
    = Some (VStr (Metar.wind_fields metar).2) ∧
  Metar.parse_metar (Some metar) !! "vis_status"
    = Some (VStr (Metar.vis_fields metar).1) ∧
  Metar.parse_metar (Some metar) !! "vis_msg" = Some (VStr "Visibility") ∧
  Metar.parse_metar (Some metar) !! "vis_color"
    = Some (VStr (Metar.vis_fields metar).2) ∧
  Metar.parse_metar (Some metar) !! "baro_status"
    = Some (VStr (Metar.baro_field metar)) ∧
  Metar.parse_metar (Some metar) !! "cloud_msg" = Some (VStr "Ceiling").
Proof. intros H. by rewrite !parse_metar_lookup. Qed.

Lemma py_int_2 (d1 d2 : ascii) :
  py_int (String d1 (String d2 "")) = 10 * digit_val d1 + digit_val d2.
Proof. unfold py_int. cbn [int_digits]. lia. Qed.

Lemma py_int_1 (d : ascii) : py_int (String d "") = digit_val d.
Proof. unfold py_int. cbn [int_digits]. lia. Qed.

Lemma py_int_4 (d1 d2 d3 d4 : ascii) :
  py_int (String d1 (String d2 (String d3 (String d4 ""))))
  = 1000 * digit_val d1 + 100 * digit_val d2 + 10 * digit_val d3
    + digit_val d4.
Proof. unfold py_int. cbn [int_digits]. lia. Qed.

(** X1.  The wind fields: without a wind group the report is decoded as
    calm; otherwise the leftmost group decides, its last two digits give
    the speed, printed without a leading zero, its first three the
    direction, and the colour is the warning one below 5 kt, the caution
    one below 15 kt and the nominal one from 15 kt on. *)
Theorem wind_decoded (metar : string) :
  metar ≠ "" →
  ((∀ g a b, wind_group g → metar ≠ a +:+ g +:+ b) →
   Metar.parse_metar (Some metar) !! "wind_status" = Some (VStr "CALM") ∧
   Metar.parse_metar (Some metar) !! "wind_msg" = Some (VStr "000°") ∧
   Metar.parse_metar (Some metar) !! "wind_color" = Some (VStr "#5E5E5E")) ∧
  (∀ d1 d2 d3 d4 d5 a b,
     is_digit d1 = true → is_digit d2 = true → is_digit d3 = true →
     is_digit d4 = true → is_digit d5 = true →
     metar = a +:+ String " " (String d1 (String d2 (String d3
                     (String d4 (String d5 "KT"))))) +:+ b →
     (∀ g' a' b', wind_group g' → metar = a' +:+ g' +:+ b' →
                  (String.length a ≤ String.length a')%nat) →
     let speed := 10 * digit_val d4 + digit_val d5 in
     Metar.parse_metar (Some metar) !! "wind_status"
       = Some (VStr (pretty speed +:+ " KTS")) ∧
     Metar.parse_metar (Some metar) !! "wind_msg"
       = Some (VStr (String d1 (String d2 (String d3 "°")))) ∧
     Metar.parse_metar (Some metar) !! "wind_color"
       = Some (VStr (if speed <? 5 then "#B51700"
                     else if speed <? 15 then "#DC582A"
                     else "#017100"))).
Proof.
  intros Hne.
  destruct (parse_metar_fields metar Hne) as (Hs & Hm & Hc & _).
  rewrite Hs, Hm, Hc. split.
  - intros Hnone. unfold Metar.wind_fields.
    by rewrite (search_no_group _ _ match_wind metar Hnone).
  - intros d1 d2 d3 d4 d5 a b H1 H2 H3 H4 H5 Heq Hfirst speed.
    unfold Metar.wind_fields.
    rewrite (search_first_group _ _ match_wind metar
               (String " " (String d1 (String d2 (String d3
                  (String d4 (String d5 "KT")))))) a b); [|..|done|done].
    + cbn [substring]. by rewrite py_int_2.
    + by exists d1, d2, d3, d4, d5.
Qed.

(** X2.  The visibility fields: without a visibility group the status is
    N/A with the neutral colour; otherwise the leftmost group decides,
    its one or two digits are shown as written, and the colour is the
    warning one below 3 miles, the caution one below 5 and the nominal
    one from 5 on. *)
Theorem visibility_decoded (metar : string) :
  metar ≠ "" →
  ((∀ g a b, vis_group g → metar ≠ a +:+ g +:+ b) →
   Metar.parse_metar (Some metar) !! "vis_status" = Some (VStr "N/A") ∧
   Metar.parse_metar (Some metar) !! "vis_color" = Some (VStr "#5E5E5E")) ∧
  (∀ digits g a b,
     (∃ d, is_digit d = true ∧ digits = String d "") ∨
     (∃ d1 d2, is_digit d1 = true ∧ is_digit d2 = true ∧
               digits = String d1 (String d2 "")) →
     g = " " +:+ digits +:+ "SM " →
     metar = a +:+ g +:+ b →
     (∀ g' a' b', vis_group g' → metar = a' +:+ g' +:+ b' →
                  (String.length a ≤ String.length a')%nat) →
     Metar.parse_metar (Some metar) !! "vis_status"
       = Some (VStr (digits +:+ " SM")) ∧
     Metar.parse_metar (Some metar) !! "vis_color"
       = Some (VStr (if py_int digits <? 3 then "#B51700"
                     else if py_int digits <? 5 then "#DC582A"
                     else "#017100"))).
Proof.
  intros Hne.
  destruct (parse_metar_fields metar Hne) as (_ & _ & _ & Hs & _ & Hc & _).
  rewrite Hs, Hc. unfold Metar.vis_fields. split.
  - intros Hnone.
    by rewrite (search_no_group _ _ match_vis metar Hnone).
  - intros digits g a b Hd -> Heq Hfirst.
    rewrite (search_first_group _ _ match_vis metar
               (" " +:+ digits +:+ "SM ") a b); [|..|done|done].
    + by destruct Hd as [(d & H & ->)|(d1 & d2 & H1 & H2 & ->)].
    + destruct Hd as [(d & H & ->)|(d1 & d2 & H1 & H2 & ->)].
      * right. by exists d.
      * left. by exists d1, d2.
Qed.

(** X3.  The altimeter field: without an altimeter group it is N/A;
    otherwise the four digits of the leftmost group, read as hundredths
    of an inch, are printed with two decimals. *)
Theorem altimeter_decoded (metar : string) :
  metar ≠ "" →
  ((∀ g a b, baro_group g → metar ≠ a +:+ g +:+ b) →
   Metar.parse_metar (Some metar) !! "baro_status" = Some (VStr "N/A")) ∧
  (∀ d1 d2 d3 d4 a b,
     is_digit d1 = true → is_digit d2 = true →
     is_digit d3 = true → is_digit d4 = true →
     metar = a +:+ String " " (String "A" (String d1 (String d2
                     (String d3 (String d4 ""))))) +:+ b →
     (∀ g' a' b', baro_group g' → metar = a' +:+ g' +:+ b' →
                  (String.length a ≤ String.length a')%nat) →
     let n := 1000 * digit_val d1 + 100 * digit_val d2
              + 10 * digit_val d3 + digit_val d4 in
     Metar.parse_metar (Some metar) !! "baro_status"
       = Some (VStr (pretty (n / 100) +:+ "." +:+ pad2 (n mod 100)
                     +:+ " inHg"))).
Proof.
  intros Hne.
  destruct (parse_metar_fields metar Hne) as (_ & _ & _ & _ & _ & _ & Hb & _).
  rewrite Hb. split.
  - intros Hnone. unfold Metar.baro_field.
    by rewrite (search_no_group _ _ match_baro metar Hnone).
  - intros d1 d2 d3 d4 a b H1 H2 H3 H4 Heq Hfirst n.
    unfold Metar.baro_field.
    rewrite (search_first_group _ _ match_baro metar
               (String " " (String "A" (String d1 (String d2
                  (String d3 (String d4 "")))))) a b); [|..|done|done].
    + cbn [substring]. rewrite py_int_4. unfold fmt_hundredths.
      by rewrite !app_assoc_str.
    + by exists d1, d2, d3, d4.
Qed.

(** X4.  The temperature field is read from the leftmost plain group:
    its first two digits followed by the unit; the dew point is not
    used. *)
Theorem temperature_from_first_group (metar : string) :
  metar ≠ "" →
  ((∀ g a b, plain_temp_group g → metar ≠ a +:+ g +:+ b) →
   Metar.parse_metar (Some metar) !! "weather_status" = Some (VStr "N/A")) ∧
  (∀ d1 d2 d3 d4 a b,
     is_digit d1 = true → is_digit d2 = true →
     is_digit d3 = true → is_digit d4 = true →
     metar = a +:+ String " " (String d1 (String d2 (String "/"
                     (String d3 (String d4 " "))))) +:+ b →
     (∀ g' a' b', plain_temp_group g' → metar = a' +:+ g' +:+ b' →
                  (String.length a ≤ String.length a')%nat) →
     Metar.parse_metar (Some metar) !! "weather_status"
       = Some (VStr (String d1 (String d2 "°C")))).
Proof.
  intros Hne. rewrite (parse_metar_temp metar Hne).
  unfold Metar.temp_field. split.
  - intros Hnone.
    by rewrite (search_no_group _ _ match_temp metar Hnone).
  - intros d1 d2 d3 d4 a b H1 H2 H3 H4 Heq Hfirst.
    rewrite (search_first_group _ _ match_temp metar
               (String " " (String d1 (String d2 (String "/"
                  (String d3 (String d4 " ")))))) a b); [|..|done|done].
    + done.
    + by exists d1, d2, d3, d4.
Qed.

(** ** The shape of the decoded dictionary *)

Lemma assoc_last_is_Some (k : string) (l : list (string * value))
    (acc : option value) :
  is_Some (assoc_last k l acc) ↔ is_Some acc ∨ k ∈ l.*1.
Proof.
  revert acc. induction l as [|[k' v] l IH]; intros acc; simpl.
  - rewrite elem_of_nil. tauto.
  - rewrite IH, elem_of_cons. destruct (String.eqb_spec k' k) as [->|Hne].
    + split; [by auto|]. intros _. left. by eexists.
    + split; [tauto|]. intros [H|[H|H]]; [tauto|congruence|tauto].
Qed.

Lemma assoc_last_elem (k : string) (l : list (string * value))
    (acc : option value) (v : value) :
  assoc_last k l acc = Some v → acc = Some v ∨ (k, v) ∈ l.
Proof.
  revert acc. induction l as [|[k' v'] l IH]; intros acc; simpl; [tauto|].
  intros H. apply IH in H as [H|H].
  - destruct (String.eqb_spec k' k) as [->|Hne]; [|tauto].
    injection H as ->. right. apply elem_of_cons. by left.
  - right. apply elem_of_cons. by right.
Qed.

Lemma parse_metar_is_Some (text k : string) :
  text ≠ "" →
  is_Some (Metar.parse_metar (Some text) !! k) ↔ k ∈ metar_keys.
Proof.
  intros Hne. rewrite (parse_metar_lookup text k Hne), assoc_last_is_Some.
  unfold decoded_fields, metar_keys. cbn [fmap list_fmap fst].
  rewrite !elem_of_cons, !elem_of_nil.
  split; [intros [[? [=]]|H]|intros H; right]; tauto.
Qed.

Lemma parse_metar_str (text k : string) (v : value) :
  text ≠ "" →
  Metar.parse_metar (Some text) !! k = Some v → is_str v = true.
Proof.
  intros Hne. rewrite (parse_metar_lookup text k Hne).
  intros H. apply assoc_last_elem in H as [[=]|H].
  unfold decoded_fields in H. rewrite !elem_of_cons, elem_of_nil in H.
  repeat destruct H as [[= _ ->]|H]; done.
Qed.

Lemma weather_ok_parse (metar : option string) :
  weather_ok (Metar.parse_metar metar).
Proof.
  destruct metar as [[|c text]|]; [by left| |by left]. right. split.
  - intros k. by apply (parse_metar_is_Some (String c text)).
  - intros k v. by apply (parse_metar_str (String c text) k).
Qed.

(** X5.  The decoder returns the empty dictionary for a missing or empty
    text, and for any other text a dictionary with exactly the fifteen
    keys of [metar_keys], every one bound to a string. *)
Theorem parse_metar_keys (metar : option string) :
  (metar = None ∨ metar = Some "" → Metar.parse_metar metar = ∅) ∧
  (∀ text, metar = Some text → text ≠ "" →
     (∀ k, is_Some (Metar.parse_metar metar !! k) ↔ k ∈ metar_keys) ∧
     (∀ k v, Metar.parse_metar metar !! k = Some v → is_str v = true)).
Proof.
  split.
  - by intros [-> | ->].
  - intros text -> Hne. split.
    + intros k. by apply parse_metar_is_Some.
    + intros k v. by apply parse_metar_str.
Qed.

(** ** The cloud message *)

Lemma scan_elem (alts : list (list atom)) (s m : string) :
  m ∈ scan alts s → ∃ r, match_alts alts r = Some m.
Proof.
  induction s as [|c s IH]; [by intros H%elem_of_nil|].
  rewrite scan_cons.
  destruct (match_alts alts (String c s)) as [m'|] eqn:Hm; [|done].
  intros [->|H]%elem_of_cons; [eauto|by apply IH].
Qed.

Lemma cloud_message (kind : string) (d1 d2 d3 : ascii) :
  kind ∈ cloud_kinds →
  let tok := kind +:+ String d1 (String d2 (String d3 "")) in
  default "Ceiling" (Metar.cloud_names !! substring 0 3 tok) ∈
    ["Few Clouds"; "Scattered Clouds"; "Broken Ceiling"; "Overcast"] ∧
  (kind = "FEW" →
   default "Ceiling" (Metar.cloud_names !! substring 0 3 tok) = "Few Clouds") ∧
  (kind = "SCT" →
   default "Ceiling" (Metar.cloud_names !! substring 0 3 tok)
   = "Scattered Clouds") ∧
  (kind = "BKN" →
   default "Ceiling" (Metar.cloud_names !! substring 0 3 tok)
   = "Broken Ceiling") ∧
  (kind = "OVC" →
   default "Ceiling" (Metar.cloud_names !! substring 0 3 tok) = "Overcast").
Proof.
  intros Hk. unfold cloud_kinds in Hk. rewrite !elem_of_cons in Hk.
  destruct Hk as [->|[->|[->|[->|Hk]]]]; [..|by apply elem_of_nil in Hk];
    (split; [by apply (bool_decide_unpack _)|]);
    (split; [done|]); (split; [done|]); (split; done).
Qed.

(** X6.  The field [weather_msg] carries the cloud message and
    [cloud_msg] the fixed caption: when cloud-layer tokens occur, the
    kind of the one that starts last is named, FEW as Few Clouds, SCT as
    Scattered Clouds, BKN as Broken Ceiling and OVC as Overcast; in
    every case the message is one of these four or Clear, never the
    fall-back of the table of names. *)
Theorem weather_message_decoded (metar : string) :
  metar ≠ "" →
  let d := Metar.parse_metar (Some metar) in
  d !! "cloud_msg" = Some (VStr "Ceiling") ∧
  (∀ kind d1 d2 d3 pre post,
     kind ∈ cloud_kinds →
     is_digit d1 = true → is_digit d2 = true → is_digit d3 = true →
     metar = pre +:+ (kind +:+ String d1 (String d2 (String d3 ""))) +:+ post →
     (∀ tok' pre' post',
        cloud_token tok' → metar = pre' +:+ tok' +:+ post' →
        (String.length pre' ≤ String.length pre)%nat) →
     (kind = "FEW" → d !! "weather_msg" = Some (VStr "Few Clouds")) ∧
     (kind = "SCT" → d !! "weather_msg" = Some (VStr "Scattered Clouds")) ∧
     (kind = "BKN" → d !! "weather_msg" = Some (VStr "Broken Ceiling")) ∧
     (kind = "OVC" → d !! "weather_msg" = Some (VStr "Overcast"))) ∧
  (∃ msg,
     msg ∈ ["Clear"; "Few Clouds"; "Scattered Clouds"; "Broken Ceiling";
            "Overcast"] ∧
     d !! "weather_msg" = Some (VStr msg)).
Proof.
  intros Hne d. subst d.
  destruct (parse_metar_cloud metar Hne) as (_ & Hm & _).
  rewrite Hm. clear Hm.
  split; [by rewrite (parse_metar_lookup metar _ Hne)|]. split.
  - intros kind d1 d2 d3 pre post Hk H1 H2 H3 Heq Hlast.
    assert (Ht : cloud_token (kind +:+ String d1 (String d2 (String d3 ""))))
      by (by exists kind, d1, d2, d3).
    pose proof (scan_last metar _ pre post Ht Heq Hlast) as Hl.
    unfold Metar.cloud_fields. rewrite Hl. cbn [fst snd].
    destruct (cloud_message kind d1 d2 d3 Hk) as (_ & E1 & E2 & E3 & E4).
    split; [intros E; by rewrite (E1 E)|].
    split; [intros E; by rewrite (E2 E)|].
    split; [intros E; by rewrite (E3 E)|].
    intros E; by rewrite (E4 E).
  - unfold Metar.cloud_fields.
    destruct (last (scan Metar.cloud_re metar)) as [tok|] eqn:Hl.
    + cbn [fst snd]. eexists. split; [|reflexivity].
      apply last_Some_elem_of, scan_elem in Hl as [r Hr].
      apply match_alts_cloud_iff in Hr
        as [(kind & d1 & d2 & d3 & Hk & _ & _ & _ & ->) _].
      apply elem_of_cons. right. by apply cloud_message.
    + exists "Clear". split; [|done]. apply elem_of_cons. by left.
Qed.

(** ** The report text handed to the decoder *)

Lemma lstrip_all_space (s : string) : lstrip s = "" ↔ all_space s = true.
Proof.
  induction s as [|c s IH]; [done|]. simpl.
  destruct (is_space c); [done|]. simpl. split; [done|discriminate].
Qed.

Lemma all_space_lstrip (s : string) :
  all_space (lstrip s) = true → all_space s = true.
Proof.
  induction s as [|c s IH]; [done|]. simpl.
  destruct (is_space c) eqn:Hc; [done|]. simpl. by rewrite Hc.
Qed.

Lemma all_space_list (s : string) :
  all_space s = forallb is_space (list_ascii_of_string s).
Proof. induction s as [|c s IH]; [done|]. simpl. by rewrite IH. Qed.

Lemma all_space_rev (s : string) : all_space (str_rev s) = all_space s.
Proof.
  unfold str_rev. rewrite !all_space_list, list_ascii_of_string_of_list_ascii.
  apply eq_true_iff_eq. rewrite !forallb_forall.
  split; intros H c Hc; apply H;
    [exact (proj1 (in_rev _ _) Hc)|exact (proj2 (in_rev _ _) Hc)].
Qed.

Lemma str_rev_nil (s : string) : str_rev s = "" ↔ s = "".
Proof.
  unfold str_rev. split; [|by intros ->].
  destruct s as [|c s]; [done|]. simpl. intros H.
  apply (f_equal list_ascii_of_string) in H.
  rewrite list_ascii_of_string_of_list_ascii in H. simpl in H.
  by destruct (rev (list_ascii_of_string s)).
Qed.

Lemma strip_nil (s : string) : strip s = "" ↔ all_space s = true.
Proof.
  unfold strip. rewrite str_rev_nil, lstrip_all_space, all_space_rev.
  split; [apply all_space_lstrip|].
  intros H. apply lstrip_all_space in H. by rewrite H.
Qed.

Section Weather.

Variable cfg : config.

(** X7.  After a tick at which the weather gate is due, the cache is
    empty exactly when the request failed or the body of the answer was
    white space only; in every other case it holds the fifteen decoded
    fields. *)
Theorem weather_cache_empty_iff (env : tick_env) (st : state) :
  weather_due st (now env) = true →
  let st' := (get_display_data cfg env st).1 in
  (cached_parsed_metar st' = ∅ ↔
   metar_response env = TransportError ∨ metar_response env = HttpError ∨
   ∃ text, metar_response env = Body text ∧ all_space text = true) ∧
  (cached_parsed_metar st' ≠ ∅ →
   ∀ k, is_Some (cached_parsed_metar st' !! k) ↔ k ∈ metar_keys).
Proof.
  intros Hdue st'. subst st'.
  destruct (get_display_data_caches cfg env st) as (_ & -> & _).
  unfold refresh_weather. rewrite Hdue. cbn [cached_parsed_metar].
  destruct (metar_response env) as [| |text]; cbn [Metar.fetch_metar].
  - split; [|done]. split; [by left|done].
  - split; [|done]. split; [by right; left|done].
  - destruct (strip text) as [|c s] eqn:Hs.
    + split; [|done]. split; [|done]. intros _. right. right.
      exists text. split; [done|]. by apply strip_nil.
    + assert (Hkeys : ∀ k, is_Some (Metar.parse_metar (Some (String c s)) !! k)
                           ↔ k ∈ metar_keys).
      { intros k. by apply parse_metar_is_Some. }
      split; [|done]. split.
      * intros He. rewrite He in Hkeys.
        destruct (proj2 (Hkeys "ifr_status")) as [v Hv];
          [by apply (bool_decide_unpack _)|].
        by rewrite lookup_empty in Hv.
      * intros [H|[H|(text' & [= <-] & H)]]; [done..|].
        apply strip_nil in H. congruence.
Qed.

End Weather.

(** * Further properties of the tracker *)

(** ** Durations *)

Lemma strptime_HM_eq (s : string) :
  strptime_HM s =
  match s with
  | String h1 (String ":" r) =>
      if is_digit h1 then (fun m => 60 * digit_val h1 + m) <$> minute_of r
      else None
  | String h1 (String h2 (String ":" r)) =>
      if (in_range 50 50 h1 && in_range 48 51 h2)
         || (in_range 48 49 h1 && is_digit h2)
      then (fun m => 60 * (10 * digit_val h1 + digit_val h2) + m)
             <$> minute_of r
      else None
  | _ => None
  end.
Proof. reflexivity. Qed.

Lemma digit_val_range (lo hi : nat) (c : ascii) :
  in_range lo hi c = true →
  Z.of_nat lo - 48 ≤ digit_val c ≤ Z.of_nat hi - 48.
Proof.
  unfold in_range, digit_val.
  intros [H1%Nat.leb_le H2%Nat.leb_le]%andb_true_iff. lia.
Qed.

Lemma minute_of_range (r : string) (m : Z) :
  minute_of r = Some m → 0 ≤ m < 60.
Proof.
  destruct r as [|m1 [|m2 [|? ?]]]; [done| | |done]; simpl.
  - destruct (is_digit m1) eqn:H1; [|done]. intros [= <-].
    apply (digit_val_range 48 57) in H1. lia.
  - destruct (in_range 48 53 m1) eqn:H1; [|done].
    destruct (is_digit m2) eqn:H2; [|done]. intros [= <-].
    apply digit_val_range in H1. apply (digit_val_range 48 57) in H2. lia.
Qed.

Lemma strptime_HM_inv (s : string) (n : Z) :
  strptime_HM s = Some n →
  ∃ h m, 0 ≤ h < 24 ∧ 0 ≤ m < 60 ∧ n = 60 * h + m.
Proof.
  rewrite strptime_HM_eq.
  destruct s as [|h1 [|h2 s2]]; [done..|].
  destruct (Ascii.eqb_spec h2 ":") as [->|Hne].
  - destruct (is_digit h1) eqn:H1; [|done].
    intros (m & Hm%minute_of_range & ->)%fmap_Some.
    apply (digit_val_range 48 57) in H1.
    exists (digit_val h1), m. lia.
  - destruct s2 as [|c r].
    { by destruct h2 as [[] [] [] [] [] [] [] []]. }
    destruct (Ascii.eqb_spec c ":") as [->|Hc].
    + assert (E : ∀ (A : Type) (x y : A),
                match h2 with ":"%char => x | _ => y end = y).
      { intros A x y. by destruct h2 as [[] [] [] [] [] [] [] []]. }
      rewrite E.
      destruct (_ || _) eqn:Hh; [|done].
      intros (m & Hm%minute_of_range & ->)%fmap_Some.
      exists (10 * digit_val h1 + digit_val h2), m.
      split; [|done].
      apply orb_true_iff in Hh as [[H1 H2]%andb_true_iff|[H1 H2]%andb_true_iff];
        apply digit_val_range in H1; apply digit_val_range in H2;
        simpl in *; lia.
    + assert (E : ∀ (A : Type) (x y : A),
                match c with ":"%char => x | _ => y end = y).
      { intros A x y. by destruct c as [[] [] [] [] [] [] [] []]. }
      assert (E' : ∀ (A : Type) (x y : A),
                match h2 with ":"%char => x | _ => y end = y).
      { intros A x y. by destruct h2 as [[] [] [] [] [] [] [] []]. }
      by rewrite E', E.
Qed.

Lemma hhmm_read_back_ok : hhmm_read_back = true.
Proof. by vm_compute. Qed.

Lemma strptime_HM_hhmm (h m : Z) :
  0 ≤ h < 24 → 0 ≤ m < 60 → strptime_HM (hhmm h m) = Some (60 * h + m).
Proof.
  intros Hh Hm. pose proof hhmm_read_back_ok as H.
  unfold hhmm_read_back in H. rewrite forallb_forall in H.
  specialize (H h). rewrite forallb_forall in H.
  assert (Hin : ∀ x n, 0 ≤ x < Z.of_nat n → In x (seqZ 0 (Z.of_nat n))).
  { intros x n Hx. apply list_elem_of_In, elem_of_seqZ. lia. }
  specialize (H (Hin h 24%nat Hh) m (Hin m 60%nat Hm)).
  destruct (strptime_HM (hhmm h m)) as [n|]; [|done].
  apply Z.eqb_eq in H. by subst.
Qed.

Lemma time_diff_eq (t1 t2 : string) (n1 n2 : Z) :
  strptime_HM t1 = Some n1 → strptime_HM t2 = Some n2 →
  time_diff t1 t2
  = Some (hhmm (Z.abs (n2 - n1) / 60) (Z.abs (n2 - n1) mod 60)).
Proof.
  intros H1 H2. unfold time_diff. rewrite H1, H2. simpl. unfold hhmm.
  set (d := Z.abs (n2 - n1)).
  replace (d * 60 / 3600) with (d / 60)
    by (change 3600 with (60 * 60); by rewrite Z.div_mul_cancel_r).
  replace (d * 60 mod 3600 / 60) with (d mod 60); [done|].
  change 3600 with (60 * 60).
  rewrite Z.mul_mod_distr_r, Z.div_mul by done. done.
Qed.

(** X8.  The duration shown for a flight is the distance between its two
    times of day, whichever comes first: for every pair of times written
    as HH:MM it is the absolute difference in minutes, again written as
    HH:MM and below 24 hours; the order of the two times does not
    matter, so a departure before midnight and an arrival after it give
    the time from the arrival to the departure. A text that is not a
    time of day makes the computation fail. *)
Theorem time_diff_absolute (h1 m1 h2 m2 : Z) :
  0 ≤ h1 < 24 → 0 ≤ m1 < 60 → 0 ≤ h2 < 24 → 0 ≤ m2 < 60 →
  let d := Z.abs ((60 * h2 + m2) - (60 * h1 + m1)) in
  time_diff (hhmm h1 m1) (hhmm h2 m2) = Some (hhmm (d / 60) (d mod 60)) ∧
  time_diff (hhmm h2 m2) (hhmm h1 m1) = Some (hhmm (d / 60) (d mod 60)) ∧
  0 ≤ d / 60 < 24 ∧ 0 ≤ d mod 60 < 60 ∧
  (∀ t, strptime_HM t = None →
        time_diff t (hhmm h2 m2) = None ∧ time_diff (hhmm h1 m1) t = None).
Proof.
  intros Hh1 Hm1 Hh2 Hm2 d.
  pose proof (strptime_HM_hhmm h1 m1 Hh1 Hm1) as E1.
  pose proof (strptime_HM_hhmm h2 m2 Hh2 Hm2) as E2.
  split; [by apply time_diff_eq|].
  split.
  { rewrite (time_diff_eq _ _ _ _ E2 E1).
    replace (Z.abs (60 * h1 + m1 - (60 * h2 + m2))) with d; [done|].
    unfold d. lia. }
  split; [|split].
  - split; [apply Z.div_pos; lia|]. apply Z.div_lt_upper_bound; lia.
  - by apply Z.mod_pos_bound.
  - intros t Ht. unfold time_diff. rewrite Ht, E1. done.
Qed.

(** X8 at a sample input.  From 19:29 to 20:15, and from 23:30 to 00:20. *)
Lemma time_diff_absolute_witness :
  time_diff "19:29" "20:15" = Some "00:46" ∧
  time_diff "23:30" "00:20" = Some "23:10".
Proof.
  split.
  - apply (time_diff_absolute 19 29 20 15); lia.
  - apply (time_diff_absolute 23 30 0 20); lia.
Defined.

(** X9.  The duration does not depend on the order of its two arguments;
    it is computed exactly when both are times of day, and it is then a
    time of day itself, below 24 hours. *)
Theorem time_diff_symmetric (t1 t2 : string) :
  time_diff t1 t2 = time_diff t2 t1 ∧
  (is_Some (time_diff t1 t2) ↔
   is_Some (strptime_HM t1) ∧ is_Some (strptime_HM t2)) ∧
  (∀ r, time_diff t1 t2 = Some r →
        ∃ h m, 0 ≤ h < 24 ∧ 0 ≤ m < 60 ∧ r = hhmm h m).
Proof.
  destruct (strptime_HM t1) as [n1|] eqn:E1;
    destruct (strptime_HM t2) as [n2|] eqn:E2.
  - rewrite (time_diff_eq t1 t2 n1 n2 E1 E2), (time_diff_eq t2 t1 n2 n1 E2 E1).
    replace (Z.abs (n1 - n2)) with (Z.abs (n2 - n1)) by lia.
    split; [done|]. split; [split; by eauto|].
    intros r [= <-].
    apply strptime_HM_inv in E1 as (h1 & m1 & ? & ? & ->).
    apply strptime_HM_inv in E2 as (h2 & m2 & ? & ? & ->).
    eexists _, _. split; [|split; [|reflexivity]].
    + split; [apply Z.div_pos; lia|]. apply Z.div_lt_upper_bound; lia.
    + by apply Z.mod_pos_bound.
  - unfold time_diff. rewrite E1, E2. cbn [mbind option_bind].
    split; [done|]. split; [|done].
    split; [by intros [? [=]]|by intros [_ [? [=]]]].
  - unfold time_diff. rewrite E1, E2. cbn [mbind option_bind].
    split; [done|]. split; [|done].
    split; [by intros [? [=]]|by intros [[? [=]] _]].
  - unfold time_diff. rewrite E1, E2. cbn [mbind option_bind].
    split; [done|]. split; [|done].
    split; [by intros [? [=]]|by intros [[? [=]] _]].
Qed.

(** ** The two gates *)

Section Polling.

Variable cfg : config.

Lemma refresh_ui_weather (env : tick_env) (st : state) :
  last_metar_fetch (refresh_ui cfg env st).1
  = last_metar_fetch (refresh_weather env st) ∧
  cached_parsed_metar (refresh_ui cfg env st).1
  = cached_parsed_metar (refresh_weather env st).
Proof.
  destruct (get_display_data_caches cfg env st) as (Hl & Hm & _).
  simpl in Hl, Hm. rewrite <- Hl, <- Hm. unfold refresh_ui.
  destruct (get_display_data cfg env st) as [st' [data|]]; [|done].
  destruct (data !! "calculated_altitude" ≫= as_number) as [alt|]; [|done].
  by destruct (Qltb alt (-250)).
Qed.

Lemma get_display_data_with_metar (r : http_result string) (env : tick_env)
    (st : state) :
  weather_due st (now env) = false →
  get_display_data cfg (with_metar r env) st = get_display_data cfg env st.
Proof.
  intros Hdue. unfold get_display_data, refresh_weather. simpl.
  by rewrite Hdue.
Qed.

(** X10.  The weather service is asked at most once in 300 seconds: a
    tick at which the gate is due moves the clock of the feed to the
    time of the tick, whatever the outcome of the request, and a tick up
    to 300 seconds later finds the gate closed and does not depend on
    what the service would answer. *)
Theorem weather_poll_spacing (env env' : tick_env) (st : state)
    (r : http_result string) :
  weather_due st (now env) = true →
  (now env' <= now env + 300)%Q →
  let st' := (refresh_ui cfg env st).1 in
  last_metar_fetch st' = now env ∧
  weather_due st' (now env') = false ∧
  refresh_ui cfg (with_metar r env') st' = refresh_ui cfg env' st'.
Proof.
  intros Hdue Hlate st'. subst st'.
  destruct (refresh_ui_weather env st) as [Hl _].
  unfold refresh_weather in Hl. rewrite Hdue in Hl. simpl in Hl.
  assert (Hclosed : weather_due (refresh_ui cfg env st).1 (now env') = false).
  { unfold weather_due. rewrite Hl. apply Qgtb_false. lra. }
  split; [done|]. split; [done|].
  unfold refresh_ui. by rewrite get_display_data_with_metar.
Qed.

Lemma get_display_data_with_flights (s e : http_result (list dict))
    (env : tick_env) (st : state) :
  flight_captured st = true ∨ flight_due st (now env) = false →
  get_display_data cfg (with_flights s e env) st = get_display_data cfg env st.
Proof.
  intros [Hc|Hdue].
  - by rewrite !get_display_data_captured.
  - destruct (flight_captured st) eqn:Hc;
      [by rewrite !get_display_data_captured|].
    rewrite !get_display_data_idle by done. simpl.
    destruct (refresh_weather_flight (with_flights s e env) st) as (Hl & _).
    destruct (refresh_weather_flight env st) as (Hl' & _).
    assert (E : refresh_weather (with_flights s e env) st
                = refresh_weather env st) by done.
    rewrite E.
    assert (Hdue' : flight_due (refresh_weather env st) (now env) = false)
      by (unfold flight_due in *; by rewrite Hl').
    by rewrite Hdue'.
Qed.

(** X11.  While a flight is captured the flight service is not asked:
    the tick does not depend on what the two requests would answer, and
    it leaves the clock of the feed and the cached record as they are. *)
Theorem captured_makes_no_request (env : tick_env) (st : state)
    (s e : http_result (list dict)) :
  flight_captured st = true →
  get_display_data cfg (with_flights s e env) st
  = get_display_data cfg env st ∧
  last_flight_fetch (get_display_data cfg env st).1 = last_flight_fetch st ∧
  cached_flight_info (get_display_data cfg env st).1 = cached_flight_info st.
Proof.
  intros Hc. split; [apply get_display_data_with_flights; by left|].
  destruct (get_display_data_caches cfg env st) as (_ & _ & Hl & Hf).
  simpl in Hl, Hf. rewrite Hc in Hl, Hf.
  by destruct (refresh_weather_flight env st) as (<- & <- & _).
Qed.

Lemma fetch_flight_body (env : tick_env) (st : state) (data : list dict) :
  search_response env = Body data →
  last_flight_fetch (fetch_flight env st) = now env.
Proof.
  intros Hs. unfold fetch_flight. rewrite Hs.
  destruct data as [|base rest]; [done|].
  destruct (base !! "fr24_id"); [|done].
  by destruct (enrich_response env) as [| |[|extra rest']].
Qed.

(** X12.  After a search that was answered, whatever it found, the
    flight service is not asked again for 15 seconds: the clock of the
    feed is the time of the tick, and a tick up to 15 seconds later does
    not depend on what the two requests would answer. *)
Theorem flight_poll_spacing (env env' : tick_env) (st : state)
    (data : list dict) (s e : http_result (list dict)) :
  flight_captured st = false →
  flight_due st (now env) = true →
  search_response env = Body data →
  (now env' <= now env + 15)%Q →
  let st' := (get_display_data cfg env st).1 in
  last_flight_fetch st' = now env ∧
  get_display_data cfg (with_flights s e env') st'
  = get_display_data cfg env' st'.
Proof.
  intros Hc Hdue Hs Hlate st'. subst st'.
  destruct (get_display_data_caches cfg env st) as (_ & _ & Hl & _).
  simpl in Hl. rewrite Hc in Hl.
  destruct (refresh_weather_flight env st) as (Hl1 & _).
  assert (Hdue1 : flight_due (refresh_weather env st) (now env) = true)
    by (unfold flight_due in *; by rewrite Hl1).
  rewrite Hdue1, (fetch_flight_body env _ data Hs) in Hl.
  split; [done|].
  apply get_display_data_with_flights. right.
  unfold flight_due. rewrite Hl. apply andb_false_iff. right.
  apply Qgtb_false. lra.
Qed.

End Polling.

(** ** The capture *)

Ltac default_field :=
  unfold default_display; rewrite py_dict_lookup; reflexivity.

Section Capture.

Variable cfg : config.

Lemma get_display_data_monitoring (env : tick_env) (st : state) :
  flight_captured st = false →
  let st1 := refresh_weather env st in
  let st2 := if flight_due st1 (now env) then fetch_flight env st1 else st1 in
  let display_data :=
    monitoring_display cfg (clock env) (cached_parsed_metar st1) in
  flight_captured st2 = false ∧
  cached_parsed_metar st2 = cached_parsed_metar st1 ∧
  get_display_data cfg env st =
  if decide (cached_flight_info st2 = ∅) then (st2, Some display_data)
  else match flight_fields cfg (cached_flight_info st2) display_data with
       | Some d => (set_captured (now_capture env) d st2, Some d)
       | None => (st2, None)
       end.
Proof.
  intros Hc. simpl.
  destruct (refresh_weather_flight env st) as (_ & _ & Hc1 & _).
  rewrite Hc in Hc1. split; [|split].
  - destruct (flight_due _ _); [|done].
    by destruct (fetch_flight_weather env (refresh_weather env st))
      as (_ & _ & -> & _).
  - destruct (flight_due _ _); [|done].
    by destruct (fetch_flight_weather env (refresh_weather env st)) as (-> & _).
  - by rewrite (get_display_data_idle cfg env st Hc).
Qed.

(** The values that [flight_fields] needs and the fields it writes. *)
Lemma flight_fields_Some (info d d' : dict) :
  flight_fields cfg info d = Some d' →
  (∀ k, k ∈ required_keys → is_Some (info !! k)) ∧
  (∃ code city,
     info !! "orig_iata" = Some (VStr code) ∧
     airport_names cfg !! code = Some city ∧
     d' !! "departure_city" = Some (VStr city)) ∧
  (∃ code city,
     info !! "dest_iata" = Some (VStr code) ∧
     airport_names cfg !! code = Some city ∧
     d' !! "arrival_city" = Some (VStr city)) ∧
  (∃ t1 t2 duration,
     info !! "datetime_takeoff" = Some (VStr t1) ∧
     info !! "eta" = Some (VStr t2) ∧
     time_diff (substring 11 5 t1) (substring 11 5 t2) = Some duration ∧
     d' !! "departure_time" = Some (VStr (substring 11 5 t1)) ∧
     d' !! "arrival_time" = Some (VStr (substring 11 5 t2)) ∧
     d' !! "duration" = Some (VStr duration)) ∧
  (∃ km, info !! "actual_distance" ≫= as_number = Some km ∧
     d' !! "distance"
     = Some (VStr (pretty (int_of_float (km / (1852 # 1000))) +:+ " NM"))) ∧
  d' !! "flight_number" = info !! "callsign" ∧
  d' !! "calculated_altitude" = info !! "alt" ∧
  d' !! "calculated_distance" = Some (VInt 0).
Proof.
  unfold flight_fields. intros Hf.
  repeat match type of Hf with
         | (_ ≫= _) = Some _ =>
             apply bind_Some in Hf; destruct Hf as (? & ? & Hf)
         end.
  injection Hf as <-.
  repeat match goal with
         | H : (_ ≫= _) = Some _ |- _ =>
             apply bind_Some in H; destruct H as (? & ? & ?)
         end.
  repeat match goal with
         | H : <[_:=_]> _ !! _ = Some _ |- _ =>
             rewrite lookup_insert_eq in H; injection H as <-
         end.
  repeat match goal with
         | H : airport_city cfg ?v = Some _ |- _ =>
             destruct v; simpl in H; try done;
             apply fmap_Some in H; destruct H as (? & ? & ->)
         | H : slice_11_16 ?v = Some _ |- _ =>
             destruct v; simpl in H; try done; injection H as <-
         end.
  split.
  { intros k Hk. unfold required_keys in Hk.
    rewrite !elem_of_cons, elem_of_nil in Hk.
    destruct Hk as [->|[->|[->|[->|[->|[->|[->|[->|[->|[->|[]]]]]]]]]]];
      by eexists. }
  split; [eexists _, _; split; [done|]; split; [done|]; by simplify_map_eq|].
  split; [eexists _, _; split; [done|]; split; [done|]; by simplify_map_eq|].
  split.
  { eexists _, _, _. split; [done|]. split; [done|]. split; [done|].
    split; [by simplify_map_eq|]. split; by simplify_map_eq. }
  split.
  { eexists. split; [by erewrite bind_Some; eauto|]. by simplify_map_eq. }
  split; [by simplify_map_eq|]. split; by simplify_map_eq.
Qed.

Lemma monitoring_display_lookup (c : string) (w : dict) (k : string) :
  monitoring_display cfg c w !! k =
  if decide (k = "arrival_city") then Some (VStr (DEFAULT_ARRIVAL_CITY cfg))
  else match w !! k with
       | Some v => Some v
       | None => default_display c !! k
       end.
Proof.
  unfold monitoring_display, dict_update.
  destruct (decide (k = "arrival_city")) as [->|Hne].
  - by rewrite lookup_insert_eq.
  - rewrite lookup_insert_ne by done. rewrite lookup_union.
    by destruct (w !! k), (default_display c !! k).
Qed.

Lemma weather_ok_other (w : dict) (k : string) :
  weather_ok w → k ∉ metar_keys → w !! k = None.
Proof.
  intros [->|[H _]] Hk; [done|].
  destruct (w !! k) as [v|] eqn:E; [|done].
  destruct Hk. apply H. by eexists.
Qed.

(** A field that the weather cache does not override. *)
Lemma monitoring_display_default (c : string) (w : dict) (k : string) :
  weather_ok w → k ∉ metar_keys → k ≠ "arrival_city" →
  monitoring_display cfg c w !! k = default_display c !! k.
Proof.
  intros Hw Hk Hne. rewrite monitoring_display_lookup.
  destruct (decide _); [done|]. by rewrite (weather_ok_other w k Hw Hk).
Qed.

Lemma default_display_keys (c : string) (k : string) :
  is_Some (default_display "" !! k) → is_Some (default_display c !! k).
Proof.
  unfold default_display. rewrite !py_dict_lookup, !assoc_last_is_Some.
  by cbn [fmap list_fmap fst].
Qed.

Lemma flight_fields_keeps (info d d' : dict) (k : string) :
  flight_fields cfg info d = Some d' → is_Some (d !! k) → is_Some (d' !! k).
Proof.
  unfold flight_fields. intros Hf Hk.
  repeat match type of Hf with
         | (_ ≫= _) = Some _ =>
             apply bind_Some in Hf; destruct Hf as (? & _ & Hf)
         end.
  injection Hf as <-.
  repeat (apply lookup_insert_is_Some'; right). done.
Qed.

Lemma get_display_data_cached (env : tick_env) (st : state) :
  flight_captured st = false →
  let st1 := refresh_weather env st in
  cached_flight_info (get_display_data cfg env st).1
  = cached_flight_info
      (if flight_due st1 (now env) then fetch_flight env st1 else st1).
Proof.
  intros Hc. destruct (get_display_data_caches cfg env st) as (_ & _ & _ & Hf).
  simpl in Hf. by rewrite Hc in Hf.
Qed.

(** The tick of a state without a captured flight, by the record that
    the cache holds after the requests. *)
Lemma get_display_data_cases (env : tick_env) (st : state) :
  flight_captured st = false →
  let r := get_display_data cfg env st in
  let display_data :=
    monitoring_display cfg (clock env) (cached_parsed_metar r.1) in
  (cached_flight_info r.1 = ∅ ∧ r.2 = Some display_data ∧
   flight_captured r.1 = false ∧
   flight_captured_time r.1 = flight_captured_time st ∧
   flight_captured_info r.1 = flight_captured_info st) ∨
  (cached_flight_info r.1 ≠ ∅ ∧
   flight_fields cfg (cached_flight_info r.1) display_data = None ∧
   r.2 = None ∧ flight_captured r.1 = false ∧
   flight_captured_time r.1 = flight_captured_time st ∧
   flight_captured_info r.1 = flight_captured_info st) ∨
  (cached_flight_info r.1 ≠ ∅ ∧
   ∃ d, flight_fields cfg (cached_flight_info r.1) display_data = Some d ∧
        r.2 = Some d ∧ flight_captured r.1 = true ∧
        flight_captured_time r.1 = now_capture env ∧
        flight_captured_info r.1 = d).
Proof.
  intros Hc. simpl.
  destruct (get_display_data_monitoring env st Hc) as (Hc2 & Hw & ->).
  simpl in Hc2, Hw.
  destruct (refresh_weather_flight env st) as (_ & _ & _ & Ht & Hi).
  set (st1 := refresh_weather env st) in *.
  assert (Hti : flight_captured_time
                  (if flight_due st1 (now env) then fetch_flight env st1
                   else st1) = flight_captured_time st ∧
                flight_captured_info
                  (if flight_due st1 (now env) then fetch_flight env st1
                   else st1) = flight_captured_info st).
  { destruct (flight_due _ _); [|done].
    by destruct (fetch_flight_weather env st1) as (_ & _ & _ & -> & ->). }
  destruct Hti as [Ht2 Hi2].
  set (st2 := if flight_due st1 (now env) then fetch_flight env st1
              else st1) in *.
  destruct (decide (cached_flight_info st2 = ∅)) as [He|He].
  - left. simpl. by rewrite Hw.
  - right.
    destruct (flight_fields cfg (cached_flight_info st2) _) as [d|] eqn:Hf.
    + right. simpl. split; [done|]. exists d. by rewrite Hw.
    + left. simpl. by rewrite Hw.
Qed.

Lemma weather_ok_refresh (env : tick_env) (st : state) :
  weather_ok (cached_parsed_metar st) →
  weather_ok (cached_parsed_metar (refresh_weather env st)).
Proof.
  intros H. unfold refresh_weather. destruct (weather_due _ _); [|done].
  apply weather_ok_parse.
Qed.

Lemma weather_ok_tick (env : tick_env) (st : state) :
  weather_ok (cached_parsed_metar st) →
  weather_ok (cached_parsed_metar (get_display_data cfg env st).1).
Proof.
  intros H. destruct (get_display_data_caches cfg env st) as (_ & -> & _).
  by apply weather_ok_refresh.
Qed.

(** X13.  At the tick that captures a flight the snapshot is the display
    returned, taken at the time read at the capture; its altitude is the
    one of the cached record, which is not empty, its clock is the one
    of the tick and its weather fields are those of the weather cache. *)
Theorem capture_snapshot (env : tick_env) (st : state) :
  weather_ok (cached_parsed_metar st) →
  flight_captured st = false →
  flight_captured (get_display_data cfg env st).1 = true →
  let st' := (get_display_data cfg env st).1 in
  (get_display_data cfg env st).2 = Some (flight_captured_info st') ∧
  flight_captured_time st' = now_capture env ∧
  cached_flight_info st' ≠ ∅ ∧
  flight_captured_info st' !! "calculated_altitude"
    = cached_flight_info st' !! "alt" ∧
  flight_captured_info st' !! "clock" = Some (VStr (clock env)) ∧
  (∀ k v, k ∈ metar_keys → cached_parsed_metar st' !! k = Some v →
          flight_captured_info st' !! k = Some v).
Proof.
  intros Hw Hc Hc' st'. subst st'.
  apply (weather_ok_tick env) in Hw.
  destruct (get_display_data_cases env st Hc)
    as [(_ & _ & Hn & _)
       |[(_ & _ & _ & Hn & _)|(He & d & Hf & Hr & _ & Ht & Hi)]];
    [congruence..|].
  rewrite Hr, Hi, Ht.
  split; [done|]. split; [done|]. split; [done|].
  destruct (flight_fields_Some _ _ _ Hf) as (_ & _ & _ & _ & _ & _ & Ha & _).
  split; [done|]. split.
  - rewrite (flight_fields_other cfg _ _ _ _ Hf)
      by (by apply (bool_decide_unpack _)).
    rewrite (monitoring_display_default _ _ "clock" Hw);
      [default_field|by apply (bool_decide_unpack _)|done].
  - intros k v Hk Hv.
    rewrite (flight_fields_other cfg _ _ _ _ Hf).
    + rewrite monitoring_display_lookup, Hv.
      destruct (decide _) as [->|]; [|done].
      by apply (bool_decide_pack _) in Hk.
    + unfold metar_keys in Hk. rewrite !elem_of_cons, elem_of_nil in Hk.
      repeat (destruct Hk as [->|Hk]; [by apply (bool_decide_unpack _)|]).
      done.
Qed.

Lemma get_display_data_incomplete (env : tick_env) (st : state) (k : string) :
  flight_captured st = false →
  cached_flight_info (get_display_data cfg env st).1 ≠ ∅ →
  k ∈ required_keys →
  cached_flight_info (get_display_data cfg env st).1 !! k = None →
  (get_display_data cfg env st).2 = None ∧
  flight_captured (get_display_data cfg env st).1 = false.
Proof.
  intros Hc He Hk Hnone.
  destruct (get_display_data_cases env st Hc)
    as [(Hn & _)|[(_ & _ & Hr & Hn & _)|(_ & d & Hf & _)]];
    [done|done|].
  destruct (flight_fields_Some _ _ _ Hf) as (Hreq & _).
  destruct (Hreq k Hk) as [v Hv]. congruence.
Qed.

(** X14.  A cached record that lacks one of the keys the display reads
    makes the tick raise instead of returning a display; no flight is
    captured, the record stays in the cache, and every later tick at
    which the gate of the flight feed is closed raises in the same way. *)
Theorem incomplete_record_raises (env env' : tick_env) (st : state)
    (k : string) :
  flight_captured st = false →
  let st' := (get_display_data cfg env st).1 in
  cached_flight_info st' ≠ ∅ →
  k ∈ required_keys →
  cached_flight_info st' !! k = None →
  (get_display_data cfg env st).2 = None ∧
  flight_captured st' = false ∧
  (flight_due st' (now env') = false →
   (get_display_data cfg env' st').2 = None ∧
   cached_flight_info (get_display_data cfg env' st').1
   = cached_flight_info st').
Proof.
  intros Hc st' He Hk Hnone. subst st'.
  destruct (get_display_data_incomplete env st k Hc He Hk Hnone) as [Hr Hc'].
  split; [done|]. split; [done|]. intros Hdue.
  set (st' := (get_display_data cfg env st).1) in *.
  assert (Hsame : cached_flight_info (get_display_data cfg env' st').1
                  = cached_flight_info st').
  { rewrite (get_display_data_cached env' st' Hc'). cbv zeta.
    destruct (refresh_weather_flight env' st') as (Hl & Hf & _).
    assert (Hdue' : flight_due (refresh_weather env' st') (now env') = false)
      by (unfold flight_due in *; by rewrite Hl).
    by rewrite Hdue'. }
  split; [|done].
  apply (get_display_data_incomplete env' st' k Hc');
    [by rewrite Hsame|done|by rewrite Hsame].
Qed.

Lemma refresh_ui_not_number (env : tick_env) (st : state) (data : dict) :
  (get_display_data cfg env st).2 = Some data →
  data !! "calculated_altitude" ≫= as_number = None →
  refresh_ui cfg env st = ((get_display_data cfg env st).1, None).
Proof.
  intros Hd Hn. unfold refresh_ui.
  destruct (get_display_data cfg env st) as [st' r].
  cbn [fst snd] in *. subst r. by rewrite Hn.
Qed.

(** X15.  An altitude that is not a number stops the display for good:
    the tick that captures a record with such an altitude raises after
    the capture, in the comparison with -250, and from a captured
    snapshot with such an altitude every tick raises and leaves the
    snapshot in place. *)
Theorem non_numeric_altitude_sticks (env : tick_env) (st : state) :
  (flight_captured st = false →
   flight_captured (get_display_data cfg env st).1 = true →
   cached_flight_info (get_display_data cfg env st).1 !! "alt" ≫= as_number
     = None →
   (refresh_ui cfg env st).2 = None ∧
   flight_captured (refresh_ui cfg env st).1 = true ∧
   flight_captured_info (refresh_ui cfg env st).1 !! "calculated_altitude"
     ≫= as_number = None) ∧
  (flight_captured st = true →
   flight_captured_info st !! "calculated_altitude" ≫= as_number = None →
   (refresh_ui cfg env st).2 = None ∧
   flight_captured (refresh_ui cfg env st).1 = true ∧
   flight_captured_info (refresh_ui cfg env st).1 = flight_captured_info st).
Proof.
  split.
  - intros Hc Hc' Halt.
    destruct (get_display_data_cases env st Hc)
      as [(_ & _ & Hn & _)
         |[(_ & _ & _ & Hn & _)|(He & d & Hf & Hr & _ & Ht & Hi)]];
      [congruence..|].
    destruct (flight_fields_Some _ _ _ Hf) as (_ & _ & _ & _ & _ & _ & Ha & _).
    rewrite (refresh_ui_not_number env st d Hr) by (by rewrite Ha).
    cbn [fst snd]. split; [done|]. split; [done|]. by rewrite Hi, Ha.
  - intros Hc Halt. unfold refresh_ui.
    rewrite (get_display_data_captured cfg env st Hc).
    unfold captured_display. rewrite Halt. cbn [mbind option_bind fst snd].
    by destruct (refresh_weather_flight env st) as (_ & _ & -> & _ & ->).
Qed.

(** X16.  While no flight is captured and the cache of the flight feed
    is empty after the requests, the tick shows the monitoring display:
    the placeholders of the flight fields, the clock of the tick, the
    default arrival city, the fields of the weather cache in place of
    their placeholders; the altitude of that display is zero, so the
    reset does not fire and the tracker stays as it is. *)
Theorem monitoring_tick (env : tick_env) (st : state) :
  weather_ok (cached_parsed_metar st) →
  flight_captured st = false →
  let st' := (get_display_data cfg env st).1 in
  cached_flight_info st' = ∅ →
  ∃ data,
    refresh_ui cfg env st = (st', Some data) ∧
    flight_captured st' = false ∧
    data !! "flight_number" = Some (VStr "MONITORING") ∧
    data !! "clock" = Some (VStr (clock env)) ∧
    data !! "arrival_city" = Some (VStr (DEFAULT_ARRIVAL_CITY cfg)) ∧
    data !! "calculated_altitude" = Some (VInt 0) ∧
    (∀ k v, cached_parsed_metar st' !! k = Some v → data !! k = Some v) ∧
    (∀ k, cached_parsed_metar st' !! k = None → k ≠ "arrival_city" →
          data !! k = default_display (clock env) !! k).
Proof.
  intros Hw Hc st' He. subst st'.
  apply (weather_ok_tick env) in Hw.
  destruct (get_display_data_cases env st Hc)
    as [(_ & Hr & Hn & _)|[(Hne & _)|(Hne & _)]]; [|done..].
  set (w := cached_parsed_metar (get_display_data cfg env st).1) in *.
  assert (Hflight : ∀ k, k ∉ metar_keys → k ≠ "arrival_city" →
            monitoring_display cfg (clock env) w !! k
            = default_display (clock env) !! k)
    by (intros k; by apply monitoring_display_default).
  exists (monitoring_display cfg (clock env) w).
  assert (Halt : monitoring_display cfg (clock env) w !! "calculated_altitude"
                 = Some (VInt 0)).
  { rewrite Hflight; [default_field|by apply (bool_decide_unpack _)|done]. }
  split.
  { unfold refresh_ui.
    destruct (get_display_data cfg env st) as [st' r].
    cbn [fst snd] in *. subst r. by rewrite Halt. }
  split; [done|].
  split.
  { rewrite Hflight; [default_field|by apply (bool_decide_unpack _)|done]. }
  split.
  { rewrite Hflight; [default_field|by apply (bool_decide_unpack _)|done]. }
  split.
  { rewrite monitoring_display_lookup. by destruct (decide _). }
  split; [done|]. split.
  - intros k v Hv. rewrite monitoring_display_lookup, Hv.
    destruct (decide _) as [->|]; [|done].
    rewrite (weather_ok_other w "arrival_city" Hw) in Hv; [done|].
    by apply (bool_decide_unpack _).
  - intros k Hk Hne. rewrite monitoring_display_lookup, Hk.
    by destruct (decide _).
Qed.

Lemma consistent_tick (env : tick_env) (st : state) :
  consistent st → consistent (get_display_data cfg env st).1.
Proof.
  intros [Hw Hb]. split; [by apply weather_ok_tick|].
  destruct (flight_captured st) eqn:Hc.
  - rewrite (get_display_data_captured cfg env st Hc). cbn [fst].
    destruct (refresh_weather_flight env st) as (_ & -> & -> & _ & ->).
    by rewrite Hc.
  - destruct Hb as [Ht Hi].
    destruct (get_display_data_cases env st Hc)
      as [(_ & _ & -> & -> & ->)|[(_ & _ & _ & -> & -> & ->)
                                  |(He & d & Hf & _ & -> & _ & ->)]];
      [done|done|].
    split; [done|]. intros k Hk.
    apply (flight_fields_keeps _ _ _ _ Hf).
    apply (default_display_keys (clock env)) in Hk.
    rewrite monitoring_display_lookup. destruct (decide _); [by eexists|].
    destruct (cached_parsed_metar _ !! k); [by eexists|done].
Qed.

(** X17.  The bookkeeping of the tracker is kept by every tick, from the
    initial state on: the weather cache holds nothing but decoded
    fields; while no flight is captured the snapshot is empty and its
    time is zero; while one is captured the cached record is not empty
    and the snapshot has every field of the display. *)
Theorem tracker_consistent (env : tick_env) (st : state) :
  consistent initial_state ∧
  (consistent st → consistent (refresh_ui cfg env st).1).
Proof.
  split; [split; [by left|by split]|].
  intros H. pose proof (consistent_tick env st H) as Ht.
  unfold refresh_ui.
  destruct (get_display_data cfg env st) as [st' [data|]]; [|done].
  destruct (data !! "calculated_altitude" ≫= as_number) as [alt|]; [|done].
  destruct (Qltb alt (-250)); [|done].
  cbn [fst] in *. destruct Ht as [Hw _]. split; [done|by split].
Qed.

End Capture.

(** ** The outcomes of a poll *)

Section Poll.

Variable cfg : config.

(** X18.  An origin or a destination that the table of airports does not
    know, or that is not a string, makes the tick raise instead of
    returning a display, and no flight is captured. *)
Theorem unknown_airport_raises (env : tick_env) (st : state)
    (key : string) (v : value) :
  flight_captured st = false →
  let st' := (get_display_data cfg env st).1 in
  key = "orig_iata" ∨ key = "dest_iata" →
  cached_flight_info st' !! key = Some v →
  airport_city cfg v = None →
  (get_display_data cfg env st).2 = None ∧ flight_captured st' = false.
Proof.
  intros Hc st' Hkey Hv Hnone. subst st'.
  destruct (get_display_data_cases cfg env st Hc)
    as [(He & _)|[(_ & _ & Hr & Hn & _)|(_ & d & Hf & _)]].
  - by rewrite He in Hv.
  - done.
  - destruct (flight_fields_Some cfg _ _ _ Hf)
      as (_ & (c1 & n1 & Ho & Hn1 & _) & (c2 & n2 & Hd & Hn2 & _) & _).
    destruct Hkey as [-> | ->].
    + rewrite Ho in Hv. injection Hv as <-.
      simpl in Hnone. by rewrite Hn1 in Hnone.
    + rewrite Hd in Hv. injection Hv as <-.
      simpl in Hnone. by rewrite Hn2 in Hnone.
Qed.

(** X19.  What an answered search leaves in the cache of the flight
    feed: an empty result leaves the cached record as it was; otherwise
    the first record of the result is cached, as it is when it has no
    flight id or when the enrichment returns nothing, and merged with
    the first record of the enrichment otherwise. In each case the clock
    of the feed is the time of the tick. *)
Theorem flight_poll_outcomes (env : tick_env) (st : state) :
  flight_captured st = false →
  flight_due st (now env) = true →
  let st' := (get_display_data cfg env st).1 in
  (search_response env = Body [] →
   cached_flight_info st' = cached_flight_info st ∧
   last_flight_fetch st' = now env) ∧
  (∀ base rest,
     search_response env = Body (base :: rest) →
     last_flight_fetch st' = now env ∧
     (base !! "fr24_id" = None → cached_flight_info st' = base) ∧
     (enrich_response env = Body [] → cached_flight_info st' = base) ∧
     (∀ extra rest',
        is_Some (base !! "fr24_id") →
        enrich_response env = Body (extra :: rest') →
        cached_flight_info st' = enrich_merge base extra)).
Proof.
  intros Hc Hdue st'. subst st'.
  destruct (get_display_data_caches cfg env st) as (_ & _ & Hl & Hf).
  cbv zeta in Hl, Hf. rewrite Hc in Hl, Hf.
  destruct (refresh_weather_flight env st) as (Hl1 & Hf1 & _).
  assert (Hdue1 : flight_due (refresh_weather env st) (now env) = true)
    by (unfold flight_due in *; by rewrite Hl1).
  rewrite Hdue1 in Hl, Hf. rewrite Hl, Hf. clear Hl Hf.
  unfold fetch_flight. split.
  - intros ->. cbn [cached_flight_info last_flight_fetch
                    set_last_flight_fetch]. done.
  - intros base rest ->. split; [|split; [|split]].
    + destruct (base !! "fr24_id"); [|done].
      by destruct (enrich_response env) as [| |[|extra rest']].
    + by intros ->.
    + intros ->. by destruct (base !! "fr24_id").
    + intros extra rest' [v ->] ->. done.
Qed.

End Poll.

(** ** The time of the reset *)

Section Reset.

Variable cfg : config.

(** X20.  With a positive descent rate the reset is a matter of time: a
    flight captured at the altitude a0 is dropped at the first tick
    later than (a0 + 250) * 60 / FPM_LANDING seconds after the capture,
    and kept at every tick up to then. *)
Theorem reset_after_seconds (env : tick_env) (st : state) (a0 : Q) :
  flight_captured st = true →
  flight_captured_info st !! "calculated_altitude" ≫= as_number = Some a0 →
  0 < FPM_LANDING cfg →
  let elapsed := (now_captured env - flight_captured_time st)%Q in
  let limit := ((a0 + 250) * 60 / inject_Z (FPM_LANDING cfg))%Q in
  ((limit < elapsed)%Q → flight_captured (refresh_ui cfg env st).1 = false) ∧
  ((elapsed <= limit)%Q → flight_captured (refresh_ui cfg env st).1 = true).
Proof.
  intros Hc Ha Hrate elapsed limit. unfold refresh_ui.
  rewrite (get_display_data_captured cfg env st Hc).
  destruct (captured_display_fields cfg st (now_captured env) a0 Ha)
    as (data & -> & Hcalc & _).
  rewrite Hcalc. cbn [mbind option_bind as_number].
  fold elapsed.
  set (r := inject_Z (FPM_LANDING cfg)) in *.
  assert (Hr : (0 < r)%Q).
  { unfold r. change 0%Q with (inject_Z 0). by rewrite <- Zlt_Qlt. }
  assert (Hlim : (limit * r == (a0 + 250) * 60)%Q).
  { unfold limit. field. lra. }
  assert (Hiff : (a0 - r * elapsed / 60 < -250)%Q ↔ (limit < elapsed)%Q).
  { assert (E : (r * elapsed / 60 == r * elapsed * (1 # 60))%Q) by field.
    rewrite E. split; intros H.
    - apply (Qmult_lt_r _ _ r Hr). rewrite Hlim. lra.
    - apply (Qmult_lt_r _ _ r Hr) in H. rewrite Hlim in H. lra. }
  destruct (refresh_weather_flight env st) as (_ & _ & Hc' & _).
  split.
  - intros H. apply Hiff, Qltb_true in H. by rewrite H.
  - intros H. destruct (Qltb _ (-250)) eqn:E.
    + apply Qltb_true, Hiff in E. lra.
    + cbn [fst]. by rewrite Hc'.
Qed.

End Reset.

(** ** The approach diagram *)

Lemma plane_x_mono (a b : Q) :
  (a <= b)%Q →
  int_of_float (1470 + a * 356 / 2000) ≤ int_of_float (1470 + b * 356 / 2000).
Proof.
  intros H. apply int_of_float_mono.
  assert (E : ∀ c : Q, (c * 356 / 2000 == c * (89 # 500))%Q)
    by (intros; field).
  rewrite !E. lra.
Qed.

Lemma plane_y_mono (a b : Q) :
  (a <= b)%Q →
  int_of_float (390 - b * 110 / 2000) ≤ int_of_float (390 - a * 110 / 2000).
Proof.
  intros H. apply int_of_float_mono.
  assert (E : ∀ c : Q, (c * 110 / 2000 == c * (11 # 200))%Q)
    by (intros; field).
  rewrite !E. lra.
Qed.

(** X21.  The plane of the approach diagram is left alone below -250 ft
    and placed at every other altitude; its column lies between 1402 and
    1803 and its row between 263 and 364; a higher altitude places it no
    further left and no lower on the screen; from 2000 ft on it sits at
    column 1803, row 263, and up to 163 ft at row 364. *)
Theorem plane_position_bounds (a b : Q) :
  (plane_position a = None ↔ (a < -250)%Q) ∧
  (∀ xa ya xb yb,
     plane_position a = Some (xa, ya) →
     plane_position b = Some (xb, yb) →
     (a <= b)%Q →
     1402 ≤ xa ≤ 1803 ∧ 263 ≤ ya ≤ 364 ∧
     xa ≤ xb ∧ yb ≤ ya ∧
     ((2000 <= a)%Q → xa = 1803 ∧ ya = 263) ∧
     ((a <= 163)%Q → ya = 364)).
Proof.
  assert (Hpos : ∀ c x y, plane_position c = Some (x, y) →
            (-250 <= c)%Q ∧
            ((c < 2000)%Q ∧
             x = int_of_float (1470 + c * 356 / 2000) - 23 ∧
             y = Z.min 381 (int_of_float (390 - c * 110 / 2000)) - 17
             ∨ (2000 <= c)%Q ∧ x = 1803 ∧ y = 263)).
  { intros c x y. unfold plane_position.
    destruct (Qltb c (-250)) eqn:H1; [done|]. apply Qltb_false in H1.
    destruct (Qltb c 2000) eqn:H2; intros [= <- <-].
    - apply Qltb_true in H2. split; [done|]. by left.
    - apply Qltb_false in H2. split; [done|]. by right. }
  assert (Hx : ∀ c, (-250 <= c)%Q → (c <= 2000)%Q →
            1425 ≤ int_of_float (1470 + c * 356 / 2000) ≤ 1826).
  { intros c H1 H2. split.
    - change 1425 with (int_of_float (1470 + (-250) * 356 / 2000)).
      by apply plane_x_mono.
    - change 1826 with (int_of_float (1470 + 2000 * 356 / 2000)).
      by apply plane_x_mono. }
  assert (Hy : ∀ c, (-250 <= c)%Q → (c <= 2000)%Q →
            280 ≤ int_of_float (390 - c * 110 / 2000) ≤ 403).
  { intros c H1 H2. split.
    - change 280 with (int_of_float (390 - 2000 * 110 / 2000)).
      by apply plane_y_mono.
    - change 403 with (int_of_float (390 - (-250) * 110 / 2000)).
      by apply plane_y_mono. }
  split.
  - unfold plane_position. destruct (Qltb a (-250)) eqn:H1.
    + by apply Qltb_true in H1.
    + apply Qltb_false in H1. split; [by destruct (Qltb a 2000)|].
      intros H. lra.
  - intros xa ya xb yb Ha Hb Hab.
    apply Hpos in Ha as [Ha1 Ha]. apply Hpos in Hb as [Hb1 Hb].
    destruct Ha as [(Ha2 & -> & ->)|(Ha2 & -> & ->)].
    + assert (Ha3 : (a <= 2000)%Q) by lra.
      pose proof (Hx a Ha1 Ha3). pose proof (Hy a Ha1 Ha3).
      assert (Hlow : (a <= 163)%Q →
                381 ≤ int_of_float (390 - a * 110 / 2000)).
      { intros H163.
        change 381 with (int_of_float (390 - 163 * 110 / 2000)).
        by apply plane_y_mono. }
      destruct Hb as [(Hb2 & -> & ->)|(Hb2 & -> & ->)].
      * pose proof (plane_x_mono a b Hab). pose proof (plane_y_mono a b Hab).
        split; [lia|]. split; [lia|]. split; [lia|]. split; [lia|].
        split; [intros; lra|]. intros H163. specialize (Hlow H163). lia.
      * split; [lia|]. split; [lia|]. split; [lia|]. split; [lia|].
        split; [intros; lra|]. intros H163. specialize (Hlow H163). lia.
    + destruct Hb as [(Hb2 & -> & ->)|(Hb2 & -> & ->)]; [lra|].
      split; [lia|]. split; [lia|]. split; [lia|]. split; [lia|].
      split; [done|]. intros. lra.
Qed.

(** X21 at a sample input.  At 1000 ft and at 3000 ft. *)
Lemma plane_position_bounds_witness :
  plane_position 1000 = Some (1625, 318) ∧
  plane_position 3000 = Some (1803, 263) ∧
  1625 ≤ 1803 ∧ 263 ≤ 318.
Proof.
  destruct (plane_position_bounds 1000 3000) as [_ H].
  destruct (H 1625 318 1803 263) as (_ & _ & Hx & Hy & _);
    [reflexivity|reflexivity|by vm_compute|].
  split; [reflexivity|]. split; [reflexivity|]. split; [exact Hx|exact Hy].
Defined.

(** ** The colours of the widgets *)

Section Styles.

Variable cfg : config.
Variable widgets : gset string.

Lemma style_lookups_true (data : dict) :
  style_lookups widgets data = true ↔
  ∀ key, is_Some (data !! key) → style_lookup widgets data key = true.
Proof.
  unfold style_lookups. rewrite forallb_forall. split.
  - intros H key [v Hv].
    apply (H (key, v)), list_elem_of_In. by apply elem_of_map_to_list.
  - intros H [key v] Hin. simpl. apply H.
    apply list_elem_of_In, elem_of_map_to_list in Hin. by eexists.
Qed.

Lemma style_key_weather (key c : string) :
  style_key key = Some c →
  key = "status" ∧ c = "status_color" ∨ key ∈ weather_widgets ∧ c ∈ metar_keys.
Proof.
  unfold style_key.
  destruct (String.eqb_spec key "status") as [->|?];
    [intros [= <-]; by left|].
  destruct (String.eqb_spec key "ifr_status") as [->|?];
    [intros [= <-]; right; split; by apply (bool_decide_unpack _)|].
  destruct (String.eqb_spec key "cloud_status") as [->|?];
    [intros [= <-]; right; split; by apply (bool_decide_unpack _)|].
  destruct (String.eqb_spec key "wind_status") as [->|?];
    [intros [= <-]; right; split; by apply (bool_decide_unpack _)|].
  destruct (String.eqb_spec key "vis_status") as [->|?];
    [intros [= <-]; right; split; by apply (bool_decide_unpack _)|].
  done.
Qed.

(** X22.  The colour look-ups of the monitoring display: after a tick
    that leaves the weather cache empty, as a failed request does, the
    display has no colour for the weather widgets, and the loop that
    styles the widgets raises as soon as one of them is configured; with
    a decoded report in the cache every look-up succeeds, given the
    widget of the logo. *)
Theorem monitoring_style_lookups (env : tick_env) (st : state) :
  weather_ok (cached_parsed_metar st) →
  flight_captured st = false →
  let st' := (get_display_data cfg env st).1 in
  cached_flight_info st' = ∅ →
  ∃ data,
    (refresh_ui cfg env st).2 = Some data ∧
    (cached_parsed_metar st' = ∅ →
     (∃ key, key ∈ weather_widgets ∧ key ∈ widgets) →
     style_lookups widgets data = false) ∧
    (cached_parsed_metar st' ≠ ∅ → "logo" ∈ widgets →
     style_lookups widgets data = true).
Proof.
  intros Hw Hc st' He. subst st'.
  apply (weather_ok_tick cfg env) in Hw.
  destruct (get_display_data_cases cfg env st Hc)
    as [(_ & Hr & Hn & _)|[(Hne & _)|(Hne & _)]]; [|done..].
  set (w := cached_parsed_metar (get_display_data cfg env st).1) in *.
  set (data := monitoring_display cfg (clock env) w) in *.
  assert (Halt : data !! "calculated_altitude" = Some (VInt 0)).
  { unfold data.
    rewrite (monitoring_display_default cfg _ _ "calculated_altitude" Hw);
      [default_field|by apply (bool_decide_unpack _)|done]. }
  exists data. split.
  { unfold refresh_ui.
    destruct (get_display_data cfg env st) as [st' r].
    cbn [fst snd] in *. subst r. by rewrite Halt. }
  split.
  - intros Hempty (key & Hk & Hin).
    apply not_true_is_false. rewrite style_lookups_true. intros H.
    assert (Hd : ∀ k, k ≠ "arrival_city" →
              data !! k = default_display (clock env) !! k).
    { intros k Hk'. unfold data. rewrite Hempty, monitoring_display_lookup.
      destruct (decide _); [done|]. by rewrite lookup_empty. }
    assert (Hkey : is_Some (data !! key) ∧ key ≠ "callsign" ∧
                   key ≠ "plane_icon" ∧
                   ∃ c, style_key key = Some c ∧ data !! c = None).
    { unfold weather_widgets in Hk. rewrite !elem_of_cons, elem_of_nil in Hk.
      destruct Hk as [->|[->|[->|[->|[]]]]];
        (split; [rewrite Hd by done; unfold default_display;
                 rewrite py_dict_lookup; by eexists|]);
        (split; [done|]); (split; [done|]);
        eexists; (split; [reflexivity|]);
        rewrite Hd by done; default_field. }
    destruct Hkey as (His & Hn1 & Hn2 & c & Hs & Hnone).
    specialize (H key His). unfold style_lookup in H.
    destruct (String.eqb_spec key "callsign"); [done|].
    rewrite (bool_decide_eq_true_2 _ Hin) in H.
    destruct (String.eqb_spec key "plane_icon"); [done|].
    cbn [andb negb] in H. rewrite Hs in H.
    apply bool_decide_eq_true_1 in H. rewrite Hnone in H. by destruct H.
  - intros Hfull Hlogo. apply style_lookups_true. intros key Hkey.
    unfold style_lookup.
    destruct (String.eqb_spec key "callsign");
      [by apply bool_decide_eq_true_2|].
    destruct (_ && _); [|done].
    destruct (style_key key) as [c|] eqn:Hs; [|done].
    apply bool_decide_eq_true_2.
    apply style_key_weather in Hs as [[_ ->]|[_ Hcm]].
    + unfold data.
      rewrite (monitoring_display_default cfg _ _ "status_color" Hw);
        [|by apply (bool_decide_unpack _)|done].
      unfold default_display. rewrite py_dict_lookup. by eexists.
    + destruct Hw as [Hw|[Hw _]]; [done|].
      apply Hw in Hcm as [v Hv].
      unfold data. rewrite monitoring_display_lookup, Hv.
      destruct (decide _); by eexists.
Qed.

End Styles.

(** ** The further properties at the sample inputs *)

(** X1 at a sample input.  The wind group of the first sample report:
    290 degrees, 8 kt. *)
Lemma wind_decoded_witness :
  Metar.parse_metar (Some metar_a) !! "wind_status" = Some (VStr "8 KTS") ∧
  Metar.parse_metar (Some metar_a) !! "wind_msg" = Some (VStr "290°") ∧
  Metar.parse_metar (Some metar_a) !! "wind_color" = Some (VStr "#DC582A").
Proof.
  destruct (wind_decoded metar_a) as [_ Hfirst]; [discriminate|].
  apply (Hfirst "2"%char "9"%char "0"%char "0"%char "8"%char "KSAN 041951Z"
           " 10SM FEW020 SCT250 22/14 A2992 RMK AO2");
    [reflexivity..|].
  apply (first_group_by_clear _ _ match_wind).
  vm_compute. repeat split.
Defined.

(** X2 at a sample input.  The visibility group of the first sample
    report: 10 miles. *)
Lemma visibility_decoded_witness :
  Metar.parse_metar (Some metar_a) !! "vis_status" = Some (VStr "10 SM") ∧
  Metar.parse_metar (Some metar_a) !! "vis_color" = Some (VStr "#017100").
Proof.
  destruct (visibility_decoded metar_a) as [_ Hfirst]; [discriminate|].
  apply (Hfirst "10" " 10SM " "KSAN 041951Z 29008KT"
           "FEW020 SCT250 22/14 A2992 RMK AO2").
  - right. exists "1"%char, "0"%char.
    split; [reflexivity|]. split; reflexivity.
  - reflexivity.
  - reflexivity.
  - apply (first_group_by_clear _ _ match_vis).
    vm_compute. repeat split.
Defined.

(** X3 at a sample input.  The altimeter group of the first sample
    report: 29.92 inches. *)
Lemma altimeter_decoded_witness :
  Metar.parse_metar (Some metar_a) !! "baro_status"
    = Some (VStr "29.92 inHg").
Proof.
  destruct (altimeter_decoded metar_a) as [_ Hfirst]; [discriminate|].
  apply (Hfirst "2"%char "9"%char "9"%char "2"%char
           "KSAN 041951Z 29008KT 10SM FEW020 SCT250 22/14" " RMK AO2");
    [reflexivity..|].
  apply (first_group_by_clear _ _ match_baro).
  vm_compute. repeat split.
Defined.

(** X4 at a sample input.  The temperature group of the first sample
    report: 22 degrees. *)
Lemma temperature_from_first_group_witness :
  Metar.parse_metar (Some metar_a) !! "weather_status" = Some (VStr "22°C").
Proof.
  destruct (temperature_from_first_group metar_a) as [_ Hfirst];
    [discriminate|].
  apply (Hfirst "2"%char "2"%char "1"%char "4"%char
           "KSAN 041951Z 29008KT 10SM FEW020 SCT250" "A2992 RMK AO2");
    [reflexivity..|].
  apply (first_group_by_clear _ _ match_temp).
  vm_compute. repeat split.
Defined.

(** X6 at a sample input.  The cloud message of the first sample report,
    whose last layer is scattered. *)
Lemma weather_message_decoded_witness :
  Metar.parse_metar (Some metar_a) !! "weather_msg"
    = Some (VStr "Scattered Clouds") ∧
  Metar.parse_metar (Some metar_a) !! "cloud_msg" = Some (VStr "Ceiling").
Proof.
  destruct (weather_message_decoded metar_a) as (Hc & Hlast & _);
    [discriminate|].
  destruct (Hlast "SCT" "2"%char "5"%char "0"%char
              "KSAN 041951Z 29008KT 10SM FEW020 " " 22/14 A2992 RMK AO2")
    as (_ & Hs & _).
  - by apply (bool_decide_unpack _).
  - reflexivity.
  - reflexivity.
  - reflexivity.
  - reflexivity.
  - apply (last_token_by_scan "KSAN 041951Z 29008KT 10SM FEW020 " "SCT250"
             " 22/14 A2992 RMK AO2" "S" "CT250 22/14 A2992 RMK AO2");
      [reflexivity|vm_compute; reflexivity].
  - split; [exact (Hs eq_refl)|exact Hc].
Defined.

(** X7 at a sample input.  A blank answer of the weather service empties
    the cache. *)
Lemma weather_cache_empty_iff_witness :
  cached_parsed_metar
    (get_display_data sample_config
       (tick_at 1400 "20:01:40" (Body blank_body)) state_idle).1 = ∅.
Proof.
  destruct (weather_cache_empty_iff sample_config
              (tick_at 1400 "20:01:40" (Body blank_body)) state_idle)
    as [[_ Hblank] _]; [reflexivity|].
  apply Hblank. right. right. exists blank_body.
  split; reflexivity.
Defined.

(** X10 at a sample input.  The weather is fetched at 1000 s; at 1300 s
    the gate is closed. *)
Lemma weather_poll_spacing_witness :
  last_metar_fetch
    (refresh_ui sample_config tick_no_flight initial_state).1 = 1000%Q ∧
  weather_due (refresh_ui sample_config tick_no_flight initial_state).1 1300
    = false.
Proof.
  destruct (weather_poll_spacing sample_config tick_no_flight
              (tick_at 1300 "20:00:00" (Body metar_b)) initial_state
              TransportError) as (H1 & H2 & _).
  - reflexivity.
  - by vm_compute.
  - split; [exact H1|exact H2].
Defined.

(** X11 at a sample input.  The captured sample flight, 100 s after the
    capture, with a flight service that would fail. *)
Lemma captured_makes_no_request_witness :
  get_display_data sample_config
    (with_flights TransportError TransportError
       (tick_at 1100 "19:56:40" (Body metar_a))) state_captured
  = get_display_data sample_config
      (tick_at 1100 "19:56:40" (Body metar_a)) state_captured.
Proof.
  destruct (captured_makes_no_request sample_config
              (tick_at 1100 "19:56:40" (Body metar_a)) state_captured
              TransportError TransportError) as (H & _).
  - reflexivity.
  - exact H.
Defined.

(** X12 at a sample input.  A search answered at 1000 s; the tick at
    1010 s asks nothing. *)
Lemma flight_poll_spacing_witness :
  last_flight_fetch
    (get_display_data sample_config tick_no_flight initial_state).1
    = 1000%Q ∧
  get_display_data sample_config
    (with_flights (Body [sample_search]) (Body [sample_enrich])
       (tick_at 1010 "19:55:10" (Body metar_a)))
    (get_display_data sample_config tick_no_flight initial_state).1
  = get_display_data sample_config
      (tick_at 1010 "19:55:10" (Body metar_a))
      (get_display_data sample_config tick_no_flight initial_state).1.
Proof.
  destruct (flight_poll_spacing sample_config tick_no_flight
              (tick_at 1010 "19:55:10" (Body metar_a)) initial_state []
              (Body [sample_search]) (Body [sample_enrich])) as (H1 & H2).
  - reflexivity.
  - reflexivity.
  - reflexivity.
  - by vm_compute.
  - split; [exact H1|exact H2].
Defined.

(** X13 at a sample input.  The capture of the sample flight. *)
Lemma capture_snapshot_witness :
  (get_display_data sample_config tick_capture initial_state).2
    = Some (flight_captured_info state_captured) ∧
  flight_captured_time state_captured = 1000%Q ∧
  flight_captured_info state_captured !! "calculated_altitude"
    = cached_flight_info state_captured !! "alt" ∧
  flight_captured_info state_captured !! "clock" = Some (VStr "19:55:00").
Proof.
  destruct (capture_snapshot sample_config tick_capture initial_state)
    as (H1 & H2 & _ & H3 & H4 & _).
  - by left.
  - reflexivity.
  - vm_compute. reflexivity.
  - split; [exact H1|]. split; [exact H2|]. split; [exact H3|exact H4].
Defined.

(** X14 at a sample input.  The record of the search has no take-off
    time; with the enrichment failed the tick raises, and so does the
    tick ten seconds later. *)
Lemma incomplete_record_raises_witness :
  (get_display_data sample_config tick_enrich_fails initial_state).2 = None ∧
  flight_captured
    (get_display_data sample_config tick_enrich_fails initial_state).1
    = false ∧
  (get_display_data sample_config (tick_at 1010 "19:55:10" (Body metar_a))
     (get_display_data sample_config tick_enrich_fails initial_state).1).2
    = None.
Proof.
  destruct (incomplete_record_raises sample_config tick_enrich_fails
              (tick_at 1010 "19:55:10" (Body metar_a)) initial_state
              "datetime_takeoff") as (H1 & H2 & H3).
  - reflexivity.
  - intros H. apply (f_equal (.!! "alt")) in H.
    vm_compute in H. discriminate H.
  - by apply (bool_decide_unpack _).
  - vm_compute. reflexivity.
  - destruct H3 as [H3 _]; [vm_compute; reflexivity|].
    split; [exact H1|]. split; [exact H2|exact H3].
Defined.

(** X15 at a sample input.  A record whose altitude is null is captured,
    and the tick raises; so does every tick after it. *)
Lemma non_numeric_altitude_sticks_witness :
  (refresh_ui sample_config tick_null_alt initial_state).2 = None ∧
  flight_captured (refresh_ui sample_config tick_null_alt initial_state).1
    = true ∧
  (refresh_ui sample_config (tick_at 1010 "19:55:10" (Body metar_a))
     (refresh_ui sample_config tick_null_alt initial_state).1).2 = None.
Proof.
  destruct (non_numeric_altitude_sticks sample_config tick_null_alt
              initial_state) as [Hcapture _].
  destruct Hcapture as (H1 & H2 & H3);
    [reflexivity|vm_compute; reflexivity|vm_compute; reflexivity|].
  destruct (non_numeric_altitude_sticks sample_config
              (tick_at 1010 "19:55:10" (Body metar_a))
              (refresh_ui sample_config tick_null_alt initial_state).1)
    as [_ Hstuck].
  destruct (Hstuck H2 H3) as (H4 & _).
  split; [exact H1|]. split; [exact H2|exact H4].
Defined.

(** X16 at a sample input.  The first tick with no flight around. *)
Lemma monitoring_tick_witness :
  ∃ data,
    refresh_ui sample_config tick_no_flight initial_state
    = (state_idle, Some data) ∧
    data !! "flight_number" = Some (VStr "MONITORING") ∧
    data !! "clock" = Some (VStr "19:55:00") ∧
    data !! "weather_status" = Some (VStr "22°C").
Proof.
  destruct (monitoring_tick sample_config tick_no_flight initial_state)
    as (data & H1 & _ & H2 & H3 & _ & _ & H4 & _).
  - by left.
  - reflexivity.
  - vm_compute. reflexivity.
  - exists data. split; [exact H1|]. split; [exact H2|]. split; [exact H3|].
    apply H4. vm_compute. reflexivity.
Defined.

(** X18 at a sample input.  A flight from an airport that the table does
    not list. *)
Lemma unknown_airport_raises_witness :
  (get_display_data sample_config tick_unknown_airport initial_state).2
    = None ∧
  flight_captured
    (get_display_data sample_config tick_unknown_airport initial_state).1
    = false.
Proof.
  apply (unknown_airport_raises sample_config tick_unknown_airport
           initial_state "orig_iata" (VStr "XXX")).
  - reflexivity.
  - by left.
  - vm_compute. reflexivity.
  - reflexivity.
Defined.

(** X19 at a sample input.  The first poll of the sample flight: the
    record of the search, merged with the record of the enrichment. *)
Lemma flight_poll_outcomes_witness :
  last_flight_fetch
    (get_display_data sample_config tick_capture initial_state).1 = 1000%Q ∧
  cached_flight_info
    (get_display_data sample_config tick_capture initial_state).1
    = enrich_merge sample_search sample_enrich.
Proof.
  destruct (flight_poll_outcomes sample_config tick_capture initial_state)
    as [_ Hfound]; [reflexivity|reflexivity|].
  destruct (Hfound sample_search [] eq_refl) as (H1 & _ & _ & H2).
  split; [exact H1|].
  apply (H2 sample_enrich []); [by eexists|reflexivity].
Defined.

(** X20 at a sample input.  The sample flight, captured at 3000 ft with
    600 ft a minute: kept at 325 s, dropped at 326 s. *)
Lemma reset_after_seconds_witness :
  flight_captured
    (refresh_ui sample_config (tick_at 1325 "20:00:25" (Body metar_a))
       state_captured).1 = true ∧
  flight_captured
    (refresh_ui sample_config (tick_at 1326 "20:00:26" (Body metar_a))
       state_captured).1 = false.
Proof.
  destruct (reset_after_seconds sample_config
              (tick_at 1325 "20:00:25" (Body metar_a)) state_captured 3000)
    as [_ Hkeep]; [reflexivity|reflexivity|reflexivity|].
  destruct (reset_after_seconds sample_config
              (tick_at 1326 "20:00:26" (Body metar_a)) state_captured 3000)
    as [Hdrop _]; [reflexivity|reflexivity|reflexivity|].
  split; [apply Hkeep; by vm_compute|apply Hdrop; by vm_compute].
Defined.

(** X22 at a sample input.  The first tick with a weather service that
    fails and a widget for the flight rules. *)
Lemma monitoring_style_lookups_witness :
  ∃ data,
    (refresh_ui sample_config (tick_at 1000 "19:55:00" TransportError)
       initial_state).2 = Some data ∧
    style_lookups sample_widgets data = false.
Proof.
  destruct (monitoring_style_lookups sample_config sample_widgets
              (tick_at 1000 "19:55:00" TransportError) initial_state)
    as (data & H1 & H2 & _).
  - by left.
  - reflexivity.
  - vm_compute. reflexivity.
  - exists data. split; [exact H1|]. apply H2.
    + vm_compute. reflexivity.
    + exists "ifr_status". split; by apply (bool_decide_unpack _).
Defined.
